(** * Notification upsert and resolution engine of the billing back office

    A shallow embedding of [routes/notifications.js] (the notification
    router), of the schema in [models/Notification.js] and of the socket
    handlers of the server entry file that write notifications, followed by
    the properties the specification states about them.

    Conventions of the embedding
    - a JavaScript value that may be [undefined] is an [option]; a field that
      is absent from an object and a field that holds [undefined] are the
      same [None];
    - a request body and a payload are modelled where every value already
      has the type of its path: a [Number] path holds an integer JSON number
      ([Z]; the comparisons of the code only use equality and order, [NaN]
      and fractions are outside the model), a [String] path a byte string, a
      [Boolean] path a boolean, a [Date] path the milliseconds since the
      epoch.  The code compares the values of a request as they arrive,
      before any cast of the schema, so a value of another type, such as the
      numeric string of a form-encoded body, behaves differently there and
      has no counterpart here;
    - [productId] is an [ObjectId] path.  The model keeps the string the
      request carries and compares it as a string; this is what the store
      does when the string is absent or is an ObjectId in the form the store
      prints, twenty-four lower-case hexadecimal digits
      ([objectIdOrAbsent]).  The schema refuses any other string, and the
      validators below do not model that refusal: the theorems that say a
      request with a [productId] is answered state [objectIdOrAbsent] as a
      hypothesis;
    - an [_id] of a request is one the store can hold ([nat]); a malformed
      id, which the store refuses with a cast error, is no value of the
      model;
    - [toLowerCase] maps the ASCII letters only and [toLocaleString] groups
      digits as the [en-US] locale does; the code maps other letters too and
      follows the locale of the process.  This bears on the value of a
      digest and on the text of a message, not on the statements below;
    - every handler reads the clock once ([now]); the code reads it several
      times within a few instructions;
    - the notification collection is a list in insertion order (the natural
      order [findOne] follows) together with the next fresh [_id]. *)

From Stdlib Require Import ZArith List String Ascii Bool Lia Permutation Sorted.
From Stdlib Require DecimalString.
Import ListNotations.
Open Scope string_scope.
Open Scope list_scope.
Open Scope Z_scope.

(** ** MD5 ([crypto.createHash('md5')], RFC 1321) *)

Module Md5.

Definition mask32 (x : Z) : Z := Z.land x 4294967295.

Definition rotl32 (x : Z) (c : Z) : Z :=
  mask32 (Z.lor (Z.shiftl x c) (Z.shiftr x (32 - c))).

Definition not32 (x : Z) : Z := Z.lxor x 4294967295.

Definition shifts : list Z :=
  [7; 12; 17; 22; 7; 12; 17; 22; 7; 12; 17; 22; 7; 12; 17; 22;
   5; 9; 14; 20; 5; 9; 14; 20; 5; 9; 14; 20; 5; 9; 14; 20;
   4; 11; 16; 23; 4; 11; 16; 23; 4; 11; 16; 23; 4; 11; 16; 23;
   6; 10; 15; 21; 6; 10; 15; 21; 6; 10; 15; 21; 6; 10; 15; 21].

Definition sines : list Z :=
  [3614090360; 3905402710; 606105819; 3250441966;
   4118548399; 1200080426; 2821735955; 4249261313;
   1770035416; 2336552879; 4294925233; 2304563134;
   1804603682; 4254626195; 2792965006; 1236535329;
   4129170786; 3225465664; 643717713; 3921069994;
   3593408605; 38016083; 3634488961; 3889429448;
   568446438; 3275163606; 4107603335; 1163531501;
   2850285829; 4243563512; 1735328473; 2368359562;
   4294588738; 2272392833; 1839030562; 4259657740;
   2763975236; 1272893353; 4139469664; 3200236656;
   681279174; 3936430074; 3572445317; 76029189;
   3654602809; 3873151461; 530742520; 3299628645;
   4096336452; 1126891415; 2878612391; 4237533241;
   1700485571; 2399980690; 4293915773; 2240044497;
   1873313359; 4264355552; 2734768916; 1309151649;
   4149444226; 3174756917; 718787259; 3951481745].

Record state := mkState { sa : Z; sb : Z; sc : Z; sd : Z }.

Definition init : state :=
  mkState 1732584193 4023233417 2562383102 271733878.

Definition round_fun (i : Z) (b c d : Z) : Z * Z :=
  if i <? 16 then (Z.lor (Z.land b c) (Z.land (not32 b) d), i)
  else if i <? 32 then
    (Z.lor (Z.land d b) (Z.land (not32 d) c), (5 * i + 1) mod 16)
  else if i <? 48 then (Z.lxor (Z.lxor b c) d, (3 * i + 5) mod 16)
  else (Z.lxor c (Z.lor b (not32 d)), (7 * i) mod 16).

Definition step (m : list Z) (st : state) (i : nat) : state :=
  let '(f, g) := round_fun (Z.of_nat i) (sb st) (sc st) (sd st) in
  let f' := mask32 (f + sa st + nth i sines 0 + nth (Z.to_nat g) m 0) in
  mkState (sd st) (mask32 (sb st + rotl32 f' (nth i shifts 0))) (sb st) (sc st).

Definition compress (st : state) (m : list Z) : state :=
  let st' := fold_left (step m) (seq 0 64) st in
  mkState (mask32 (sa st + sa st')) (mask32 (sb st + sb st'))
          (mask32 (sc st + sc st')) (mask32 (sd st + sd st')).

Definition bytes_of_string (s : string) : list Z :=
  map (fun c => Z.of_nat (nat_of_ascii c)) (list_ascii_of_string s).

Definition le_bytes (n : nat) (x : Z) : list Z :=
  map (fun k => Z.land (Z.shiftr x (8 * Z.of_nat k)) 255) (seq 0 n).

Definition pad (msg : list Z) : list Z :=
  let len := Z.of_nat (List.length msg) in
  let zeros := Z.to_nat ((55 - len) mod 64) in
  msg ++ [128] ++ repeat 0 zeros ++ le_bytes 8 (8 * len).

Definition word_of_bytes (bs : list Z) : Z :=
  fold_right (fun b acc => b + 256 * acc) 0 bs.

Fixpoint words (n : nat) (bs : list Z) : list Z :=
  match n with
  | O => []
  | S n' => word_of_bytes (firstn 4 bs) :: words n' (skipn 4 bs)
  end.

Fixpoint blocks (n : nat) (st : state) (bs : list Z) : state :=
  match n with
  | O => st
  | S n' => blocks n' (compress st (words 16 (firstn 64 bs))) (skipn 64 bs)
  end.

Definition digest_bytes (s : string) : list Z :=
  let p := pad (bytes_of_string s) in
  let st := blocks (Nat.div (List.length p) 64) init p in
  le_bytes 4 (sa st) ++ le_bytes 4 (sb st) ++ le_bytes 4 (sc st)
    ++ le_bytes 4 (sd st).

Definition hex_digit (x : Z) : ascii :=
  nth (Z.to_nat x)
      ["0"; "1"; "2"; "3"; "4"; "5"; "6"; "7";
       "8"; "9"; "a"; "b"; "c"; "d"; "e"; "f"]%char "0"%char.

Fixpoint hex (bs : list Z) : string :=
  match bs with
  | [] => ""
  | b :: bs' => String (hex_digit (b / 16)) (String (hex_digit (b mod 16)) (hex bs'))
  end.

(** [createHash('md5').update(s).digest('hex')] *)
Definition md5 (s : string) : string := hex (digest_bytes s).

End Md5.

(** ** JavaScript values *)

(** [s.toLowerCase()], on the ASCII letters. *)
Definition lower_ascii (c : ascii) : ascii :=
  let n := nat_of_ascii c in
  if (Nat.leb 65 n && Nat.leb n 90)%bool then ascii_of_nat (n + 32) else c.

Fixpoint toLowerCase (s : string) : string :=
  match s with
  | EmptyString => EmptyString
  | String c s' => String (lower_ascii c) (toLowerCase s')
  end.

(** [a || b] where [a] is a string or [undefined]: the empty string is falsy. *)
Definition orS (a : option string) (b : string) : string :=
  match a with
  | Some s => if String.eqb s "" then b else s
  | None => b
  end.

(** [a || b] where [a] is a number or [undefined]: zero is falsy. *)
Definition orN (a : option Z) (b : Z) : Z :=
  match a with
  | Some x => if Z.eqb x 0 then b else x
  | None => b
  end.

(** [a || b] where [a] is an object ([Date], [ObjectId]) or [undefined]. *)
Definition orElse {A : Type} (a b : option A) : option A :=
  match a with
  | Some _ => a
  | None => b
  end.

(** The truth value of a boolean that may be [undefined]. *)
Definition truthy (b : option bool) : bool :=
  match b with
  | Some true => true
  | _ => false
  end.

(** [`${x}`] for a string that may be [undefined]. *)
Definition strS (a : option string) : string :=
  match a with
  | Some s => s
  | None => "undefined"
  end.

(** [`${n}`] for an integer. *)
Definition strZ (n : Z) : string :=
  DecimalString.NilZero.string_of_int (Z.to_int n).

(** A template literal, from its pieces. *)
Definition template (pieces : list string) : string := String.concat "" pieces.

(** [a !== b], on values of one type that may be [undefined]. *)
Definition strictNeq {A : Type} (eqb : A -> A -> bool) (a b : option A) : bool :=
  match a, b with
  | Some x, Some y => negb (eqb x y)
  | None, None => false
  | _, _ => true
  end.

Definition neqS := strictNeq String.eqb.
Definition neqN := strictNeq Z.eqb.
Definition neqB := strictNeq Bool.eqb.

Definition eqS (a b : option string) : bool := negb (neqS a b).

(** ** The notification document ([models/Notification.js])

    [NotificationData] is the object handed to [upsertNotification] and to
    the model's constructor: the paths of the schema and the
    [preserveTimestamp] flag, which is no path of the schema and is therefore
    never stored.  The other keys a payload carries outside the schema
    ([createdBy], [updatedBy], [paymentStatus]) are dropped by the schema and
    read by nobody; they are left out, and so is an [_id] of the payload's
    own: the store assigns it. *)

Record NotificationData := mkNotificationData {
  type : option string;
  title : option string;
  message : option string;
  productId : option string;
  productName : option string;
  currentStock : option Z;
  minStock : option Z;
  orderId : option string;
  taxId : option string;
  invoiceNo : option string;
  billNumber : option string;
  invoiceNumber : option string;
  customerName : option string;
  customer : option string;
  customerPhone : option string;
  gstin : option string;
  amount : option Z;
  paymentMode : option string;
  daysSince : option Z;
  priority : option string;
  color : option string;
  icon : option string;
  isRead : option bool;
  isResolved : option bool;
  resolutionNote : option string;
  timestamp : option Z;
  lastUpdated : option Z;
  resolvedAt : option Z;
  notificationHash : option string;
  status : option string;
  isHighValue : option bool;
  preserveTimestamp : option bool
}.

(** The object with no field set. *)
Definition emptyObject : NotificationData :=
  {| type := None;
     title := None;
     message := None;
     productId := None;
     productName := None;
     currentStock := None;
     minStock := None;
     orderId := None;
     taxId := None;
     invoiceNo := None;
     billNumber := None;
     invoiceNumber := None;
     customerName := None;
     customer := None;
     customerPhone := None;
     gstin := None;
     amount := None;
     paymentMode := None;
     daysSince := None;
     priority := None;
     color := None;
     icon := None;
     isRead := None;
     isResolved := None;
     resolutionNote := None;
     timestamp := None;
     lastUpdated := None;
     resolvedAt := None;
     notificationHash := None;
     status := None;
     isHighValue := None;
     preserveTimestamp := None |}.

(** Assignment to one field, [{ ...n, f: v }]. *)
Definition set_type (v : option string) (n : NotificationData) : NotificationData :=
  mkNotificationData v (title n) (message n) (productId n) (productName n)
  (currentStock n) (minStock n) (orderId n) (taxId n) (invoiceNo n)
  (billNumber n) (invoiceNumber n) (customerName n) (customer n)
  (customerPhone n) (gstin n) (amount n) (paymentMode n) (daysSince n)
  (priority n) (color n) (icon n) (isRead n) (isResolved n)
  (resolutionNote n) (timestamp n) (lastUpdated n) (resolvedAt n)
  (notificationHash n) (status n) (isHighValue n) (preserveTimestamp n).

Definition set_title (v : option string) (n : NotificationData) : NotificationData :=
  mkNotificationData (type n) v (message n) (productId n) (productName n)
  (currentStock n) (minStock n) (orderId n) (taxId n) (invoiceNo n)
  (billNumber n) (invoiceNumber n) (customerName n) (customer n)
  (customerPhone n) (gstin n) (amount n) (paymentMode n) (daysSince n)
  (priority n) (color n) (icon n) (isRead n) (isResolved n)
  (resolutionNote n) (timestamp n) (lastUpdated n) (resolvedAt n)
  (notificationHash n) (status n) (isHighValue n) (preserveTimestamp n).

Definition set_message (v : option string) (n : NotificationData) : NotificationData :=
  mkNotificationData (type n) (title n) v (productId n) (productName n)
  (currentStock n) (minStock n) (orderId n) (taxId n) (invoiceNo n)
  (billNumber n) (invoiceNumber n) (customerName n) (customer n)
  (customerPhone n) (gstin n) (amount n) (paymentMode n) (daysSince n)
  (priority n) (color n) (icon n) (isRead n) (isResolved n)
  (resolutionNote n) (timestamp n) (lastUpdated n) (resolvedAt n)
  (notificationHash n) (status n) (isHighValue n) (preserveTimestamp n).

Definition set_productId (v : option string) (n : NotificationData) : NotificationData :=
  mkNotificationData (type n) (title n) (message n) v (productName n)
  (currentStock n) (minStock n) (orderId n) (taxId n) (invoiceNo n)
  (billNumber n) (invoiceNumber n) (customerName n) (customer n)
  (customerPhone n) (gstin n) (amount n) (paymentMode n) (daysSince n)
  (priority n) (color n) (icon n) (isRead n) (isResolved n)
  (resolutionNote n) (timestamp n) (lastUpdated n) (resolvedAt n)
  (notificationHash n) (status n) (isHighValue n) (preserveTimestamp n).

Definition set_productName (v : option string) (n : NotificationData) : NotificationData :=
  mkNotificationData (type n) (title n) (message n) (productId n) v
  (currentStock n) (minStock n) (orderId n) (taxId n) (invoiceNo n)
  (billNumber n) (invoiceNumber n) (customerName n) (customer n)
  (customerPhone n) (gstin n) (amount n) (paymentMode n) (daysSince n)
  (priority n) (color n) (icon n) (isRead n) (isResolved n)
  (resolutionNote n) (timestamp n) (lastUpdated n) (resolvedAt n)
  (notificationHash n) (status n) (isHighValue n) (preserveTimestamp n).

Definition set_currentStock (v : option Z) (n : NotificationData) : NotificationData :=
  mkNotificationData (type n) (title n) (message n) (productId n)
  (productName n) v (minStock n) (orderId n) (taxId n) (invoiceNo n)
  (billNumber n) (invoiceNumber n) (customerName n) (customer n)
  (customerPhone n) (gstin n) (amount n) (paymentMode n) (daysSince n)
  (priority n) (color n) (icon n) (isRead n) (isResolved n)
  (resolutionNote n) (timestamp n) (lastUpdated n) (resolvedAt n)
  (notificationHash n) (status n) (isHighValue n) (preserveTimestamp n).

Definition set_minStock (v : option Z) (n : NotificationData) : NotificationData :=
  mkNotificationData (type n) (title n) (message n) (productId n)
  (productName n) (currentStock n) v (orderId n) (taxId n) (invoiceNo n)
  (billNumber n) (invoiceNumber n) (customerName n) (customer n)
  (customerPhone n) (gstin n) (amount n) (paymentMode n) (daysSince n)
  (priority n) (color n) (icon n) (isRead n) (isResolved n)
  (resolutionNote n) (timestamp n) (lastUpdated n) (resolvedAt n)
  (notificationHash n) (status n) (isHighValue n) (preserveTimestamp n).

Definition set_orderId (v : option string) (n : NotificationData) : NotificationData :=
  mkNotificationData (type n) (title n) (message n) (productId n)
  (productName n) (currentStock n) (minStock n) v (taxId n) (invoiceNo n)
  (billNumber n) (invoiceNumber n) (customerName n) (customer n)
  (customerPhone n) (gstin n) (amount n) (paymentMode n) (daysSince n)
  (priority n) (color n) (icon n) (isRead n) (isResolved n)
  (resolutionNote n) (timestamp n) (lastUpdated n) (resolvedAt n)
  (notificationHash n) (status n) (isHighValue n) (preserveTimestamp n).

Definition set_taxId (v : option string) (n : NotificationData) : NotificationData :=
  mkNotificationData (type n) (title n) (message n) (productId n)
  (productName n) (currentStock n) (minStock n) (orderId n) v (invoiceNo n)
  (billNumber n) (invoiceNumber n) (customerName n) (customer n)
  (customerPhone n) (gstin n) (amount n) (paymentMode n) (daysSince n)
  (priority n) (color n) (icon n) (isRead n) (isResolved n)
  (resolutionNote n) (timestamp n) (lastUpdated n) (resolvedAt n)
  (notificationHash n) (status n) (isHighValue n) (preserveTimestamp n).

Definition set_invoiceNo (v : option string) (n : NotificationData) : NotificationData :=
  mkNotificationData (type n) (title n) (message n) (productId n)
  (productName n) (currentStock n) (minStock n) (orderId n) (taxId n) v
  (billNumber n) (invoiceNumber n) (customerName n) (customer n)
  (customerPhone n) (gstin n) (amount n) (paymentMode n) (daysSince n)
  (priority n) (color n) (icon n) (isRead n) (isResolved n)
  (resolutionNote n) (timestamp n) (lastUpdated n) (resolvedAt n)
  (notificationHash n) (status n) (isHighValue n) (preserveTimestamp n).

Definition set_billNumber (v : option string) (n : NotificationData) : NotificationData :=
  mkNotificationData (type n) (title n) (message n) (productId n)
  (productName n) (currentStock n) (minStock n) (orderId n) (taxId n)
  (invoiceNo n) v (invoiceNumber n) (customerName n) (customer n)
  (customerPhone n) (gstin n) (amount n) (paymentMode n) (daysSince n)
  (priority n) (color n) (icon n) (isRead n) (isResolved n)
  (resolutionNote n) (timestamp n) (lastUpdated n) (resolvedAt n)
  (notificationHash n) (status n) (isHighValue n) (preserveTimestamp n).

Definition set_invoiceNumber (v : option string) (n : NotificationData) : NotificationData :=
  mkNotificationData (type n) (title n) (message n) (productId n)
  (productName n) (currentStock n) (minStock n) (orderId n) (taxId n)
  (invoiceNo n) (billNumber n) v (customerName n) (customer n)
  (customerPhone n) (gstin n) (amount n) (paymentMode n) (daysSince n)
  (priority n) (color n) (icon n) (isRead n) (isResolved n)
  (resolutionNote n) (timestamp n) (lastUpdated n) (resolvedAt n)
  (notificationHash n) (status n) (isHighValue n) (preserveTimestamp n).

Definition set_customerName (v : option string) (n : NotificationData) : NotificationData :=
  mkNotificationData (type n) (title n) (message n) (productId n)
  (productName n) (currentStock n) (minStock n) (orderId n) (taxId n)
  (invoiceNo n) (billNumber n) (invoiceNumber n) v (customer n)
  (customerPhone n) (gstin n) (amount n) (paymentMode n) (daysSince n)
  (priority n) (color n) (icon n) (isRead n) (isResolved n)
  (resolutionNote n) (timestamp n) (lastUpdated n) (resolvedAt n)
  (notificationHash n) (status n) (isHighValue n) (preserveTimestamp n).

Definition set_customer (v : option string) (n : NotificationData) : NotificationData :=
  mkNotificationData (type n) (title n) (message n) (productId n)
  (productName n) (currentStock n) (minStock n) (orderId n) (taxId n)
  (invoiceNo n) (billNumber n) (invoiceNumber n) (customerName n) v
  (customerPhone n) (gstin n) (amount n) (paymentMode n) (daysSince n)
  (priority n) (color n) (icon n) (isRead n) (isResolved n)
  (resolutionNote n) (timestamp n) (lastUpdated n) (resolvedAt n)
  (notificationHash n) (status n) (isHighValue n) (preserveTimestamp n).

Definition set_customerPhone (v : option string) (n : NotificationData) : NotificationData :=
  mkNotificationData (type n) (title n) (message n) (productId n)
  (productName n) (currentStock n) (minStock n) (orderId n) (taxId n)
  (invoiceNo n) (billNumber n) (invoiceNumber n) (customerName n)
  (customer n) v (gstin n) (amount n) (paymentMode n) (daysSince n)
  (priority n) (color n) (icon n) (isRead n) (isResolved n)
  (resolutionNote n) (timestamp n) (lastUpdated n) (resolvedAt n)
  (notificationHash n) (status n) (isHighValue n) (preserveTimestamp n).

Definition set_gstin (v : option string) (n : NotificationData) : NotificationData :=
  mkNotificationData (type n) (title n) (message n) (productId n)
  (productName n) (currentStock n) (minStock n) (orderId n) (taxId n)
  (invoiceNo n) (billNumber n) (invoiceNumber n) (customerName n)
  (customer n) (customerPhone n) v (amount n) (paymentMode n) (daysSince n)
  (priority n) (color n) (icon n) (isRead n) (isResolved n)
  (resolutionNote n) (timestamp n) (lastUpdated n) (resolvedAt n)
  (notificationHash n) (status n) (isHighValue n) (preserveTimestamp n).

Definition set_amount (v : option Z) (n : NotificationData) : NotificationData :=
  mkNotificationData (type n) (title n) (message n) (productId n)
  (productName n) (currentStock n) (minStock n) (orderId n) (taxId n)
  (invoiceNo n) (billNumber n) (invoiceNumber n) (customerName n)
  (customer n) (customerPhone n) (gstin n) v (paymentMode n) (daysSince n)
  (priority n) (color n) (icon n) (isRead n) (isResolved n)
  (resolutionNote n) (timestamp n) (lastUpdated n) (resolvedAt n)
  (notificationHash n) (status n) (isHighValue n) (preserveTimestamp n).

Definition set_paymentMode (v : option string) (n : NotificationData) : NotificationData :=
  mkNotificationData (type n) (title n) (message n) (productId n)
  (productName n) (currentStock n) (minStock n) (orderId n) (taxId n)
  (invoiceNo n) (billNumber n) (invoiceNumber n) (customerName n)
  (customer n) (customerPhone n) (gstin n) (amount n) v (daysSince n)
  (priority n) (color n) (icon n) (isRead n) (isResolved n)
  (resolutionNote n) (timestamp n) (lastUpdated n) (resolvedAt n)
  (notificationHash n) (status n) (isHighValue n) (preserveTimestamp n).

Definition set_daysSince (v : option Z) (n : NotificationData) : NotificationData :=
  mkNotificationData (type n) (title n) (message n) (productId n)
  (productName n) (currentStock n) (minStock n) (orderId n) (taxId n)
  (invoiceNo n) (billNumber n) (invoiceNumber n) (customerName n)
  (customer n) (customerPhone n) (gstin n) (amount n) (paymentMode n) v
  (priority n) (color n) (icon n) (isRead n) (isResolved n)
  (resolutionNote n) (timestamp n) (lastUpdated n) (resolvedAt n)
  (notificationHash n) (status n) (isHighValue n) (preserveTimestamp n).

Definition set_priority (v : option string) (n : NotificationData) : NotificationData :=
  mkNotificationData (type n) (title n) (message n) (productId n)
  (productName n) (currentStock n) (minStock n) (orderId n) (taxId n)
  (invoiceNo n) (billNumber n) (invoiceNumber n) (customerName n)
  (customer n) (customerPhone n) (gstin n) (amount n) (paymentMode n)
  (daysSince n) v (color n) (icon n) (isRead n) (isResolved n)
  (resolutionNote n) (timestamp n) (lastUpdated n) (resolvedAt n)
  (notificationHash n) (status n) (isHighValue n) (preserveTimestamp n).

Definition set_color (v : option string) (n : NotificationData) : NotificationData :=
  mkNotificationData (type n) (title n) (message n) (productId n)
  (productName n) (currentStock n) (minStock n) (orderId n) (taxId n)
  (invoiceNo n) (billNumber n) (invoiceNumber n) (customerName n)
  (customer n) (customerPhone n) (gstin n) (amount n) (paymentMode n)
  (daysSince n) (priority n) v (icon n) (isRead n) (isResolved n)
  (resolutionNote n) (timestamp n) (lastUpdated n) (resolvedAt n)
  (notificationHash n) (status n) (isHighValue n) (preserveTimestamp n).

Definition set_icon (v : option string) (n : NotificationData) : NotificationData :=
  mkNotificationData (type n) (title n) (message n) (productId n)
  (productName n) (currentStock n) (minStock n) (orderId n) (taxId n)
  (invoiceNo n) (billNumber n) (invoiceNumber n) (customerName n)
  (customer n) (customerPhone n) (gstin n) (amount n) (paymentMode n)
  (daysSince n) (priority n) (color n) v (isRead n) (isResolved n)
  (resolutionNote n) (timestamp n) (lastUpdated n) (resolvedAt n)
  (notificationHash n) (status n) (isHighValue n) (preserveTimestamp n).

Definition set_isRead (v : option bool) (n : NotificationData) : NotificationData :=
  mkNotificationData (type n) (title n) (message n) (productId n)
  (productName n) (currentStock n) (minStock n) (orderId n) (taxId n)
  (invoiceNo n) (billNumber n) (invoiceNumber n) (customerName n)
  (customer n) (customerPhone n) (gstin n) (amount n) (paymentMode n)
  (daysSince n) (priority n) (color n) (icon n) v (isResolved n)
  (resolutionNote n) (timestamp n) (lastUpdated n) (resolvedAt n)
  (notificationHash n) (status n) (isHighValue n) (preserveTimestamp n).

Definition set_isResolved (v : option bool) (n : NotificationData) : NotificationData :=
  mkNotificationData (type n) (title n) (message n) (productId n)
  (productName n) (currentStock n) (minStock n) (orderId n) (taxId n)
  (invoiceNo n) (billNumber n) (invoiceNumber n) (customerName n)
  (customer n) (customerPhone n) (gstin n) (amount n) (paymentMode n)
  (daysSince n) (priority n) (color n) (icon n) (isRead n) v
  (resolutionNote n) (timestamp n) (lastUpdated n) (resolvedAt n)
  (notificationHash n) (status n) (isHighValue n) (preserveTimestamp n).

Definition set_resolutionNote (v : option string) (n : NotificationData) : NotificationData :=
  mkNotificationData (type n) (title n) (message n) (productId n)
  (productName n) (currentStock n) (minStock n) (orderId n) (taxId n)
  (invoiceNo n) (billNumber n) (invoiceNumber n) (customerName n)
  (customer n) (customerPhone n) (gstin n) (amount n) (paymentMode n)
  (daysSince n) (priority n) (color n) (icon n) (isRead n) (isResolved n) v
  (timestamp n) (lastUpdated n) (resolvedAt n) (notificationHash n)
  (status n) (isHighValue n) (preserveTimestamp n).

Definition set_timestamp (v : option Z) (n : NotificationData) : NotificationData :=
  mkNotificationData (type n) (title n) (message n) (productId n)
  (productName n) (currentStock n) (minStock n) (orderId n) (taxId n)
  (invoiceNo n) (billNumber n) (invoiceNumber n) (customerName n)
  (customer n) (customerPhone n) (gstin n) (amount n) (paymentMode n)
  (daysSince n) (priority n) (color n) (icon n) (isRead n) (isResolved n)
  (resolutionNote n) v (lastUpdated n) (resolvedAt n) (notificationHash n)
  (status n) (isHighValue n) (preserveTimestamp n).

Definition set_lastUpdated (v : option Z) (n : NotificationData) : NotificationData :=
  mkNotificationData (type n) (title n) (message n) (productId n)
  (productName n) (currentStock n) (minStock n) (orderId n) (taxId n)
  (invoiceNo n) (billNumber n) (invoiceNumber n) (customerName n)
  (customer n) (customerPhone n) (gstin n) (amount n) (paymentMode n)
  (daysSince n) (priority n) (color n) (icon n) (isRead n) (isResolved n)
  (resolutionNote n) (timestamp n) v (resolvedAt n) (notificationHash n)
  (status n) (isHighValue n) (preserveTimestamp n).

Definition set_resolvedAt (v : option Z) (n : NotificationData) : NotificationData :=
  mkNotificationData (type n) (title n) (message n) (productId n)
  (productName n) (currentStock n) (minStock n) (orderId n) (taxId n)
  (invoiceNo n) (billNumber n) (invoiceNumber n) (customerName n)
  (customer n) (customerPhone n) (gstin n) (amount n) (paymentMode n)
  (daysSince n) (priority n) (color n) (icon n) (isRead n) (isResolved n)
  (resolutionNote n) (timestamp n) (lastUpdated n) v (notificationHash n)
  (status n) (isHighValue n) (preserveTimestamp n).

Definition set_notificationHash (v : option string) (n : NotificationData) : NotificationData :=
  mkNotificationData (type n) (title n) (message n) (productId n)
  (productName n) (currentStock n) (minStock n) (orderId n) (taxId n)
  (invoiceNo n) (billNumber n) (invoiceNumber n) (customerName n)
  (customer n) (customerPhone n) (gstin n) (amount n) (paymentMode n)
  (daysSince n) (priority n) (color n) (icon n) (isRead n) (isResolved n)
  (resolutionNote n) (timestamp n) (lastUpdated n) (resolvedAt n) v
  (status n) (isHighValue n) (preserveTimestamp n).

Definition set_status (v : option string) (n : NotificationData) : NotificationData :=
  mkNotificationData (type n) (title n) (message n) (productId n)
  (productName n) (currentStock n) (minStock n) (orderId n) (taxId n)
  (invoiceNo n) (billNumber n) (invoiceNumber n) (customerName n)
  (customer n) (customerPhone n) (gstin n) (amount n) (paymentMode n)
  (daysSince n) (priority n) (color n) (icon n) (isRead n) (isResolved n)
  (resolutionNote n) (timestamp n) (lastUpdated n) (resolvedAt n)
  (notificationHash n) v (isHighValue n) (preserveTimestamp n).

Definition set_isHighValue (v : option bool) (n : NotificationData) : NotificationData :=
  mkNotificationData (type n) (title n) (message n) (productId n)
  (productName n) (currentStock n) (minStock n) (orderId n) (taxId n)
  (invoiceNo n) (billNumber n) (invoiceNumber n) (customerName n)
  (customer n) (customerPhone n) (gstin n) (amount n) (paymentMode n)
  (daysSince n) (priority n) (color n) (icon n) (isRead n) (isResolved n)
  (resolutionNote n) (timestamp n) (lastUpdated n) (resolvedAt n)
  (notificationHash n) (status n) v (preserveTimestamp n).

Definition set_preserveTimestamp (v : option bool) (n : NotificationData) : NotificationData :=
  mkNotificationData (type n) (title n) (message n) (productId n)
  (productName n) (currentStock n) (minStock n) (orderId n) (taxId n)
  (invoiceNo n) (billNumber n) (invoiceNumber n) (customerName n)
  (customer n) (customerPhone n) (gstin n) (amount n) (paymentMode n)
  (daysSince n) (priority n) (color n) (icon n) (isRead n) (isResolved n)
  (resolutionNote n) (timestamp n) (lastUpdated n) (resolvedAt n)
  (notificationHash n) (status n) (isHighValue n) v.

(** [Object.assign(doc, upd)] restricted to the schema paths: a path the
    update does not mention keeps its value. *)
Definition assign (upd doc : NotificationData) : NotificationData :=
  {| type := orElse (type upd) (type doc);
     title := orElse (title upd) (title doc);
     message := orElse (message upd) (message doc);
     productId := orElse (productId upd) (productId doc);
     productName := orElse (productName upd) (productName doc);
     currentStock := orElse (currentStock upd) (currentStock doc);
     minStock := orElse (minStock upd) (minStock doc);
     orderId := orElse (orderId upd) (orderId doc);
     taxId := orElse (taxId upd) (taxId doc);
     invoiceNo := orElse (invoiceNo upd) (invoiceNo doc);
     billNumber := orElse (billNumber upd) (billNumber doc);
     invoiceNumber := orElse (invoiceNumber upd) (invoiceNumber doc);
     customerName := orElse (customerName upd) (customerName doc);
     customer := orElse (customer upd) (customer doc);
     customerPhone := orElse (customerPhone upd) (customerPhone doc);
     gstin := orElse (gstin upd) (gstin doc);
     amount := orElse (amount upd) (amount doc);
     paymentMode := orElse (paymentMode upd) (paymentMode doc);
     daysSince := orElse (daysSince upd) (daysSince doc);
     priority := orElse (priority upd) (priority doc);
     color := orElse (color upd) (color doc);
     icon := orElse (icon upd) (icon doc);
     isRead := orElse (isRead upd) (isRead doc);
     isResolved := orElse (isResolved upd) (isResolved doc);
     resolutionNote := orElse (resolutionNote upd) (resolutionNote doc);
     timestamp := orElse (timestamp upd) (timestamp doc);
     lastUpdated := orElse (lastUpdated upd) (lastUpdated doc);
     resolvedAt := orElse (resolvedAt upd) (resolvedAt doc);
     notificationHash := orElse (notificationHash upd) (notificationHash doc);
     status := orElse (status upd) (status doc);
     isHighValue := orElse (isHighValue upd) (isHighValue doc);
     preserveTimestamp := None |}.

(** ** Hash key deriver *)

Definition sep : string := "_".

Definition hashString (notificationData : NotificationData) : string :=
  let type' := orS (type notificationData) "" in
  let productId' := orS (productId notificationData) "" in
  let orderId' := orS (orderId notificationData) "" in
  let taxId' := orS (taxId notificationData) "" in
  let invoiceNo' :=
    orS (invoiceNo notificationData) (orS (invoiceNumber notificationData) "") in
  let customerName' :=
    orS (customerName notificationData) (orS (customer notificationData) "") in
  let billNumber' := orS (billNumber notificationData) "" in
  let gstin' := orS (gstin notificationData) "" in
  toLowerCase
    (String.concat sep
       [type'; productId'; orderId'; taxId'; invoiceNo'; customerName';
        billNumber'; gstin']).

Definition generateNotificationHash (notificationData : NotificationData) : string :=
  Md5.md5 (hashString notificationData).

(** An object as a caller writes it: its string-valued entries in the order
    of the source text ([JSON.parse], an object literal); a later entry of a
    key overrides an earlier one, and a key that is no string path of the
    schema is dropped. *)
Definition setEntry (obj : NotificationData) (entry : string * string)
    : NotificationData :=
  let (key, v) := entry in
  if String.eqb key "type" then set_type (Some v) obj
  else if String.eqb key "title" then set_title (Some v) obj
  else if String.eqb key "message" then set_message (Some v) obj
  else if String.eqb key "productId" then set_productId (Some v) obj
  else if String.eqb key "productName" then set_productName (Some v) obj
  else if String.eqb key "orderId" then set_orderId (Some v) obj
  else if String.eqb key "taxId" then set_taxId (Some v) obj
  else if String.eqb key "invoiceNo" then set_invoiceNo (Some v) obj
  else if String.eqb key "billNumber" then set_billNumber (Some v) obj
  else if String.eqb key "invoiceNumber" then set_invoiceNumber (Some v) obj
  else if String.eqb key "customerName" then set_customerName (Some v) obj
  else if String.eqb key "customer" then set_customer (Some v) obj
  else if String.eqb key "customerPhone" then set_customerPhone (Some v) obj
  else if String.eqb key "gstin" then set_gstin (Some v) obj
  else if String.eqb key "paymentMode" then set_paymentMode (Some v) obj
  else if String.eqb key "priority" then set_priority (Some v) obj
  else if String.eqb key "color" then set_color (Some v) obj
  else if String.eqb key "icon" then set_icon (Some v) obj
  else if String.eqb key "status" then set_status (Some v) obj
  else obj.

Definition fromEntries (entries : list (string * string)) : NotificationData :=
  fold_left setEntry entries emptyObject.

(** ** The notification collection *)

(** A stored document: the paths of the schema under the [_id] of the store. *)
Record Notification := mkNotification {
  _id : nat;
  paths :> NotificationData
}.

(** What a handler can throw.  [MongoServerError code keyValue] carries
    [error.code] and [error.keyValue.notificationHash]; [ValidationError]
    lists the paths the schema refuses; [TypeError] is the access to a field
    of [null]; [QueryError] is a query of a domain collection that fails. *)
Inductive error :=
| ValidationError (errors : list string)
| MongoServerError (code : Z) (keyValue : string)
| TypeError
| QueryError (reason : string).

(** The events of the broadcast channel ([io.emit]); the [timestamp] each
    one carries is the clock of the handler and is left out. *)
Inductive event :=
| notification_created (notification : Notification) (source hash : string)
| notification_updated (notification : Notification) (oldId : nat)
    (source : string) (hash : option string)
| notification_resolved (notificationId : nat) (hash : option string)
    (note source : string)
| notification_deleted (notificationId : nat) (hash : option string)
    (source : string)
| stock_updated (product : option string) (currentStock' minStock' : Z)
    (alertsRemoved : nat)
| new_notification (notification : Notification)
| notification_read (notificationId : nat)
| all_notifications_read
| socket_notification_deleted (notificationId : nat).

(** The collection, the next [_id] and the events published so far. *)
Record World := mkWorld {
  docs : list Notification;
  nextId : nat;
  emitted : list event
}.

Definition emit (io : bool) (e : event) (w : World) : World :=
  if io then mkWorld (docs w) (nextId w) (emitted w ++ [e]) else w.

Definition with_docs (ds : list Notification) (w : World) : World :=
  mkWorld ds (nextId w) (emitted w).

(** *** Schema: enumerations, required paths, defaults *)

Definition typeEnum : list string :=
  ["Low Stock"; "Out of Stock"; "Payment Alert"; "GST Alert"; "System Alert"].
Definition priorityEnum : list string := ["low"; "medium"; "high"].
Definition colorEnum : list string :=
  ["red"; "orange"; "yellow"; "green"; "blue"; "purple"; "gray"].

Definition inEnum (values : list string) (v : option string) : bool :=
  match v with
  | Some s => existsb (String.eqb s) values
  | None => true
  end.

Definition required (v : option string) : bool :=
  match v with
  | Some s => negb (String.eqb s "")
  | None => false
  end.

Definition check (path : string) (ok : bool) : list string :=
  if ok then [] else [path].

(** An [ObjectId] as the store prints it: twenty-four lower-case hexadecimal
    digits. *)
Definition hexDigit (c : ascii) : bool :=
  let n := nat_of_ascii c in
  (Nat.leb 48 n && Nat.leb n 57) || (Nat.leb 97 n && Nat.leb n 102).

Definition isObjectId (s : string) : bool :=
  Nat.eqb (String.length s) 24 && forallb hexDigit (list_ascii_of_string s).

(** The values of the [productId] of a request on which the model and the
    store agree. *)
Definition objectIdOrAbsent (product : option string) : Prop :=
  match product with
  | Some s => isObjectId s = true
  | None => True
  end.

(** The validators [save] runs on a whole document.  The cast of
    [productId] to an [ObjectId] is not among them (see the conventions). *)
Definition validateDocument (n : NotificationData) : list string :=
  check "type" (required (type n) && inEnum typeEnum (type n))
  ++ check "title" (required (title n))
  ++ check "message" (required (message n))
  ++ check "priority" (inEnum priorityEnum (priority n))
  ++ check "color" (inEnum colorEnum (color n)).

(** The validators [runValidators: true] runs on the paths an update sets. *)
Definition validateUpdate (upd : NotificationData) : list string :=
  let set (v : option string) (ok : bool) :=
    match v with Some _ => ok | None => true end in
  check "type" (set (type upd) (required (type upd) && inEnum typeEnum (type upd)))
  ++ check "title" (set (title upd) (required (title upd)))
  ++ check "message" (set (message upd) (required (message upd)))
  ++ check "priority" (inEnum priorityEnum (priority upd))
  ++ check "color" (inEnum colorEnum (color upd)).

(** [new Notification(obj)]: the defaults of the schema fill the paths the
    object leaves out, and what is no path of the schema is dropped. *)
Definition applyDefaults (now : Z) (obj : NotificationData) : NotificationData :=
  assign obj
    (set_priority (Some "medium")
    (set_color (Some "gray")
    (set_icon (Some "Bell")
    (set_isRead (Some false)
    (set_isResolved (Some false)
    (set_timestamp (Some now)
    (set_lastUpdated (Some now) emptyObject))))))).

(** *** Queries and writes *)

(** The filter [{ notificationHash: h }]. *)
Definition hasHash (h : string) (n : Notification) : bool :=
  eqS (notificationHash n) (Some h).

(** The filter [{ timestamp: { $gte: t } }]. *)
Definition since (t : Z) (n : Notification) : bool :=
  match timestamp n with
  | Some ts => t <=? ts
  | None => false
  end.

Definition find (filter : Notification -> bool) (w : World) : list Notification :=
  List.filter filter (docs w).

Definition findOne (filter : Notification -> bool) (w : World) : option Notification :=
  List.find filter (docs w).

Definition hasId (id : nat) (n : Notification) : bool := Nat.eqb (_id n) id.

Definition findById (id : nat) (w : World) : option Notification :=
  findOne (hasId id) w.

(** The unique sparse index on [notificationHash]: a document that has the
    path may not share its value with another document. *)
Definition indexConflict (self : option nat) (h : option string) (w : World) : bool :=
  match h with
  | Some h' =>
      existsb (fun n => hasHash h' n
                        && match self with
                           | Some id => negb (hasId id n)
                           | None => true
                           end) (docs w)
  | None => false
  end.

(** [doc.save()] of a new document. *)
Definition save (n : NotificationData) (w : World) : error + Notification * World :=
  match validateDocument n with
  | [] =>
      if indexConflict None (notificationHash n) w
      then inl (MongoServerError 11000 (orS (notificationHash n) ""))
      else
        let saved := mkNotification (nextId w) n in
        inr (saved, mkWorld (docs w ++ [saved]) (S (nextId w)) (emitted w))
  | errors => inl (ValidationError errors)
  end.

Definition replace (d : Notification) (ds : list Notification) : list Notification :=
  map (fun n => if hasId (_id d) n then d else n) ds.

(** [findOneAndUpdate({ _id: id }, upd, { new: true, runValidators })]:
    [null] when no document has the [_id]; the index is consulted when the
    update changes the hash. *)
Definition updateById (id : nat) (upd : NotificationData) (runValidators : bool)
    (w : World) : error + option Notification * World :=
  match (if runValidators then validateUpdate upd else []) with
  | [] =>
      match findById id w with
      | None => inr (None, w)
      | Some old =>
          let d := mkNotification id (assign upd old) in
          if neqS (notificationHash d) (notificationHash old)
             && indexConflict (Some id) (notificationHash d) w
          then inl (MongoServerError 11000 (orS (notificationHash d) ""))
          else inr (Some d, with_docs (replace d (docs w)) w)
      end
  | errors => inl (ValidationError errors)
  end.

(** [updateMany(filter, upd)] for an update that leaves [notificationHash]. *)
Definition updateMany (filter : Notification -> bool) (upd : NotificationData)
    (w : World) : World :=
  with_docs
    (map (fun n => if filter n then mkNotification (_id n) (assign upd n) else n)
         (docs w)) w.

(** [deleteMany(filter)]: the world without the documents the filter
    selects, and [deletedCount]. *)
Definition deleteMany (filter : Notification -> bool) (w : World) : nat * World :=
  (List.length (List.filter filter (docs w)),
   with_docs (List.filter (fun n => negb (filter n)) (docs w)) w).

(** ** Upsert engine *)

Record UpsertResult := mkUpsertResult {
  notification : Notification;
  isNew : bool;
  updated : bool;
  action : string
}.

(** What a call leaves behind: the value returned or the error thrown, and
    the world after it. *)
Definition outcome (A : Type) : Type := (error + A) * World.

Definition thirtyDays : Z := 30 * 24 * 60 * 60 * 1000.

Definition hasChanges (existingNotification : Notification)
    (notificationData : NotificationData) : bool :=
  neqN (currentStock existingNotification) (currentStock notificationData)
  || neqN (amount existingNotification) (amount notificationData)
  || neqN (daysSince existingNotification) (daysSince notificationData)
  || neqS (priority existingNotification) (priority notificationData)
  || neqS (type existingNotification) (type notificationData)
  || neqS (message existingNotification) (message notificationData)
  || neqS (title existingNotification) (title notificationData)
  || neqB (isRead existingNotification) (isRead notificationData)
  || neqB (isResolved existingNotification) (isResolved notificationData)
  || neqS (color existingNotification) (color notificationData)
  || neqS (paymentMode existingNotification) (paymentMode notificationData)
  || neqS (customerPhone existingNotification) (customerPhone notificationData)
  || neqS (invoiceNumber existingNotification) (invoiceNumber notificationData).

(** The [catch] of [upsertNotification]: a duplicate key error is answered
    by the document that holds the key, any other error is thrown again. *)
Definition recover (err : error) (w : World) : outcome UpsertResult :=
  match err with
  | MongoServerError code keyValue =>
      if code =? 11000 then
        match findOne (hasHash keyValue) w with
        | Some existingNotification =>
            (inr (mkUpsertResult existingNotification false false "recovered"), w)
        | None => (inl err, w)
        end
      else (inl err, w)
  | _ => (inl err, w)
  end.

(** The filter of the lookup: the hash, and a [timestamp] within the last
    thirty days. *)
Definition lookupFilter (now : Z) (h : string) (n : Notification) : bool :=
  hasHash h n && since (now - thirtyDays) n.

(** The object of the update: the payload, then [lastUpdated] and
    [timestamp]. *)
Definition updateObject (now : Z) (existingNotification : Notification)
    (notificationData : NotificationData) : NotificationData :=
  set_timestamp
    (if truthy (preserveTimestamp notificationData)
     then timestamp existingNotification else Some now)
    (set_lastUpdated (Some now) notificationData).

(** The object of the insert: the payload, then the hash, [timestamp],
    [lastUpdated] and [isResolved: false]. *)
Definition insertObject (now : Z) (h : string)
    (notificationData : NotificationData) : NotificationData :=
  set_isResolved (Some false)
    (set_lastUpdated (Some now)
    (set_timestamp (Some now)
    (set_notificationHash (Some h) notificationData))).

Definition upsertNotification (now : Z) (notificationData : NotificationData)
    (io : bool) (source : string) (w : World) : outcome UpsertResult :=
  let h := orS (notificationHash notificationData)
               (generateNotificationHash notificationData) in
  match findOne (lookupFilter now h) w with
  | Some existingNotification =>
      if hasChanges existingNotification notificationData then
        match updateById (_id existingNotification)
                (updateObject now existingNotification notificationData) true w with
        | inr (Some updatedNotification, w1) =>
            (inr (mkUpsertResult updatedNotification false true "updated"),
             emit io (notification_updated updatedNotification
                        (_id existingNotification) source (Some h)) w1)
        | inr (None, w1) => recover TypeError w1
        | inl err => recover err w
        end
      else
        (inr (mkUpsertResult existingNotification false false "unchanged"), w)
  | None =>
      match save (applyDefaults now (insertObject now h notificationData)) w with
      | inr (newNotification, w1) =>
          (inr (mkUpsertResult newNotification true false "created"),
           emit io (notification_created newNotification source h) w1)
      | inl err => recover err w
      end
  end.

(** ** Route handlers *)

(** What a handler sends: [res.json(body)], or [res.status(code).json({ error })]. *)
Inductive response (A : Type) :=
| json (body : A)
| fail (code : nat) (reason : string).
Arguments json {A} body.
Arguments fail {A} code reason.

(** The filters [{ isResolved: false }], [{ isResolved: true }], and so on. *)
Definition unresolved (n : Notification) : bool := negb (neqB (isResolved n) (Some false)).
Definition resolved (n : Notification) : bool := negb (neqB (isResolved n) (Some true)).
Definition unread (n : Notification) : bool := negb (neqB (isRead n) (Some false)).
Definition read (n : Notification) : bool := negb (neqB (isRead n) (Some true)).

(** *** POST /check-stock *)

Definition stockTypes : list string := ["Low Stock"; "Out of Stock"].

(** The filter [{ productId, type: { $in: ['Low Stock', 'Out of Stock'] } }].
    The product ids are compared as strings, which is the comparison of the
    store for ids that satisfy [objectIdOrAbsent]. *)
Definition stockAlertOf (product : option string) (n : Notification) : bool :=
  negb (neqS (productId n) product)
  && match type n with
     | Some t => existsb (String.eqb t) stockTypes
     | None => false
     end.

Definition outOfStockData (product name : option string) (stock minimum : Z)
    : NotificationData :=
  {| type := Some "Out of Stock";
     title := Some "Out of Stock Alert";
     message := Some (template [strS name; " is completely out of stock"]);
     productId := product;
     productName := name;
     currentStock := Some stock;
     minStock := Some minimum;
     orderId := None; taxId := None; invoiceNo := None; billNumber := None;
     invoiceNumber := None; customerName := None; customer := None;
     customerPhone := None; gstin := None; amount := None;
     paymentMode := None; daysSince := None;
     priority := Some "high";
     color := Some "red";
     icon := Some "Package";
     isRead := None; isResolved := None; resolutionNote := None;
     timestamp := None; lastUpdated := None; resolvedAt := None;
     notificationHash := None; status := None; isHighValue := None;
     preserveTimestamp := None |}.

Definition lowStockData (product name : option string) (stock minimum : Z)
    : NotificationData :=
  {| type := Some "Low Stock";
     title := Some (if stock <=? 2 then "Critical Stock Alert" else "Low Stock Warning");
     message :=
       Some (template [strS name; " stock is ";
                       if stock <=? 2 then "critically" else "";
                       " low ("; strZ stock; " units remaining)"]);
     productId := product;
     productName := name;
     currentStock := Some stock;
     minStock := Some minimum;
     orderId := None; taxId := None; invoiceNo := None; billNumber := None;
     invoiceNumber := None; customerName := None; customer := None;
     customerPhone := None; gstin := None; amount := None;
     paymentMode := None; daysSince := None;
     priority :=
       Some (if stock <=? 2 then "high" else if stock <=? 5 then "medium" else "low");
     color := Some (if stock <=? 2 then "red" else "orange");
     icon := Some "Package";
     isRead := None; isResolved := None; resolutionNote := None;
     timestamp := None; lastUpdated := None; resolvedAt := None;
     notificationHash := None; status := None; isHighValue := None;
     preserveTimestamp := None |}.

(** The body of the answer: [status], the result of the upsert when one was
    made, and [deletedCount]. *)
Record StockBody := mkStockBody {
  stockStatus : string;
  upsertResult : option UpsertResult;
  deletedCount : nat
}.

Definition alertBody (result : UpsertResult) : StockBody :=
  mkStockBody
    (if String.eqb (action result) "created" then "alert_created" else "alert_updated")
    (Some result) 0.

Definition emitAll (io : bool) (events : list event) (w : World) : World :=
  fold_left (fun w' e => emit io e w') events w.

Definition checkStock (now : Z) (io : bool) (product name : option string)
    (currentStock' minStock' : option Z) (w : World)
    : response StockBody * World :=
  match currentStock', minStock' with
  | Some stock, Some minimum =>
      if stock =? 0 then
        match upsertNotification now (outOfStockData product name stock minimum)
                io "stock_service" w with
        | (inr result, w1) => (json (alertBody result), w1)
        | (inl _, w1) => (fail 500 "Error checking stock", w1)
        end
      else if (0 <? stock) && (stock <=? minimum) then
        match upsertNotification now (lowStockData product name stock minimum)
                io "stock_service" w with
        | (inr result, w1) => (json (alertBody result), w1)
        | (inl _, w1) => (fail 500 "Error checking stock", w1)
        end
      else
        let existingNotifications :=
          find (fun n => stockAlertOf product n && unresolved n) w in
        match existingNotifications with
        | _ :: _ =>
            let (deleted, w1) := deleteMany (stockAlertOf product) w in
            let w2 :=
              emitAll io
                (map (fun n => notification_deleted (_id n) (notificationHash n)
                                 "stock_service") existingNotifications
                 ++ [stock_updated product stock minimum deleted]) w1 in
            (json (mkStockBody "alerts_deleted" None deleted), w2)
        | [] => (json (mkStockBody "no_alert_needed" None 0), w)
        end
  | _, _ => (fail 400 "currentStock and minStock are required", w)
  end.

(** *** PUT /:id/read, PUT /:id/resolve, PUT /mark-all-read *)

Definition readUpdate (now : Z) : NotificationData :=
  set_isRead (Some true) (set_lastUpdated (Some now) emptyObject).

Definition markRead (now : Z) (io : bool) (id : nat) (w : World)
    : response Notification * World :=
  match findById id w with
  | None => (fail 404 "Notification not found", w)
  | Some notification' =>
      match updateById id (readUpdate now) false w with
      | inr (Some updatedNotification, w1) =>
          (json updatedNotification,
           emit io (notification_updated updatedNotification (_id notification')
                      "notification_page" (notificationHash notification')) w1)
      | inr (None, w1) => (fail 500 "Error updating notification", w1)
      | inl _ => (fail 500 "Error updating notification", w)
      end
  end.

Definition resolveUpdate (now : Z) (resolutionNote' : option string)
    : NotificationData :=
  set_isResolved (Some true)
    (set_isRead (Some true)
    (set_resolutionNote (Some (orS resolutionNote' "Manually resolved"))
    (set_resolvedAt (Some now)
    (set_lastUpdated (Some now) emptyObject)))).

Definition resolveNotification (now : Z) (io : bool) (id : nat)
    (resolutionNote' : option string) (w : World)
    : response Notification * World :=
  match findById id w with
  | None => (fail 404 "Notification not found", w)
  | Some notification' =>
      match updateById id (resolveUpdate now resolutionNote') false w with
      | inr (Some updatedNotification, w1) =>
          (json updatedNotification,
           emit io (notification_resolved (_id notification')
                      (notificationHash notification')
                      (orS resolutionNote' "Manually resolved")
                      "notification_page") w1)
      | inr (None, w1) => (fail 500 "Error resolving notification", w1)
      | inl _ => (fail 500 "Error resolving notification", w)
      end
  end.

(** The answer carries [updatedCount]. *)
Definition markAllRead (now : Z) (io : bool) (w : World) : response nat * World :=
  let notifications := find (fun n => unresolved n && unread n) w in
  let w1 := updateMany (fun n => unresolved n && unread n) (readUpdate now) w in
  (json (List.length notifications),
   emitAll io
     (map (fun n =>
             notification_updated
               (mkNotification (_id n) (set_isRead (Some true) n)) (_id n)
               "notification_page" (notificationHash n)) notifications) w1).

(** *** DELETE /:id, DELETE /clear-resolved *)

Definition deleteNotification (io : bool) (id : nat) (w : World)
    : response unit * World :=
  match findById id w with
  | None => (fail 404 "Notification not found", w)
  | Some notification' =>
      let (_, w1) := deleteMany (hasId id) w in
      (json tt,
       emit io (notification_deleted (_id notification')
                  (notificationHash notification') "notification_page") w1)
  end.

(** The answer carries [deletedCount]. *)
Definition clearResolved (io : bool) (w : World) : response nat * World :=
  let resolvedNotifications := find (fun n => resolved n || read n) w in
  let (deleted, w1) := deleteMany (fun n => resolved n || read n) w in
  (json deleted,
   emitAll io
     (map (fun n => notification_deleted (_id n) (notificationHash n)
                      "notification_page") resolvedNotifications) w1).

(** ** Alert generators *)

(** A tax entry ([models/Tax.js]), with the paths the generator reads. *)
Module TaxEntry.
Record t := mk {
  _id : option string;
  invoiceNo : option string;
  date : option Z;
  createdAt : option Z;
  customer : option string;
  gstin : option string;
  totalTax : option Z;
  totalAmount : option Z;
  status : option string
}.
End TaxEntry.

(** An order ([models/Order.js]), with the paths the generator reads. *)
Module Order.
Record t := mk {
  orderId : option string;
  billNumber : option string;
  invoiceNumber : option string;
  date : option Z;
  createdAt : option Z;
  customerName : option string;
  customerPhone : option string;
  phone : option string;
  totalAmount : option Z;
  amount : option Z;
  paymentMode : option string;
  paymentStatus : option string
}.
End Order.

(** The domain collections are collaborators: a feed read sees what their
    queries answer, or that they fail.  [orderModel] tells whether the
    [Order] model could be loaded. *)
Record Domain := mkDomain {
  pendingTaxEntries : error + list TaxEntry.t;
  paidTaxEntries : error + list TaxEntry.t;
  orderModel : bool;
  pendingOrders : error + list Order.t;
  paidOrders : error + list Order.t
}.

Definition day : Z := 1000 * 60 * 60 * 24.

(** [n.toLocaleString()] of an integer in the [en-US] locale: groups of
    three digits. *)
Fixpoint groups (fuel : nat) (n : Z) : string :=
  match fuel with
  | O => strZ n
  | S fuel' =>
      if n <? 1000 then strZ n
      else
        let r := n mod 1000 in
        template [groups fuel' (n / 1000); ",";
                  if r <? 10 then "00" else if r <? 100 then "0" else "";
                  strZ r]
  end.

Definition toLocaleString (n : Z) : string :=
  if n <? 0 then template ["-"; groups (Z.to_nat (Z.log2 (- n))) (- n)]
  else groups (Z.to_nat (Z.log2 n)) n.

Definition gstAlertData (now : Z) (tax : TaxEntry.t) (id : string)
    : NotificationData :=
  let taxDate := match orElse (TaxEntry.date tax) (TaxEntry.createdAt tax) with
                 | Some d => d
                 | None => now
                 end in
  let daysSinceEntry := (now - taxDate) / day in
  let taxAmount := orN (TaxEntry.totalTax tax) (orN (TaxEntry.totalAmount tax) 0) in
  let isHighValue' := 10000 <=? taxAmount in
  let '(alertTitle, priority', color', messagePrefix) :=
    if 7 <=? daysSinceEntry then
      ("GST Payment Overdue!", "high", "red",
       template ["GST payment overdue for "; strZ daysSinceEntry; " days"])
    else if 3 <=? daysSinceEntry then
      ("GST Payment Due Soon", "medium", "orange",
       template ["GST payment due in "; strZ (7 - daysSinceEntry); " days"])
    else
      ("GST Payment Pending", "medium", "blue",
       template ["GST payment pending ("; strZ daysSinceEntry; " days)"]) in
  {| type := Some "GST Alert";
     title := Some alertTitle;
     message :=
       Some (template [messagePrefix; " for invoice ";
                       orS (TaxEntry.invoiceNo tax) id; ". Customer: ";
                       orS (TaxEntry.customer tax) "Unknown"]);
     productId := None; productName := None;
     currentStock := None; minStock := None;
     orderId := None;
     taxId := Some id;
     invoiceNo := Some (orS (TaxEntry.invoiceNo tax) (template ["TAX-"; id]));
     billNumber := None; invoiceNumber := None; customerName := None;
     customer := Some (orS (TaxEntry.customer tax) "Unknown Customer");
     customerPhone := None;
     gstin := Some (orS (TaxEntry.gstin tax) "N/A");
     amount := Some taxAmount;
     paymentMode := None;
     daysSince := Some daysSinceEntry;
     priority := Some (if isHighValue' then "high" else priority');
     color := Some color';
     icon := Some "FileText";
     isRead := Some false;
     isResolved := Some false;
     resolutionNote := None;
     timestamp := Some taxDate;
     lastUpdated := None; resolvedAt := None; notificationHash := None;
     status := Some (orS (TaxEntry.status tax) "Unknown");
     isHighValue := Some isHighValue';
     preserveTimestamp := None |}.

Definition paymentAlertData (now : Z) (order : Order.t) (id : string)
    : NotificationData :=
  let orderDate := match orElse (Order.date order) (Order.createdAt order) with
                   | Some d => d
                   | None => now
                   end in
  let daysSinceOrder := (now - orderDate) / day in
  let orderAmount := orN (Order.totalAmount order) (orN (Order.amount order) 0) in
  let isHighValue' := 5000 <=? orderAmount in
  let '(alertTitle, priority', color', messagePrefix) :=
    if 7 <=? daysSinceOrder then
      (if isHighValue' then "⚠️ High-Value Payment Severely Overdue!"
       else "Payment Severely Overdue!",
       "high", "red",
       template ["Payment severely overdue for "; strZ daysSinceOrder; " days"])
    else if 3 <=? daysSinceOrder then
      (if isHighValue' then "⚠️ High-Value Payment Overdue" else "Payment Overdue",
       if isHighValue' then "high" else "medium", "orange",
       template ["Payment overdue for "; strZ daysSinceOrder; " days"])
    else
      (if isHighValue' then "⚠️ High-Value Payment Pending" else "Payment Pending",
       "medium", "blue",
       template ["Payment pending for "; strZ daysSinceOrder; " days"]) in
  {| type := Some "Payment Alert";
     title := Some alertTitle;
     message :=
       Some (template [messagePrefix; ". Customer: ";
                       orS (Order.customerName order) "Unknown";
                       ". Amount: ₹"; toLocaleString orderAmount]);
     productId := None; productName := None;
     currentStock := None; minStock := None;
     orderId := Some id;
     taxId := None; invoiceNo := None;
     billNumber :=
       Some (orS (Order.billNumber order)
               (orS (Order.invoiceNumber order) (template ["ORD-"; id])));
     invoiceNumber :=
       Some (orS (Order.billNumber order)
               (orS (Order.invoiceNumber order) (template ["INV-"; id])));
     customerName := Some (orS (Order.customerName order) "Unknown Customer");
     customer := None;
     customerPhone :=
       Some (orS (Order.customerPhone order) (orS (Order.phone order) "N/A"));
     gstin := None;
     amount := Some orderAmount;
     paymentMode := Some (orS (Order.paymentMode order) "Unknown");
     daysSince := Some daysSinceOrder;
     priority := Some priority';
     color := Some color';
     icon := Some (if isHighValue' then "DollarSign" else "CreditCard");
     isRead := Some false;
     isResolved := Some false;
     resolutionNote := None;
     timestamp := Some orderDate;
     lastUpdated := None; resolvedAt := None; notificationHash := None;
     status := None;
     isHighValue := Some isHighValue';
     preserveTimestamp := None |}.

(** The scan of a generator: one upsert per source record; a record whose
    upsert throws is skipped, and only what was created or updated is
    collected. *)
Definition collect (r : UpsertResult) (alerts : list Notification)
    : list Notification :=
  if String.eqb (action r) "created" || String.eqb (action r) "updated"
  then alerts ++ [notification r] else alerts.

Fixpoint gstScan (now : Z) (io : bool) (taxEntries : list TaxEntry.t)
    (alerts : list Notification) (w : World) : list Notification * World :=
  match taxEntries with
  | [] => (alerts, w)
  | tax :: rest =>
      match TaxEntry._id tax with
      | None => gstScan now io rest alerts w
      | Some id =>
          match upsertNotification now (gstAlertData now tax id) io "gst_service" w with
          | (inr result, w1) => gstScan now io rest (collect result alerts) w1
          | (inl _, w1) => gstScan now io rest alerts w1
          end
      end
  end.

(** The update of a resolution sweep. *)
Definition sweepUpdate (now : Z) (note : string) : NotificationData :=
  set_isResolved (Some true)
    (set_isRead (Some true)
    (set_resolutionNote (Some note)
    (set_resolvedAt (Some now)
    (set_lastUpdated (Some now) emptyObject)))).

(** One step of a resolution sweep: the unresolved alerts under the hash
    are marked resolved, and one event is published for each. *)
Definition sweep (now : Z) (io : bool) (h note source : string) (w : World) : World :=
  let existingAlerts := find (fun n => hasHash h n && unresolved n) w in
  match existingAlerts with
  | [] => w
  | _ :: _ =>
      emitAll io
        (map (fun n => notification_resolved (_id n) (Some h) note source)
             existingAlerts)
        (updateMany (fun n => hasHash h n && unresolved n) (sweepUpdate now note) w)
  end.

Fixpoint gstSweep (now : Z) (io : bool) (paid : list TaxEntry.t) (w : World)
    : outcome unit :=
  match paid with
  | [] => (inr tt, w)
  | tax :: rest =>
      match TaxEntry._id tax with
      | None => (inl TypeError, w)
      | Some id =>
          let h := generateNotificationHash
                     (set_type (Some "GST Alert") (set_taxId (Some id) emptyObject)) in
          gstSweep now io rest
            (sweep now io h
               (template ["GST payment marked as "; strS (TaxEntry.status tax)])
               "gst_service" w)
      end
  end.

(** The body of [generateGSTAlerts], inside its outer [try]. *)
Definition gstAlertsBody (now : Z) (io : bool) (dom : Domain) (w : World)
    : outcome (list Notification) :=
  match pendingTaxEntries dom with
  | inl _ => (inr [], w)
  | inr taxEntries =>
      let (alerts, w1) := gstScan now io taxEntries [] w in
      match paidTaxEntries dom with
      | inl err => (inl err, w1)
      | inr paid =>
          match gstSweep now io paid w1 with
          | (inr _, w2) => (inr alerts, w2)
          | (inl err, w2) => (inl err, w2)
          end
      end
  end.

(** The outer [catch] answers any error by the empty list. *)
Definition generateGSTAlerts (now : Z) (io : bool) (dom : Domain) (w : World)
    : outcome (list Notification) :=
  match gstAlertsBody now io dom w with
  | (inl _, w') => (inr [], w')
  | done => done
  end.

Fixpoint paymentScan (now : Z) (io : bool) (orders : list Order.t)
    (alerts : list Notification) (w : World) : list Notification * World :=
  match orders with
  | [] => (alerts, w)
  | order :: rest =>
      match Order.orderId order with
      | None => paymentScan now io rest alerts w
      | Some id =>
          if String.eqb id "" then paymentScan now io rest alerts w
          else
            match upsertNotification now (paymentAlertData now order id) io
                    "payment_service" w with
            | (inr result, w1) => paymentScan now io rest (collect result alerts) w1
            | (inl _, w1) => paymentScan now io rest alerts w1
            end
      end
  end.

Fixpoint paymentSweep (now : Z) (io : bool) (paid : list Order.t) (w : World)
    : World :=
  match paid with
  | [] => w
  | order :: rest =>
      let h := generateNotificationHash
                 (set_type (Some "Payment Alert")
                    (set_orderId (Order.orderId order) emptyObject)) in
      paymentSweep now io rest
        (sweep now io h
           (template ["Payment marked as "; strS (Order.paymentStatus order)])
           "payment_service" w)
  end.

Definition paymentAlertsBody (now : Z) (io : bool) (dom : Domain) (w : World)
    : outcome (list Notification) :=
  if orderModel dom then
    match pendingOrders dom with
    | inl _ => (inr [], w)
    | inr orders =>
        let (alerts, w1) := paymentScan now io orders [] w in
        match paidOrders dom with
        | inl err => (inl err, w1)
        | inr paid => (inr alerts, paymentSweep now io paid w1)
        end
    end
  else (inr [], w).

Definition generatePaymentAlerts (now : Z) (io : bool) (dom : Domain) (w : World)
    : outcome (list Notification) :=
  match paymentAlertsBody now io dom w with
  | (inl _, w') => (inr [], w')
  | done => done
  end.

(** ** GET / : the feed *)

Definition timeOf (n : Notification) : Z :=
  match timestamp n with
  | Some t => t
  | None => 0
  end.

(** Sorting by [timestamp], newest first; documents of one [timestamp] keep
    their order. *)
Fixpoint insertByTime (n : Notification) (sorted : list Notification)
    : list Notification :=
  match sorted with
  | [] => [n]
  | m :: rest =>
      if timeOf m <=? timeOf n then n :: sorted else m :: insertByTime n rest
  end.

Definition newestFirst (ns : list Notification) : list Notification :=
  fold_right insertByTime [] ns.

(** The query of the active feed:
    [find({ isResolved: false }).sort({ timestamp: -1 }).limit(100)]. *)
Definition activeFeedQuery (w : World) : list Notification :=
  firstn 100 (newestFirst (find unresolved w)).

Definition hashOf (n : NotificationData) : string :=
  orS (notificationHash n) (generateNotificationHash n).

(** [notificationMap]: a [Map] from hash to notification, in insertion order. *)
Definition NotificationMap : Type := list (string * Notification).

Definition has (h : string) (m : NotificationMap) : bool :=
  existsb (fun entry => String.eqb (fst entry) h) m.

Definition addNew (m : NotificationMap) (n : Notification) : NotificationMap :=
  if has (hashOf n) m then m else m ++ [(hashOf n, n)].

Definition addAll (ns : list Notification) (m : NotificationMap) : NotificationMap :=
  fold_left addNew ns m.

(** One [try { alerts = await generate(...); alerts.forEach(...) } catch]
    block of the handler. *)
Definition tryGenerate (generate : World -> outcome (list Notification))
    (m : NotificationMap) (w : World) : NotificationMap * World :=
  match generate w with
  | (inr alerts, w') => (addAll alerts m, w')
  | (inl _, w') => (m, w')
  end.

(** What the handler answers from the map it has built. *)
Definition feedOf (m : NotificationMap) : list Notification :=
  newestFirst
    (List.filter (fun n : Notification => negb (truthy (isResolved n))) (map snd m)).

Definition getNotifications (now : Z) (io : bool) (dom : Domain) (w : World)
    : response (list Notification) * World :=
  let storedNotifications := activeFeedQuery w in
  let m0 := addAll storedNotifications [] in
  let (m1, w1) := tryGenerate (generateGSTAlerts now io dom) m0 w in
  let (m2, w2) := tryGenerate (generatePaymentAlerts now io dom) m1 w1 in
  (json (feedOf m2), w2).

(** ** POST /update-from-page *)

Definition updateFromPage (now : Z) (io : bool)
    (notificationData : option NotificationData) (source : option string)
    (preserveTimestamp' : option bool) (w : World)
    : response UpsertResult * World :=
  match notificationData with
  | None => (fail 500 "Error updating notification", w)
  | Some data =>
      if String.eqb (orS (type data) "") "" then
        (fail 400 "Notification data is required", w)
      else
        let dataWithFlag :=
          set_preserveTimestamp (orElse preserveTimestamp' (Some false)) data in
        match upsertNotification now dataWithFlag io
                (match source with Some s => s | None => "unknown_page" end) w with
        | (inr result, w1) => (json result, w1)
        | (inl _, w1) => (fail 500 "Error updating notification", w1)
        end
  end.

(** ** The socket handlers of the server entry file

    They write the same collection, with an upsert of their own that looks
    documents up by [type], [productId] and [isRead: false] and stores no
    hash. *)

Module Socket.

Definition similar (notificationData : NotificationData) (n : Notification) : bool :=
  negb (neqS (type n) (type notificationData))
  && negb (neqS (productId n) (productId notificationData))
  && unread n.

(** [existingNotification.save()]: the validators run on the whole
    document; the hash is not among the paths the handler assigns. *)
Definition saveExisting (d : Notification) (w : World) : error + Notification * World :=
  match validateDocument d with
  | [] => inr (d, with_docs (replace d (docs w)) w)
  | errors => inl (ValidationError errors)
  end.

Definition upsertNotification (now : Z) (notificationData : NotificationData)
    (w : World) : outcome (Notification * bool) :=
  let priority' := orElse (priority notificationData) (Some "medium") in
  let color' := orElse (color notificationData) (Some "blue") in
  let icon' := orElse (icon notificationData) (Some "Bell") in
  let timestamp' := orElse (timestamp notificationData) (Some now) in
  let isRead' := orElse (isRead notificationData) (Some false) in
  match findOne (similar notificationData) w with
  | Some existingNotification =>
      let changed :=
        set_title (title notificationData)
          (set_message (message notificationData)
          (set_currentStock (currentStock notificationData)
          (set_minStock (minStock notificationData)
          (set_priority priority'
          (set_color color'
          (set_timestamp timestamp' (paths existingNotification))))))) in
      match saveExisting (mkNotification (_id existingNotification) changed) w with
      | inr (saved, w1) => (inr (saved, false), w1)
      | inl err => (inl err, w)
      end
  | None =>
      let created :=
        {| type := type notificationData;
           title := title notificationData;
           message := message notificationData;
           productId := productId notificationData;
           productName := productName notificationData;
           currentStock := currentStock notificationData;
           minStock := minStock notificationData;
           orderId := None; taxId := None; invoiceNo := None;
           billNumber := None; invoiceNumber := None; customerName := None;
           customer := None; customerPhone := None; gstin := None;
           amount := None; paymentMode := None; daysSince := None;
           priority := priority';
           color := color';
           icon := icon';
           isRead := isRead';
           isResolved := None; resolutionNote := None;
           timestamp := timestamp';
           lastUpdated := None; resolvedAt := None; notificationHash := None;
           status := None; isHighValue := None; preserveTimestamp := None |} in
      match save (applyDefaults now created) w with
      | inr (saved, w1) => (inr (saved, true), w1)
      | inl err => (inl err, w)
      end
  end.

(** [socket.on('stock_updated')]: the event carries the product and its
    stock; the [catch] of the handler only logs. *)
Definition onStockUpdated (now : Z) (product name : option string)
    (currentStock' minStock' : option Z) (w : World) : World :=
  let zero := negb (neqN currentStock' (Some 0)) in
  let atMost2 := match currentStock' with Some s => s <=? 2 | None => false end in
  let payload :=
    set_type (Some (if zero then "Out of Stock" else "Low Stock"))
      (set_title (Some (if zero then "Out of Stock Alert" else "Low Stock Alert"))
      (set_message
         (Some (if zero then template [strS name; " is out of stock"]
                else template [strS name; " stock is low (";
                               match currentStock' with
                               | Some s => strZ s
                               | None => "undefined"
                               end; " units remaining)"]))
      (set_productName name
      (set_productId product
      (set_currentStock currentStock'
      (set_minStock minStock'
      (set_priority (Some (if zero then "high" else if atMost2 then "high" else "medium"))
      (set_color (Some (if zero then "red" else "orange"))
      (set_icon (Some "Package") emptyObject))))))))) in
  match upsertNotification now payload w with
  | (inr (saved, _), w1) => emit true (new_notification saved) w1
  | (inl _, w1) => w1
  end.

(** [socket.on('new_notification')]: a notification sent by a client. *)
Definition onNewNotification (now : Z) (notificationData : NotificationData)
    (w : World) : World :=
  let payload :=
    set_timestamp (orElse (timestamp notificationData) (Some now))
      (set_isRead (Some (truthy (isRead notificationData))) notificationData) in
  match upsertNotification now payload w with
  | (inr (saved, _), w1) => emit true (new_notification saved) w1
  | (inl _, w1) => w1
  end.

Definition onMarkNotificationRead (id : nat) (w : World) : World :=
  match updateById id (set_isRead (Some true) emptyObject) false w with
  | inr (_, w1) => emit true (notification_read id) w1
  | inl _ => w
  end.

Definition onMarkAllRead (w : World) : World :=
  emit true all_notifications_read
    (updateMany unread (set_isRead (Some true) emptyObject) w).

Definition onDeleteNotification (id : nat) (w : World) : World :=
  emit true (socket_notification_deleted id) (snd (deleteMany (hasId id) w)).

End Socket.


(** ** GET /stock-alerts, GET /stats *)

(** [a] comes before [b] under [.sort({ priority: -1, timestamp: -1 })]:
    the priority as a string, greatest first, then the newest first. *)
Definition byPriorityThenTime (a b : Notification) : bool :=
  match String.compare (orS (priority a) "") (orS (priority b) "") with
  | Gt => true
  | Lt => false
  | Eq => timeOf b <=? timeOf a
  end.

Fixpoint insertBy (before : Notification -> Notification -> bool)
    (n : Notification) (sorted : list Notification) : list Notification :=
  match sorted with
  | [] => [n]
  | m :: rest =>
      if before m n && negb (before n m) then m :: insertBy before n rest
      else n :: sorted
  end.

Definition sortBy (before : Notification -> Notification -> bool)
    (ns : list Notification) : list Notification :=
  fold_right (insertBy before) [] ns.

Definition getStockAlerts (w : World) : list Notification :=
  sortBy byPriorityThenTime
    (find (fun n => unresolved n
                    && match type n with
                       | Some t => existsb (String.eqb t) stockTypes
                       | None => false
                       end) w).

Record Stats := mkStats {
  unreadCount : nat;
  lowStockCount : nat;
  gstAlertCount : nat;
  paymentAlertCount : nat;
  totalNotifications : nat;
  stockBreakdown : nat;
  gstBreakdown : nat;
  paymentBreakdown : nat
}.

Definition hasType (t : string) (n : Notification) : bool :=
  negb (neqS (type n) (Some t)).

Definition notRead (n : Notification) : bool := negb (truthy (isRead n)).

Definition count (f : Notification -> bool) (ns : list Notification) : nat :=
  List.length (List.filter f ns).

(** The generators are called outside any [try] of their own: an error of
    theirs would reach the [catch] of the handler. *)
Definition getStats (now : Z) (io : bool) (dom : Domain) (w : World)
    : response Stats * World :=
  let m0 := addAll (find unresolved w) [] in
  match generateGSTAlerts now io dom w with
  | (inl _, w1) => (fail 500 "Error fetching notification statistics", w1)
  | (inr gstAlerts, w1) =>
      let m1 := addAll gstAlerts m0 in
      match generatePaymentAlerts now io dom w1 with
      | (inl _, w2) => (fail 500 "Error fetching notification statistics", w2)
      | (inr paymentAlerts, w2) =>
          let uniqueNotifications := map snd (addAll paymentAlerts m1) in
          let stockAlerts :=
            List.filter (fun n => hasType "Low Stock" n || hasType "Out of Stock" n)
              uniqueNotifications in
          let gstAlertsList := List.filter (hasType "GST Alert") uniqueNotifications in
          let paymentAlertsList :=
            List.filter (hasType "Payment Alert") uniqueNotifications in
          (json (mkStats (count notRead uniqueNotifications)
                   (count notRead stockAlerts)
                   (count notRead gstAlertsList)
                   (count notRead paymentAlertsList)
                   (List.length uniqueNotifications)
                   (List.length stockAlerts)
                   (List.length gstAlertsList)
                   (List.length paymentAlertsList)),
           w2)
      end
  end.

(** ** Notions the properties are stated with *)

(** Two payloads agree on a field when they hold the same string there, an
    absent field counting as the empty string. *)
Definition agreeOn (field : NotificationData -> option string)
    (d1 d2 : NotificationData) : Prop :=
  orS (field d1) "" = orS (field d2) "".

(** The hash a call works with. *)
Definition hashFor (notificationData : NotificationData) : string :=
  orS (notificationHash notificationData)
      (generateNotificationHash notificationData).

(** A collection is hash-free for [h] when no document carries [h]. *)
Definition hashFree (h : string) (w : World) : Prop :=
  forall n, In n (docs w) -> notificationHash n <> Some h.

(** The document a call inserts, and the world after the insert. *)
Definition inserted (now : Z) (notificationData : NotificationData) (w : World)
    : Notification :=
  mkNotification (nextId w)
    (applyDefaults now (insertObject now (hashFor notificationData) notificationData)).

Definition afterInsert (now : Z) (notificationData : NotificationData)
    (io : bool) (source : string) (w : World) : World :=
  emit io
    (notification_created (inserted now notificationData w) source
       (hashFor notificationData))
    (mkWorld (docs w ++ [inserted now notificationData w]) (S (nextId w))
       (emitted w)).

(** The document of the second call when it takes the update. *)
Definition reupdated (now1 now2 : Z) (d : NotificationData) (w : World)
    : Notification :=
  mkNotification (nextId w)
    (assign (updateObject now2 (inserted now1 d w) d) (inserted now1 d w)).



(** ** The worlds the handlers can reach *)

Definition emptyWorld : World := mkWorld [] 0 [].

(** One request, or one socket event, handled to its end. *)
Inductive step : World -> World -> Prop :=
| step_upsert now d io source w :
    step w (snd (upsertNotification now d io source w))
| step_feed now io dom w :
    step w (snd (getNotifications now io dom w))
| step_stats now io dom w :
    step w (snd (getStats now io dom w))
| step_updateFromPage now io d source preserve w :
    step w (snd (updateFromPage now io d source preserve w))
| step_checkStock now io product name stock minimum w :
    step w (snd (checkStock now io product name stock minimum w))
| step_markRead now io id w :
    step w (snd (markRead now io id w))
| step_resolve now io id note w :
    step w (snd (resolveNotification now io id note w))
| step_markAllRead now io w :
    step w (snd (markAllRead now io w))
| step_delete io id w :
    step w (snd (deleteNotification io id w))
| step_clearResolved io w :
    step w (snd (clearResolved io w))
| step_onStockUpdated now product name stock minimum w :
    step w (Socket.onStockUpdated now product name stock minimum w)
| step_onNewNotification now d w :
    step w (Socket.onNewNotification now d w)
| step_onMarkNotificationRead id w :
    step w (Socket.onMarkNotificationRead id w)
| step_onMarkAllRead w :
    step w (Socket.onMarkAllRead w)
| step_onDeleteNotification id w :
    step w (Socket.onDeleteNotification id w).

Inductive reachable : World -> Prop :=
| reachable_empty : reachable emptyWorld
| reachable_step w w' : reachable w -> step w w' -> reachable w'.

(** The hashes the unique index holds: one for each document that has the
    path. *)
Definition hashes (ds : list Notification) : list string :=
  flat_map (fun n : Notification =>
              match notificationHash n with
              | Some h => [h]
              | None => []
              end) ds.

(** What the store keeps: no [_id] twice, every [_id] below the next one,
    no hash twice. *)
Definition wellFormed (w : World) : Prop :=
  NoDup (map _id (docs w))
  /\ Forall (fun id => (id < nextId w)%nat) (map _id (docs w))
  /\ NoDup (hashes (docs w)).

(** ** Worked examples *)

Definition pen : option string := Some "64b7f0c2a1d3e4f5a6b7c8d9".
Definition penName : option string := Some "Pen".

(** The pen runs out of stock at time 1000: one alert is created. *)
Definition penAlertCreated : World :=
  snd (checkStock 1000 true pen penName (Some 0) (Some 5) emptyWorld).

(** The alert is resolved by hand at time 1500. *)
Definition penAlertResolved : World :=
  snd (resolveNotification 1500 true 0 None penAlertCreated).

(** The payload of the pen alert with another stock count. *)
Definition penRestocked : NotificationData :=
  set_currentStock (Some 3) (outOfStockData pen penName 0 5).

(** Two payloads of one tax alert: the fields in another order, an empty
    [gstin] for an absent one, and different incidental fields. *)
Definition taxAlertA : NotificationData :=
  fromEntries [("type", "GST Alert"); ("taxId", "64b7f0c2a1d3e4f5a6b7c8d9");
               ("invoiceNo", "INV-001"); ("customer", "Asha Traders");
               ("title", "GST Payment Pending")].

Definition taxAlertB : NotificationData :=
  set_amount (Some 1500)
    (fromEntries [("customer", "Asha Traders"); ("status", "Pending");
                  ("invoiceNo", "INV-001"); ("gstin", "");
                  ("taxId", "64b7f0c2a1d3e4f5a6b7c8d9"); ("type", "GST Alert")]).

(** A feed read during which the tax collection cannot be queried, while
    one order of 6000 placed at time 0 awaits its payment. *)
Definition pendingOrder : Order.t :=
  Order.mk (Some "ORD-7") (Some "B-7") None (Some 0) None (Some "Asha")
    (Some "9000000000") None (Some 6000) None (Some "UPI") (Some "Pending").

Definition taxQueryDown : Domain :=
  mkDomain (inl (QueryError "connection lost")) (inr []) true
    (inr [pendingOrder]) (inr []).

(** ** Further notions and examples *)

(** The event an upsert publishes for its result, if any. *)
Definition eventOf (notificationData : NotificationData) (source : string)
    (r : UpsertResult) : list event :=
  if String.eqb (action r) "created" then
    [notification_created (notification r) source (hashFor notificationData)]
  else if String.eqb (action r) "updated" then
    [notification_updated (notification r) (_id (notification r)) source
       (Some (hashFor notificationData))]
  else [].

(** A pending tax entry of time 0, and the alert the GST generator makes of
    it three days later. *)
Definition pendingTax : TaxEntry.t :=
  TaxEntry.mk (Some "64b7f0c2a1d3e4f5a6b7c8d9") (Some "INV-001") (Some 0) None
    (Some "Asha Traders") None (Some 1800) (Some 11800) (Some "Pending").

Definition pendingTaxAlert : NotificationData :=
  gstAlertData (3 * day) pendingTax "64b7f0c2a1d3e4f5a6b7c8d9".

(** The world after a feed read at day 3 that sees the pending tax entry. *)
Definition taxAlertStored : World :=
  snd (upsertNotification (3 * day) pendingTaxAlert true "gst_service" emptyWorld).

(** The alert is then marked read and resolved by hand. *)
Definition taxAlertResolved : World :=
  snd (resolveNotification (3 * day + 1000) true 0 None taxAlertStored).

(** The objects the resolution sweeps of the two generators hash. *)
Definition gstSweepKey (id : string) : NotificationData :=
  set_type (Some "GST Alert") (set_taxId (Some id) emptyObject).

Definition paymentSweepKey (id : option string) : NotificationData :=
  set_type (Some "Payment Alert") (set_orderId id emptyObject).

(** The filter of a resolution sweep: [{ notificationHash, isResolved: false }]. *)
Definition swept (h : string) (n : Notification) : bool :=
  hasHash h n && unresolved n.

(** The pending tax entry of the example, once it is paid. *)
Definition paidTax : TaxEntry.t :=
  TaxEntry.mk (Some "64b7f0c2a1d3e4f5a6b7c8d9") (Some "INV-001") (Some 0) None
    (Some "Asha Traders") None (Some 1800) (Some 11800) (Some "Paid").

(** The invariant of the feed's [notificationMap]: every entry sits under the
    hash of its notification. *)
Definition keyed (m : NotificationMap) : Prop :=
  Forall (fun entry : string * Notification => fst entry = hashOf (snd entry)) m.

(** Newest first. *)
Definition newerFirst (a b : Notification) : Prop := timeOf b <= timeOf a.

(** The order of [GET /stock-alerts], as a relation. *)
Definition comesBefore (a b : Notification) : Prop := byPriorityThenTime a b = true.

(** A priority the schema lets through. *)
Definition enumPriority (n : Notification) : Prop :=
  In (priority n) [Some "low"; Some "medium"; Some "high"].

(** A second product: the ink is low, four units left, at time 2000, while
    the alert of the pen, which is out of stock, is still open. *)
Definition ink : option string := Some "64b7f0c2a1d3e4f5a6b7c8da".
Definition inkName : option string := Some "Ink".

Definition twoStockAlerts : World :=
  snd (checkStock 2000 true ink inkName (Some 4) (Some 10) penAlertCreated).

(** * Properties *)

(** ** MD5 *)

(** The digest of the empty string, of [abc] and of a message of two blocks,
    as RFC 1321 lists them. *)
Lemma hex_length (bs : list Z) :
  String.length (Md5.hex bs) = (2 * List.length bs)%nat.
Proof.
  induction bs as [|b bs IH]; simpl; [reflexivity | rewrite IH; lia].
Qed.

Lemma digest_bytes_length (s : string) : List.length (Md5.digest_bytes s) = 16%nat.
Proof.
  unfold Md5.digest_bytes, Md5.le_bytes.
  repeat rewrite length_app. repeat rewrite length_map. reflexivity.
Qed.

Lemma md5_length (s : string) : String.length (Md5.md5 s) = 32%nat.
Proof.
  unfold Md5.md5. rewrite hex_length, digest_bytes_length. reflexivity.
Qed.

Example md5_empty : Md5.md5 "" = "d41d8cd98f00b204e9800998ecf8427e".
Proof. vm_compute. reflexivity. Qed.

Example md5_abc : Md5.md5 "abc" = "900150983cd24fb0d6963f7d28e17f72".
Proof. vm_compute. reflexivity. Qed.

Example md5_two_blocks :
  Md5.md5 "12345678901234567890123456789012345678901234567890123456789012345678901234567890"
  = "57edf4a22be3c955ac49da2e2107b67a".
Proof. vm_compute. reflexivity. Qed.

(** ** The hash key deriver *)

Lemma setEntry_comm (obj : NotificationData) (k1 v1 k2 v2 : string) :
  k1 <> k2 ->
  setEntry (setEntry obj (k1, v1)) (k2, v2)
  = setEntry (setEntry obj (k2, v2)) (k1, v1).
Proof.
  intros Hne. unfold setEntry.
  repeat match goal with
         | |- context [String.eqb k1 ?c] =>
             destruct (String.eqb_spec k1 c); [subst k1 |]
         end;
  repeat match goal with
         | |- context [String.eqb k2 ?c] =>
             destruct (String.eqb_spec k2 c); [subst k2 |]
         end;
  solve [reflexivity | congruence].
Qed.

Lemma fold_setEntry_permutation (e1 e2 : list (string * string)) :
  Permutation e1 e2 ->
  NoDup (map fst e1) ->
  forall obj, fold_left setEntry e1 obj = fold_left setEntry e2 obj.
Proof.
  induction 1 as [| x l l' Hp IH | [k1 v1] [k2 v2] l | l l' l'' Hp1 IH1 Hp2 IH2];
    intros Hnd obj; cbn [fold_left].
  - reflexivity.
  - apply IH. now inversion Hnd.
  - rewrite (setEntry_comm obj k2 v2 k1 v1); [reflexivity |].
    cbn [map fst] in Hnd. inversion Hnd as [| ? ? Hnotin _]; subst.
    intros ->. apply Hnotin. now left.
  - rewrite IH1 by assumption. apply IH2.
    eapply Permutation_NoDup; [| exact Hnd]. now apply Permutation_map.
Qed.
Lemma orS_agree (a a' : option string) (b : string) :
  orS a "" = orS a' "" -> orS a b = orS a' b.
Proof.
  destruct a as [s|], a' as [s'|]; simpl;
    repeat match goal with
           | |- context [String.eqb ?x ""] => destruct (String.eqb_spec x "")
           end; intros; subst; congruence.
Qed.

(** C5.  The digest is a function of the identity fields alone, an absent
    field counting as the empty string: payloads that agree on them have one
    digest whatever else they carry; the order in which an object lists its
    entries does not matter; and the digest has thirty-two characters. *)
Theorem generateNotificationHash_identity :
  (forall d1 d2 : NotificationData,
      agreeOn type d1 d2 -> agreeOn productId d1 d2 -> agreeOn orderId d1 d2 ->
      agreeOn taxId d1 d2 -> agreeOn invoiceNo d1 d2 ->
      agreeOn invoiceNumber d1 d2 -> agreeOn customerName d1 d2 ->
      agreeOn customer d1 d2 -> agreeOn billNumber d1 d2 -> agreeOn gstin d1 d2 ->
      generateNotificationHash d1 = generateNotificationHash d2)
  /\ (forall e1 e2 : list (string * string),
         NoDup (map fst e1) -> Permutation e1 e2 ->
         generateNotificationHash (fromEntries e1)
         = generateNotificationHash (fromEntries e2))
  /\ (forall d : NotificationData,
         String.length (generateNotificationHash d) = 32%nat).
Proof.
  split; [| split].
  - intros d1 d2 Hty Hpr Hor Htx Hin Hnu Hcn Hcu Hbi Hgs.
    unfold generateNotificationHash, hashString, agreeOn in *.
    rewrite Hty, Hpr, Hor, Htx, Hbi, Hgs, Hnu, Hcu.
    rewrite (orS_agree _ _ _ Hin), (orS_agree _ _ _ Hcn).
    reflexivity.
  - intros e1 e2 Hnd Hperm. unfold fromEntries.
    now rewrite (fold_setEntry_permutation e1 e2 Hperm Hnd).
  - intros d. apply md5_length.
Qed.


(** ** Queries *)

Lemma findOne_Some (f : Notification -> bool) (w : World) (n : Notification) :
  findOne f w = Some n -> In n (docs w) /\ f n = true.
Proof. apply find_some. Qed.

Lemma findOne_None (f : Notification -> bool) (w : World) :
  findOne f w = None -> forall n, In n (docs w) -> f n = false.
Proof. intros H n Hin. exact (find_none f (docs w) H n Hin). Qed.

Lemma findOne_exists (f : Notification -> bool) (w : World) (n : Notification) :
  In n (docs w) -> f n = true -> exists m, findOne f w = Some m.
Proof.
  intros Hin Hf. destruct (findOne f w) as [m|] eqn:E; [now exists m |].
  rewrite (findOne_None f w E n Hin) in Hf. discriminate.
Qed.

Lemma eqS_true (a b : option string) : eqS a b = true <-> a = b.
Proof.
  unfold eqS, neqS, strictNeq.
  destruct a as [x|], b as [y|]; simpl; try (split; congruence).
  rewrite negb_involutive, String.eqb_eq. split; congruence.
Qed.

Lemma hasHash_true (h : string) (n : Notification) :
  hasHash h n = true <-> notificationHash n = Some h.
Proof. apply eqS_true. Qed.

Lemma lookupFilter_true (now : Z) (h : string) (n : Notification) :
  lookupFilter now h n = true
  <-> notificationHash n = Some h
      /\ exists t, timestamp n = Some t /\ now - thirtyDays <= t.
Proof.
  unfold lookupFilter, since. rewrite andb_true_iff, hasHash_true.
  destruct (timestamp n) as [t|].
  - rewrite Z.leb_le. split.
    + intros [Hh Ht]. split; [exact Hh | now exists t].
    + intros [Hh [t' [Heq Ht]]]. injection Heq as <-. now split.
  - split; [intros [_ H]; discriminate | intros [_ [t [H _]]]; discriminate].
Qed.

(** ** Writes *)

Lemma indexConflict_holder (self : option nat) (h : option string) (w : World) :
  indexConflict self h w = true ->
  exists kv n, h = Some kv /\ In n (docs w) /\ notificationHash n = Some kv.
Proof.
  unfold indexConflict. destruct h as [kv|]; [| discriminate].
  rewrite existsb_exists. intros [n [Hin Hn]].
  apply andb_true_iff in Hn as [Hh _].
  exists kv, n. repeat split; [exact Hin | now apply hasHash_true].
Qed.



Lemma recover_duplicate (kv : string) (w : World) (n : Notification) :
  In n (docs w) -> notificationHash n = Some kv ->
  exists existing,
    recover (MongoServerError 11000 kv) w
    = (inr (mkUpsertResult existing false false "recovered"), w)
    /\ In existing (docs w) /\ notificationHash existing = Some kv.
Proof.
  intros Hin Hn.
  destruct (findOne_exists (hasHash kv) w n Hin) as [m Hm];
    [now apply hasHash_true |].
  exists m. unfold recover. simpl. rewrite Hm.
  apply findOne_Some in Hm as [Hm1 Hm2].
  repeat split; [exact Hm1 | now apply hasHash_true].
Qed.


(** ** The upsert engine *)

Lemma replace_ids (d : Notification) (ds : list Notification) :
  map _id (replace d ds) = map _id ds.
Proof.
  unfold replace. rewrite map_map. apply map_ext_in. intros n _.
  unfold hasId. destruct (Nat.eqb_spec (_id n) (_id d)); congruence.
Qed.

Lemma find_replace (d : Notification) (ds : list Notification) (n : Notification) :
  In n ds -> hasId (_id d) n = true ->
  List.find (hasId (_id d)) (replace d ds) = Some d.
Proof.
  intros Hin Hid. induction ds as [| a l IH]; [contradiction |].
  simpl. destruct (hasId (_id d) a) eqn:Ha.
  - unfold hasId at 1. now rewrite Nat.eqb_refl.
  - rewrite Ha. apply IH. destruct Hin as [-> | H]; [congruence | exact H].
Qed.

Lemma emit_docs (io : bool) (e : event) (w : World) : docs (emit io e w) = docs w.
Proof. unfold emit. now destruct io. Qed.

Lemma recover_world (err : error) (w : World) : snd (recover err w) = w.
Proof.
  unfold recover. destruct err as [ps | c k | | r]; try reflexivity.
  destruct (c =? 11000); [| reflexivity].
  now destruct (findOne (hasHash k) w).
Qed.

Lemma recover_action (err : error) (w : World) (r : UpsertResult) :
  fst (recover err w) = inr r -> action r = "recovered".
Proof.
  unfold recover. destruct err as [ps | c k | | q]; try discriminate.
  destruct (c =? 11000); [| discriminate].
  destruct (findOne (hasHash k) w); [| discriminate].
  simpl. intros H. now injection H as <-.
Qed.

Lemma updateById_docs (id : nat) (upd : NotificationData) (v : bool)
    (w w1 : World) (u : option Notification) :
  updateById id upd v w = inr (u, w1) -> map _id (docs w1) = map _id (docs w).
Proof.
  unfold updateById.
  destruct (if v then validateUpdate upd else []); [| discriminate].
  destruct (findById id w) as [old|].
  - match goal with |- context [if ?c then _ else _] => destruct c end;
      [discriminate |].
    intros H. injection H as _ <-. simpl. apply replace_ids.
  - intros H. now injection H as _ <-.
Qed.

(** When the lookup finds a document, the call creates none. *)
Lemma upsert_found (now : Z) (notificationData : NotificationData) (io : bool)
    (source : string) (w : World) (existing : Notification) :
  findOne (lookupFilter now (hashFor notificationData)) w = Some existing ->
  map _id (docs (snd (upsertNotification now notificationData io source w)))
  = map _id (docs w)
  /\ forall r, fst (upsertNotification now notificationData io source w) = inr r ->
               action r <> "created".
Proof.
  intros Hfind. unfold upsertNotification. fold (hashFor notificationData).
  rewrite Hfind.
  destruct (hasChanges existing notificationData).
  - destruct (updateById _ _ true w) as [err | [[u|] w1]] eqn:E.
    + rewrite recover_world. split; [reflexivity |].
      intros r Hr. rewrite (recover_action _ _ _ Hr). discriminate.
    + simpl. rewrite emit_docs. split; [exact (updateById_docs _ _ _ _ _ _ E) |].
      intros r Hr. injection Hr as <-. discriminate.
    + simpl. split; [exact (updateById_docs _ _ _ _ _ _ E) | discriminate].
  - simpl. split; [reflexivity |]. intros r Hr. injection Hr as <-. discriminate.
Qed.

(** C1, as the code has it.  The filter of the lookup is the hash and the
    thirty-day window and nothing else: whether a document is resolved plays
    no part.  So when a resolved document carries the hash of the payload
    within the window, the lookup does find a document, the call creates
    none (the collection keeps its documents) and its action is never
    [created]. *)
Theorem lookup_ignores_resolution (now : Z) (notificationData : NotificationData)
    (io : bool) (source : string) (w : World) :
  (forall n : Notification,
      lookupFilter now (hashFor notificationData) n = true
      <-> notificationHash n = Some (hashFor notificationData)
          /\ exists t, timestamp n = Some t /\ now - thirtyDays <= t)
  /\ (forall (n : Notification) (t : Z),
         In n (docs w) ->
         notificationHash n = Some (hashFor notificationData) ->
         timestamp n = Some t -> now - thirtyDays <= t ->
         isResolved n = Some true ->
         (exists m, findOne (lookupFilter now (hashFor notificationData)) w = Some m)
         /\ map _id (docs (snd (upsertNotification now notificationData io source w)))
            = map _id (docs w)
         /\ forall r,
             fst (upsertNotification now notificationData io source w) = inr r ->
             action r <> "created").
Proof.
  split; [intros n; apply lookupFilter_true |].
  intros n t Hin Hh Ht Hw _.
  destruct (findOne_exists (lookupFilter now (hashFor notificationData)) w n Hin)
    as [m Hm].
  { apply lookupFilter_true. split; [exact Hh | now exists t]. }
  split; [now exists m |]. exact (upsert_found _ _ io source _ _ Hm).
Qed.

(** C4, as the code has it.  When the lookup finds a document, a tracked
    field differs and the store applies the update, the action is [updated]
    and [lastUpdated] is the current time; the [timestamp] of the document is
    set to the current time as well, unless the payload carries a true
    [preserveTimestamp], and only then is it kept. *)
Theorem update_resets_timestamp (now : Z) (notificationData : NotificationData)
    (io : bool) (source : string) (w w1 : World)
    (existing updatedNotification : Notification) :
  findOne (lookupFilter now (hashFor notificationData)) w = Some existing ->
  hasChanges existing notificationData = true ->
  updateById (_id existing) (updateObject now existing notificationData) true w
  = inr (Some updatedNotification, w1) ->
  upsertNotification now notificationData io source w
  = (inr (mkUpsertResult updatedNotification false true "updated"),
     emit io (notification_updated updatedNotification (_id existing) source
                (Some (hashFor notificationData))) w1)
  /\ _id updatedNotification = _id existing
  /\ lastUpdated updatedNotification = Some now
  /\ timestamp updatedNotification
     = (if truthy (preserveTimestamp notificationData)
        then timestamp existing else Some now)
  /\ findById (_id existing) w1 = Some updatedNotification.
Proof.
  intros Hfind Hch Hupd.
  split.
  { unfold upsertNotification. fold (hashFor notificationData).
    now rewrite Hfind, Hch, Hupd. }
  apply findOne_Some in Hfind as [Hin Hf].
  apply lookupFilter_true in Hf as [_ [t [Ht _]]].
  unfold updateById in Hupd.
  destruct (validateUpdate _); [| discriminate].
  destruct (findById (_id existing) w) as [old|] eqn:Hold; [| discriminate].
  match type of Hupd with context [if ?c then _ else _] => destruct c end;
    [discriminate |].
  injection Hupd as <- <-.
  split; [reflexivity |]. split; [reflexivity |]. split.
  - simpl. destruct (truthy (preserveTimestamp notificationData));
      [now rewrite Ht | reflexivity].
  - apply findOne_Some in Hold as [Hin' Hid].
    unfold findById, findOne. simpl.
    exact (find_replace (mkNotification (_id existing) _) (docs w) old Hin' Hid).
Qed.

(** *** Two calls in succession *)

Lemma hashFree_no_conflict (h : string) (w : World) :
  hashFree h w -> indexConflict None (Some h) w = false.
Proof.
  intros Hfree. unfold indexConflict.
  destruct (existsb _ (docs w)) eqn:E; [| reflexivity].
  apply existsb_exists in E as [n [Hin Hn]].
  apply andb_true_iff in Hn as [Hn _]. apply hasHash_true in Hn.
  now destruct (Hfree n Hin).
Qed.

Lemma hashFree_lookup (now : Z) (h : string) (w : World) :
  hashFree h w -> findOne (lookupFilter now h) w = None.
Proof.
  intros Hfree. destruct (findOne _ w) as [m|] eqn:E; [| reflexivity].
  apply findOne_Some in E as [Hin Hm].
  apply lookupFilter_true in Hm as [Hm _]. now destruct (Hfree m Hin).
Qed.

Lemma upsert_creates (now : Z) (notificationData : NotificationData) (io : bool)
    (source : string) (w : World) :
  hashFree (hashFor notificationData) w ->
  validateDocument (inserted now notificationData w) = [] ->
  upsertNotification now notificationData io source w
  = (inr (mkUpsertResult (inserted now notificationData w) true false "created"),
     afterInsert now notificationData io source w).
Proof.
  intros Hfree Hvalid. unfold upsertNotification. fold (hashFor notificationData).
  rewrite (hashFree_lookup _ _ _ Hfree). unfold save.
  simpl in Hvalid. rewrite Hvalid.
  change (notificationHash (applyDefaults now
            (insertObject now (hashFor notificationData) notificationData)))
    with (Some (hashFor notificationData)).
  now rewrite (hashFree_no_conflict _ _ Hfree).
Qed.

Lemma find_app_last {A : Type} (f : A -> bool) (l : list A) (x : A) :
  (forall y, In y l -> f y = false) -> f x = true ->
  List.find f (l ++ [x]) = Some x.
Proof.
  intros Hl Hx. induction l as [| a l IH]; simpl.
  - now rewrite Hx.
  - rewrite (Hl a (or_introl eq_refl)). apply IH.
    intros y Hy. apply Hl. now right.
Qed.

Lemma lookup_after_insert (now1 now2 : Z) (notificationData : NotificationData)
    (io : bool) (source : string) (w : World) :
  hashFree (hashFor notificationData) w ->
  now2 - thirtyDays <= now1 ->
  findOne (lookupFilter now2 (hashFor notificationData))
    (afterInsert now1 notificationData io source w)
  = Some (inserted now1 notificationData w).
Proof.
  intros Hfree Hwin. unfold findOne, afterInsert. rewrite emit_docs. simpl.
  apply find_app_last.
  - intros y Hy. destruct (lookupFilter now2 _ y) eqn:E; [| reflexivity].
    apply lookupFilter_true in E as [E _]. now destruct (Hfree y Hy).
  - apply lookupFilter_true. split; [reflexivity |].
    exists now1. split; [reflexivity | exact Hwin].
Qed.

Lemma strictNeq_refl {A : Type} (eqb : A -> A -> bool) (a : option A) :
  (forall x, eqb x x = true) -> strictNeq eqb a a = false.
Proof. intros H. destruct a as [x|]; simpl; [now rewrite H | reflexivity]. Qed.

Lemma neqS_refl (a : option string) : neqS a a = false.
Proof. apply strictNeq_refl, String.eqb_refl. Qed.


Lemma neqB_refl (a : option bool) : neqB a a = false.
Proof. apply strictNeq_refl. now intros []. Qed.

Lemma orElse_None {A : Type} (a : option A) : orElse a None = a.
Proof. now destruct a. Qed.


Lemma hasChanges_isRead (n : Notification) (d : NotificationData) :
  isRead n = Some false -> isRead d = None -> hasChanges n d = true.
Proof.
  intros Hn Hd. unfold hasChanges. rewrite Hn, Hd. simpl.
  repeat (rewrite orb_true_r || rewrite orb_true_l). reflexivity.
Qed.

Lemma validateUpdate_updateObject (now : Z) (existing : Notification)
    (d : NotificationData) :
  validateUpdate (updateObject now existing d) = validateUpdate d.
Proof. reflexivity. Qed.

Lemma findById_after_insert (now : Z) (d : NotificationData) (io : bool)
    (source : string) (w : World) :
  (forall n, In n (docs w) -> (_id n < nextId w)%nat) ->
  findById (nextId w) (afterInsert now d io source w) = Some (inserted now d w).
Proof.
  intros Hfresh. unfold findById, findOne, afterInsert. rewrite emit_docs. simpl.
  apply find_app_last.
  - intros y Hy. unfold hasId. apply Nat.eqb_neq. specialize (Hfresh y Hy). lia.
  - unfold hasId. simpl. apply Nat.eqb_refl.
Qed.

(** A payload that leaves [isRead] out meets the [isRead: false] the schema
    has stored by default: the second call finds a change. *)
Lemma upsert_twice_updated (now1 now2 : Z) (d : NotificationData) (io : bool)
    (source : string) (w : World) :
  hashFree (hashFor d) w ->
  (forall n, In n (docs w) -> (_id n < nextId w)%nat) ->
  validateDocument (inserted now1 d w) = [] ->
  validateUpdate d = [] ->
  notificationHash d = None ->
  isRead d = None ->
  now2 - thirtyDays <= now1 ->
  let first := upsertNotification now1 d io source w in
  let second := upsertNotification now2 d io source (snd first) in
  fst first = inr (mkUpsertResult (inserted now1 d w) true false "created")
  /\ fst second = inr (mkUpsertResult (reupdated now1 now2 d w) false true "updated")
  /\ emitted (snd second)
     = emitted w
       ++ (if io
           then [notification_created (inserted now1 d w) source (hashFor d);
                 notification_updated (reupdated now1 now2 d w) (nextId w) source
                   (Some (hashFor d))]
           else []).
Proof.
  intros Hfree Hfresh Hvalid Hupd Hhash Hread Hwin first second.
  assert (Hfirst : first = (inr (mkUpsertResult (inserted now1 d w) true false "created"),
                            afterInsert now1 d io source w))
    by (apply upsert_creates; assumption).
  assert (Hsecond : second
    = (inr (mkUpsertResult (reupdated now1 now2 d w) false true "updated"),
       emit io (notification_updated (reupdated now1 now2 d w) (nextId w) source
                  (Some (hashFor d)))
         (with_docs (replace (reupdated now1 now2 d w)
                       (docs (afterInsert now1 d io source w)))
            (afterInsert now1 d io source w)))).
  { subst second. rewrite Hfirst. cbn [snd].
    unfold upsertNotification. fold (hashFor d).
    rewrite (lookup_after_insert _ _ _ _ _ _ Hfree Hwin).
    assert (Hstored : isRead (inserted now1 d w) = Some false)
      by (simpl; now rewrite Hread).
    rewrite (hasChanges_isRead (inserted now1 d w) d Hstored Hread).
    unfold updateById. rewrite validateUpdate_updateObject, Hupd.
    change (_id (inserted now1 d w)) with (nextId w).
    rewrite (findById_after_insert _ _ _ _ _ Hfresh).
    fold (reupdated now1 now2 d w).
    assert (Hkeep : notificationHash (reupdated now1 now2 d w)
                    = notificationHash (inserted now1 d w)).
    { simpl. now rewrite Hhash. }
    rewrite Hkeep, neqS_refl. reflexivity. }
  split; [now rewrite Hfirst |]. split; [now rewrite Hsecond |].
  rewrite Hsecond. cbn [snd]. unfold afterInsert, emit, with_docs.
  destruct io; simpl; [now rewrite <- app_assoc | now rewrite app_nil_r].
Qed.

Lemma validateDocument_ok (n : NotificationData) :
  required (type n) = true -> inEnum typeEnum (type n) = true ->
  required (title n) = true -> required (message n) = true ->
  inEnum priorityEnum (priority n) = true -> inEnum colorEnum (color n) = true ->
  validateDocument n = [].
Proof.
  intros H1 H2 H3 H4 H5 H6. unfold validateDocument.
  now rewrite H1, H2, H3, H4, H5, H6.
Qed.

Lemma validateUpdate_ok (d : NotificationData) :
  required (type d) = true -> inEnum typeEnum (type d) = true ->
  required (title d) = true -> required (message d) = true ->
  inEnum priorityEnum (priority d) = true -> inEnum colorEnum (color d) = true ->
  validateUpdate d = [].
Proof.
  intros H1 H2 H3 H4 H5 H6. unfold validateUpdate.
  rewrite H1, H2, H3, H4, H5, H6.
  destruct (type d), (title d), (message d); reflexivity.
Qed.

Lemma inserted_message (now : Z) (d : NotificationData) (w : World) :
  message (inserted now d w) = message d.
Proof. simpl. apply orElse_None. Qed.

Lemma append_nonempty (a b : string) : b <> "" -> String.eqb (a ++ b) "" = false.
Proof.
  intros Hb. apply String.eqb_neq. destruct a; simpl; [exact Hb | discriminate].
Qed.

(** The message of the out-of-stock alert is never empty. *)
Lemma outOfStock_message (product name : option string) (stock minimum : Z) :
  required (message (outOfStockData product name stock minimum)) = true.
Proof.
  unfold required. simpl message. unfold template. simpl String.concat.
  now rewrite append_nonempty.
Qed.

Lemma outOfStock_insert_valid (now : Z) (product name : option string)
    (stock minimum : Z) (w : World) :
  validateDocument (inserted now (outOfStockData product name stock minimum) w) = [].
Proof.
  apply validateDocument_ok; try reflexivity.
  rewrite inserted_message. apply outOfStock_message.
Qed.

Lemma outOfStock_update_valid (product name : option string) (stock minimum : Z) :
  validateUpdate (outOfStockData product name stock minimum) = [].
Proof.
  apply validateUpdate_ok; try reflexivity. apply outOfStock_message.
Qed.

(** C3, on the payload of the stock check.  The handler hands the engine a
    payload without [isRead] and [isResolved]; the document the first call
    stores has [isRead: false] by the default of the schema, so the second
    call, with the very same payload, finds [isRead] changed: it answers
    [updated], writes the document again and publishes a second event. *)
Theorem stock_alert_twice_updated (now1 now2 : Z) (io : bool)
    (product name : option string) (minimum : Z) (w : World) :
  hashFree (hashFor (outOfStockData product name 0 minimum)) w ->
  (forall n, In n (docs w) -> (_id n < nextId w)%nat) ->
  now2 - thirtyDays <= now1 ->
  let d := outOfStockData product name 0 minimum in
  let first := upsertNotification now1 d io "stock_service" w in
  let second := upsertNotification now2 d io "stock_service" (snd first) in
  option_map action (match fst first with inr r => Some r | inl _ => None end)
  = Some "created"
  /\ option_map action (match fst second with inr r => Some r | inl _ => None end)
     = Some "updated"
  /\ List.length (emitted (snd second))
     = (List.length (emitted w) + (if io then 2 else 0))%nat.
Proof.
  intros Hfree Hfresh Hwin d first second.
  pose proof (upsert_twice_updated now1 now2 d io "stock_service" w
                Hfree Hfresh (outOfStock_insert_valid _ _ _ _ _ _)
                (outOfStock_update_valid _ _ _ _) eq_refl eq_refl Hwin) as H.
  cbv zeta in H. destruct H as [H1 [H2 H3]].
  subst first second. rewrite H1, H2, H3.
  split; [reflexivity |]. split; [reflexivity |].
  rewrite length_app. now destruct io.
Qed.

(** ** Stock check *)

Lemma save_cases (n : NotificationData) (w : World) :
  validateDocument n = [] ->
  (exists kv m, save n w = inl (MongoServerError 11000 kv)
                /\ In m (docs w) /\ notificationHash m = Some kv)
  \/ save n w
     = inr (mkNotification (nextId w) n,
            mkWorld (docs w ++ [mkNotification (nextId w) n]) (S (nextId w))
              (emitted w)).
Proof.
  intros Hvalid. unfold save. rewrite Hvalid.
  destruct (indexConflict None (notificationHash n) w) eqn:E; [left | now right].
  destruct (indexConflict_holder _ _ _ E) as [kv [m [Hh [Hin Hm]]]].
  exists kv, m. rewrite Hh. simpl.
  destruct (String.eqb_spec kv ""); subst; auto.
Qed.

Lemma updateById_cases (id : nat) (upd : NotificationData) (w : World)
    (old : Notification) :
  validateUpdate upd = [] ->
  findById id w = Some old ->
  (exists kv m, updateById id upd true w = inl (MongoServerError 11000 kv)
                /\ In m (docs w) /\ notificationHash m = Some kv)
  \/ updateById id upd true w
     = inr (Some (mkNotification id (assign upd old)),
            with_docs (replace (mkNotification id (assign upd old)) (docs w)) w).
Proof.
  intros Hvalid Hold. unfold updateById. rewrite Hvalid, Hold. cbv zeta.
  match goal with |- context [if ?c then _ else _] => destruct c eqn:E end;
    [left | now right].
  apply andb_true_iff in E as [_ E].
  destruct (indexConflict_holder _ _ _ E) as [kv [m [Hh [Hin Hm]]]].
  exists kv, m. split; [| now split].
  do 2 f_equal. simpl in Hh |- *. rewrite Hh. simpl.
  now destruct (String.eqb_spec kv "").
Qed.

(** A payload the schema accepts is never answered by an error: a refused
    write can only be a duplicate key, and that one is recovered. *)
Lemma upsert_valid_returns (now : Z) (d : NotificationData) (io : bool)
    (source : string) (w : World) :
  validateDocument (applyDefaults now (insertObject now (hashFor d) d)) = [] ->
  validateUpdate d = [] ->
  exists r, fst (upsertNotification now d io source w) = inr r.
Proof.
  intros Hdoc Hupd. unfold upsertNotification. fold (hashFor d).
  destruct (findOne _ w) as [existing|] eqn:Hfind.
  - destruct (hasChanges existing d); [| eexists; reflexivity].
    apply findOne_Some in Hfind as [Hin _].
    destruct (findOne_exists (hasId (_id existing)) w existing Hin) as [old Hold];
      [apply Nat.eqb_refl |].
    destruct (updateById_cases (_id existing) (updateObject now existing d) w old)
      as [[kv [m [E [Hm1 Hm2]]]] | E]; [exact Hupd | exact Hold | |];
      rewrite E.
    + destruct (recover_duplicate _ _ _ Hm1 Hm2) as [m' [Hrec _]].
      rewrite Hrec. eexists; reflexivity.
    + eexists; reflexivity.
  - destruct (save_cases _ w Hdoc) as [[kv [m [E [Hm1 Hm2]]]] | E]; rewrite E.
    + destruct (recover_duplicate _ _ _ Hm1 Hm2) as [m' [Hrec _]].
      rewrite Hrec. eexists; reflexivity.
    + eexists; reflexivity.
Qed.

Lemma updateById_result (id : nat) (upd : NotificationData) (v : bool)
    (w w1 : World) (u : Notification) :
  updateById id upd v w = inr (Some u, w1) ->
  exists old, findById id w = Some old
              /\ u = mkNotification id (assign upd old)
              /\ w1 = with_docs (replace u (docs w)) w.
Proof.
  unfold updateById.
  destruct (if v then validateUpdate upd else []); [| discriminate].
  destruct (findById id w) as [old|]; [| discriminate].
  cbv zeta.
  match goal with |- context [if ?c then _ else _] => destruct c end;
    [discriminate |].
  intros H. injection H as <- <-. now exists old.
Qed.

Lemma save_result (n : NotificationData) (w w1 : World) (saved : Notification) :
  save n w = inr (saved, w1) ->
  saved = mkNotification (nextId w) n
  /\ w1 = mkWorld (docs w ++ [saved]) (S (nextId w)) (emitted w).
Proof.
  unfold save. destruct (validateDocument n); [| discriminate].
  destruct (indexConflict None _ w); [discriminate |].
  intros H. now injection H as <- <-.
Qed.

(** What the engine answers: the four actions and the document of each. *)
Lemma upsert_result (now : Z) (d : NotificationData) (io : bool)
    (source : string) (w w1 : World) (r : UpsertResult) :
  upsertNotification now d io source w = (inr r, w1) ->
  (action r = "created"
   /\ notification r = inserted now d w
   /\ findOne (lookupFilter now (hashFor d)) w = None)
  \/ (action r = "updated"
      /\ exists existing old,
          findOne (lookupFilter now (hashFor d)) w = Some existing
          /\ findById (_id existing) w = Some old
          /\ notification r
             = mkNotification (_id existing)
                 (assign (updateObject now existing d) old))
  \/ (action r = "unchanged" /\ w1 = w
      /\ findOne (lookupFilter now (hashFor d)) w = Some (notification r))
  \/ (action r = "recovered" /\ w1 = w /\ In (notification r) (docs w)).
Proof.
  unfold upsertNotification. fold (hashFor d).
  destruct (findOne _ w) as [existing|] eqn:Hfind.
  - destruct (hasChanges existing d).
    + destruct (updateById _ _ true w) as [err | [[u|] w2]] eqn:E.
      * intros H. right. right. right.
        assert (Hr : fst (recover err w) = inr r) by now rewrite H.
        assert (Hw : snd (recover err w) = w1) by now rewrite H.
        rewrite recover_world in Hw. split; [exact (recover_action _ _ _ Hr) |].
        split; [now symmetry |].
        unfold recover in Hr. destruct err as [ps | c k | | q]; try discriminate.
        destruct (c =? 11000); [| discriminate].
        destruct (findOne (hasHash k) w) as [m|] eqn:Hm; [| discriminate].
        simpl in Hr. injection Hr as <-. simpl.
        now apply findOne_Some in Hm as [Hm _].
      * intros H. injection H as <- _. right. left. split; [reflexivity |].
        destruct (updateById_result _ _ _ _ _ _ E) as [old [Hold [Hu _]]].
        exists existing, old. now repeat split.
      * discriminate.
    + intros H. injection H as <- <-. right. right. left. now repeat split.
  - destruct (save _ w) as [err | [saved w2]] eqn:E.
    + intros H. right. right. right.
      assert (Hr : fst (recover err w) = inr r) by now rewrite H.
      assert (Hw : snd (recover err w) = w1) by now rewrite H.
      rewrite recover_world in Hw. split; [exact (recover_action _ _ _ Hr) |].
      split; [now symmetry |].
      unfold recover in Hr. destruct err as [ps | c k | | q]; try discriminate.
      destruct (c =? 11000); [| discriminate].
      destruct (findOne (hasHash k) w) as [m|] eqn:Hm; [| discriminate].
      simpl in Hr. injection Hr as <-. simpl.
      now apply findOne_Some in Hm as [Hm _].
    + intros H. injection H as <- _. left. split; [reflexivity |].
      destruct (save_result _ _ _ _ E) as [-> _]. now split.
Qed.

Lemma emitAll_docs (io : bool) (events : list event) (w : World) :
  docs (emitAll io events w) = docs w.
Proof.
  unfold emitAll. revert w. induction events as [| e es IH]; intros w; simpl.
  - reflexivity.
  - rewrite IH. apply emit_docs.
Qed.

Lemma filter_nonempty {A : Type} (f : A -> bool) (l : list A) (x : A) :
  In x l -> f x = true -> List.filter f l <> [].
Proof.
  intros Hin Hf Hnil.
  assert (H : In x (List.filter f l)) by (apply filter_In; now split).
  now rewrite Hnil in H.
Qed.


(** ** Resolution and the active feed *)

Lemma insertByTime_In (n m : Notification) (l : list Notification) :
  In m (insertByTime n l) <-> m = n \/ In m l.
Proof.
  induction l as [| a l IH]; simpl.
  - intuition.
  - destruct (timeOf a <=? timeOf n); simpl; [intuition |].
    rewrite IH. intuition.
Qed.

Lemma newestFirst_In (m : Notification) (l : list Notification) :
  In m (newestFirst l) <-> In m l.
Proof.
  unfold newestFirst. induction l as [| a l IH]; simpl; [reflexivity |].
  rewrite insertByTime_In, IH. intuition.
Qed.

Lemma unresolved_true (n : Notification) :
  unresolved n = true <-> isResolved n = Some false.
Proof.
  unfold unresolved, neqB, strictNeq.
  destruct (isResolved n) as [[|]|]; simpl; split; congruence.
Qed.

Lemma resolved_true (n : Notification) :
  resolved n = true <-> isResolved n = Some true.
Proof.
  unfold resolved, neqB, strictNeq.
  destruct (isResolved n) as [[|]|]; simpl; split; congruence.
Qed.

Lemma read_true (n : Notification) : read n = true <-> isRead n = Some true.
Proof.
  unfold read, neqB, strictNeq.
  destruct (isRead n) as [[|]|]; simpl; split; congruence.
Qed.

Lemma firstn_In {A : Type} (k : nat) (l : list A) (x : A) :
  In x (firstn k l) -> In x l.
Proof.
  revert l. induction k as [| k IH]; intros [| a l]; simpl; try contradiction.
  intros [-> | H]; [now left | right; now apply IH].
Qed.

Lemma activeFeedQuery_In (m : Notification) (w : World) :
  In m (activeFeedQuery w) -> In m (docs w) /\ isResolved m = Some false.
Proof.
  unfold activeFeedQuery, find. intros H.
  apply firstn_In, newestFirst_In, filter_In in H as [Hin Hun].
  split; [exact Hin | now apply unresolved_true].
Qed.

Lemma replace_In (d m : Notification) (ds : list Notification) :
  In m (replace d ds) -> m = d \/ (In m ds /\ _id m <> _id d).
Proof.
  unfold replace. rewrite in_map_iff. intros [a [Ha Hin]].
  unfold hasId in Ha. destruct (Nat.eqb_spec (_id a) (_id d)) as [E | E].
  - now left.
  - right. subst a. now split.
Qed.

(** C9.  Resolving a stored notification by its id marks it resolved and
    leaves it, and every other document, in the collection; the query of the
    active feed answers unresolved documents only, so the resolved one is not
    among them. *)
Theorem resolve_keeps_document (now : Z) (io : bool) (id : nat)
    (note : option string) (w : World) (n : Notification) :
  findById id w = Some n ->
  exists u w',
    resolveNotification now io id note w = (json u, w')
    /\ _id u = id
    /\ isResolved u = Some true
    /\ notificationHash u = notificationHash n
    /\ findById id w' = Some u
    /\ map _id (docs w') = map _id (docs w)
    /\ (forall m, In m (activeFeedQuery w') ->
                  isResolved m = Some false /\ _id m <> id).
Proof.
  intros Hfind. unfold resolveNotification. rewrite Hfind.
  unfold updateById. rewrite Hfind. cbv zeta.
  set (u := mkNotification id (assign (resolveUpdate now note) n)).
  assert (Hhash : notificationHash u = notificationHash n) by reflexivity.
  rewrite Hhash, neqS_refl. cbn [andb].
  exists u. eexists. split; [reflexivity |].
  apply findOne_Some in Hfind as [Hin Hid].
  split; [reflexivity |]. split; [reflexivity |]. split; [exact Hhash |].
  rewrite emit_docs. cbn [docs with_docs].
  split.
  { unfold findById, findOne. rewrite emit_docs. cbn [docs with_docs].
    exact (find_replace u (docs w) n Hin Hid). }
  split; [apply replace_ids |].
  intros m Hm. apply activeFeedQuery_In in Hm as [Hm Hun].
  split; [exact Hun |].
  rewrite emit_docs in Hm. cbn [docs with_docs] in Hm.
  apply replace_In in Hm as [-> | [_ Hne]]; [discriminate | exact Hne].
Qed.

Lemma emitAll_emitted (io : bool) (events : list event) (w : World) :
  emitted (emitAll io events w) = emitted w ++ (if io then events else []).
Proof.
  unfold emitAll, emit. destruct io.
  - revert w. induction events as [| e es IH]; intros w; simpl.
    + now rewrite app_nil_r.
    + rewrite IH. simpl. now rewrite <- app_assoc.
  - rewrite app_nil_r. revert w.
    induction events as [| e es IH]; intros w; simpl; [reflexivity | apply IH].
Qed.

(** C10.  The sweep deletes every document that is resolved or read and
    no other: after it no document is resolved, none is read, and an
    unresolved document that had merely been read is gone with the rest. *)
Theorem clearResolved_deletes_read (io : bool) (w : World) :
  fst (clearResolved io w)
  = json (List.length (List.filter (fun n => resolved n || read n) (docs w)))
  /\ (forall n, In n (docs (snd (clearResolved io w))) <->
                In n (docs w) /\ isResolved n <> Some true
                /\ isRead n <> Some true)
  /\ (forall n, In n (docs w) -> isResolved n = Some false ->
                isRead n = Some true ->
                ~ In n (docs (snd (clearResolved io w))))
  /\ List.length (emitted (snd (clearResolved io w)))
     = (List.length (emitted w)
        + (if io
           then List.length (List.filter (fun n => resolved n || read n) (docs w))
           else 0))%nat.
Proof.
  unfold clearResolved, deleteMany. cbv beta iota zeta. cbn [fst snd].
  assert (Hdocs : forall n,
             In n (docs (emitAll io
                           (map (fun n0 : Notification =>
                                   notification_deleted (_id n0)
                                     (notificationHash n0) "notification_page")
                              (find (fun n0 => resolved n0 || read n0) w))
                           (with_docs
                              (List.filter
                                 (fun n0 => negb (resolved n0 || read n0))
                                 (docs w)) w)))
             <-> In n (docs w) /\ isResolved n <> Some true
                 /\ isRead n <> Some true).
  { intros n. rewrite emitAll_docs. cbn [docs with_docs].
    rewrite filter_In, negb_true_iff, orb_false_iff.
    rewrite <- resolved_true, <- read_true.
    destruct (resolved n), (read n); intuition congruence. }
  split; [reflexivity |]. split; [exact Hdocs |]. split.
  - intros n Hin Hres Hread Hkept. apply Hdocs in Hkept as [_ [_ Hr]].
    contradiction.
  - rewrite emitAll_emitted, length_app. cbn [emitted with_docs].
    destruct io; [now rewrite length_map | reflexivity].
Qed.

(** ** Failures of the generators *)

Lemma generateGSTAlerts_returns (now : Z) (io : bool) (dom : Domain) (w : World) :
  exists alerts, fst (generateGSTAlerts now io dom w) = inr alerts.
Proof.
  unfold generateGSTAlerts.
  destruct (gstAlertsBody now io dom w) as [[err | alerts] w'];
    eexists; reflexivity.
Qed.

Lemma generatePaymentAlerts_returns (now : Z) (io : bool) (dom : Domain)
    (w : World) :
  exists alerts, fst (generatePaymentAlerts now io dom w) = inr alerts.
Proof.
  unfold generatePaymentAlerts.
  destruct (paymentAlertsBody now io dom w) as [[err | alerts] w'];
    eexists; reflexivity.
Qed.


(** ** What the store keeps *)

Lemma hashes_In (h : string) (ds : list Notification) :
  In h (hashes ds) <-> exists n, In n ds /\ notificationHash n = Some h.
Proof.
  unfold hashes. rewrite in_flat_map. split.
  - intros [n [Hin Hh]]. exists n. split; [exact Hin |].
    destruct (notificationHash n) as [k|]; [| contradiction].
    destruct Hh as [-> | []]. reflexivity.
  - intros [n [Hin Hh]]. exists n. split; [exact Hin |].
    rewrite Hh. now left.
Qed.

Lemma hashes_cons (a : Notification) (l : list Notification) :
  hashes (a :: l)
  = match notificationHash a with Some h => [h] | None => [] end ++ hashes l.
Proof. reflexivity. Qed.

Lemma hashes_app (l1 l2 : list Notification) :
  hashes (l1 ++ l2) = hashes l1 ++ hashes l2.
Proof. apply flat_map_app. Qed.

Lemma NoDup_hashes_cons (a : Notification) (l : list Notification) :
  NoDup (hashes (a :: l)) <->
  NoDup (hashes l)
  /\ forall h, notificationHash a = Some h -> ~ In h (hashes l).
Proof.
  rewrite hashes_cons. destruct (notificationHash a) as [k|]; simpl.
  - rewrite NoDup_cons_iff. split.
    + intros [Hn Hd]. split; [exact Hd |]. intros h Hh. now injection Hh as <-.
    + intros [Hd Hn]. split; [now apply Hn | exact Hd].
  - split; [intros H; split; [exact H | discriminate] | now intros [H _]].
Qed.

Lemma NoDup_ids_filter (f : Notification -> bool) (l : list Notification) :
  NoDup (map _id l) -> NoDup (map _id (List.filter f l)).
Proof.
  induction l as [| a l IH]; simpl; [trivial |].
  rewrite NoDup_cons_iff. intros [Hn Hd].
  destruct (f a); simpl; [| now apply IH].
  apply NoDup_cons; [| now apply IH].
  intros Hin. apply Hn. apply in_map_iff in Hin as [n [Hid Hin]].
  apply filter_In in Hin as [Hin _]. apply in_map_iff. now exists n.
Qed.

Lemma NoDup_hashes_filter (f : Notification -> bool) (l : list Notification) :
  NoDup (hashes l) -> NoDup (hashes (List.filter f l)).
Proof.
  induction l as [| a l IH]; simpl List.filter; [trivial |].
  rewrite NoDup_hashes_cons. intros [Hd Hn].
  destruct (f a); [| now apply IH].
  apply NoDup_hashes_cons. split; [now apply IH |].
  intros h Hh Hin. apply (Hn h Hh).
  apply hashes_In in Hin as [n [Hin Hk]]. apply filter_In in Hin as [Hin _].
  apply hashes_In. now exists n.
Qed.

Lemma Forall_ids_filter (P : nat -> Prop) (f : Notification -> bool)
    (l : list Notification) :
  Forall P (map _id l) -> Forall P (map _id (List.filter f l)).
Proof.
  rewrite !Forall_forall. intros H id Hin.
  apply in_map_iff in Hin as [n [<- Hin]]. apply filter_In in Hin as [Hin _].
  apply H. apply in_map_iff. now exists n.
Qed.

Lemma replace_absent (d : Notification) (l : list Notification) :
  (forall n, In n l -> _id n <> _id d) -> replace d l = l.
Proof.
  intros H. unfold replace. rewrite <- (map_id l) at 2.
  apply map_ext_in. intros n Hin. unfold hasId.
  destruct (Nat.eqb_spec (_id n) (_id d)) as [E | E]; [| reflexivity].
  now destruct (H n Hin).
Qed.

Lemma replace_hashes_In (d : Notification) (l : list Notification) (h : string) :
  In h (hashes (replace d l)) ->
  In h (hashes l) \/ notificationHash d = Some h.
Proof.
  intros Hin. apply hashes_In in Hin as [n [Hin Hh]].
  apply replace_In in Hin as [-> | [Hin _]]; [now right |].
  left. apply hashes_In. now exists n.
Qed.

(** Writing [d] over the document of its [_id] keeps the hashes apart when
    [d] carries the hash of that document, or a hash no other document
    carries. *)
Lemma replace_hashes (d old : Notification) (ds : list Notification) :
  NoDup (map _id ds) -> In old ds -> _id old = _id d ->
  NoDup (hashes ds) ->
  (notificationHash d = notificationHash old
   \/ forall h n, notificationHash d = Some h -> In n ds -> _id n <> _id d ->
                  notificationHash n <> Some h) ->
  NoDup (hashes (replace d ds)).
Proof.
  induction ds as [| a l IH]; [contradiction |].
  cbn [map]. rewrite NoDup_cons_iff. intros [Hnotin Hids] Hold Hid.
  rewrite NoDup_hashes_cons. intros [Hdup Hfresh] Hcase.
  unfold replace. cbn [map]. fold (replace d l). unfold hasId.
  destruct (Nat.eqb_spec (_id a) (_id d)) as [Ea | Ea].
  - assert (Hl : forall n, In n l -> _id n <> _id d).
    { intros n Hn E. apply Hnotin. rewrite Ea, <- E. apply in_map_iff. now exists n. }
    rewrite (replace_absent d l Hl).
    assert (old = a) as ->.
    { destruct Hold as [-> | Hin]; [reflexivity |]. now destruct (Hl old Hin). }
    apply NoDup_hashes_cons. split; [exact Hdup |].
    intros h Hh Hin. destruct Hcase as [Hsame | Hother].
    + apply (Hfresh h); [congruence | exact Hin].
    + apply hashes_In in Hin as [n [Hn Hk]].
      exact (Hother h n Hh (or_intror Hn) (Hl n Hn) Hk).
  - assert (Hold' : In old l).
    { destruct Hold as [-> | Hin]; [congruence | exact Hin]. }
    apply NoDup_hashes_cons. split.
    + apply IH; try assumption.
      destruct Hcase as [Hsame | Hother]; [now left | right].
      intros h n Hh Hn. apply (Hother h n Hh). now right.
    + intros h Hh Hin.
      apply replace_hashes_In in Hin as [Hin | Hd]; [exact (Hfresh h Hh Hin) |].
      destruct Hcase as [Hsame | Hother].
      * apply (Hfresh h Hh). apply hashes_In. exists old. split; [exact Hold' |].
        congruence.
      * exact (Hother h a Hd (or_introl eq_refl) Ea Hh).
Qed.

Lemma wellFormed_same (w w' : World) :
  docs w' = docs w -> nextId w' = nextId w -> wellFormed w -> wellFormed w'.
Proof. unfold wellFormed. now intros -> ->. Qed.

Lemma emit_nextId (io : bool) (e : event) (w : World) :
  nextId (emit io e w) = nextId w.
Proof. unfold emit. now destruct io. Qed.

Lemma emitAll_nextId (io : bool) (events : list event) (w : World) :
  nextId (emitAll io events w) = nextId w.
Proof.
  unfold emitAll. revert w. induction events as [| e es IH]; intros w; simpl.
  - reflexivity.
  - rewrite IH. apply emit_nextId.
Qed.

Lemma wellFormed_emit (io : bool) (e : event) (w : World) :
  wellFormed w -> wellFormed (emit io e w).
Proof. apply wellFormed_same; [apply emit_docs | apply emit_nextId]. Qed.

Lemma wellFormed_emitAll (io : bool) (events : list event) (w : World) :
  wellFormed w -> wellFormed (emitAll io events w).
Proof. apply wellFormed_same; [apply emitAll_docs | apply emitAll_nextId]. Qed.

Lemma wellFormed_save (n : NotificationData) (w w1 : World) (saved : Notification) :
  wellFormed w -> save n w = inr (saved, w1) -> wellFormed w1.
Proof.
  intros [Hids [Hlt Hhashes]] Hsave.
  assert (Hfree : forall h, notificationHash n = Some h -> ~ In h (hashes (docs w))).
  { intros h Hh Hin. unfold save in Hsave.
    destruct (validateDocument n); [| discriminate].
    destruct (indexConflict None (notificationHash n) w) eqn:E; [discriminate |].
    rewrite Hh in E. unfold indexConflict in E.
    apply hashes_In in Hin as [m [Hm Hk]].
    assert (Ht : existsb (fun n0 => hasHash h n0 && true) (docs w) = true).
    { apply existsb_exists. exists m. split; [exact Hm |].
      rewrite andb_true_r. now apply hasHash_true. }
    congruence. }
  destruct (save_result _ _ _ _ Hsave) as [-> ->].
  unfold wellFormed. cbn [docs nextId]. rewrite map_app. cbn [map _id].
  split; [| split].
  - apply NoDup_app; [exact Hids | | ].
    + apply NoDup_cons; [intros [] | apply NoDup_nil].
    + intros id Hin [<- | []]. rewrite Forall_forall in Hlt.
      specialize (Hlt _ Hin). lia.
  - apply Forall_app. split.
    + eapply Forall_impl; [| exact Hlt]. intros; simpl in *; lia.
    + apply Forall_cons; [lia | apply Forall_nil].
  - rewrite hashes_app. apply NoDup_app; [exact Hhashes | |].
    + apply NoDup_hashes_cons. split; [apply NoDup_nil |]. intros h _ [].
    + intros h Hin Hin'. apply hashes_In in Hin' as [m [[<- | []] Hk]].
      exact (Hfree h Hk Hin).
Qed.

Lemma wellFormed_replace (d old : Notification) (w : World) :
  wellFormed w -> In old (docs w) -> _id old = _id d ->
  (notificationHash d = notificationHash old
   \/ forall h n, notificationHash d = Some h -> In n (docs w) ->
                  _id n <> _id d -> notificationHash n <> Some h) ->
  wellFormed (with_docs (replace d (docs w)) w).
Proof.
  intros [Hids [Hlt Hhashes]] Hold Hid Hcase.
  unfold wellFormed, with_docs. cbn [docs nextId]. rewrite replace_ids.
  split; [exact Hids |]. split; [exact Hlt |].
  now apply (replace_hashes d old).
Qed.

Lemma indexConflict_false (id : nat) (h : string) (w : World) (n : Notification) :
  indexConflict (Some id) (Some h) w = false ->
  In n (docs w) -> _id n <> id -> notificationHash n <> Some h.
Proof.
  unfold indexConflict. intros E Hin Hne Hh.
  assert (Ht : existsb (fun m => hasHash h m && negb (hasId id m)) (docs w) = true).
  { apply existsb_exists. exists n. split; [exact Hin |].
    apply andb_true_iff. split; [now apply hasHash_true |].
    apply negb_true_iff. now apply Nat.eqb_neq. }
  congruence.
Qed.

Lemma neqS_false (a b : option string) : neqS a b = false -> a = b.
Proof.
  intros H. apply eqS_true. unfold eqS. now rewrite H.
Qed.

Lemma wellFormed_updateById (id : nat) (upd : NotificationData) (v : bool)
    (w w1 : World) (u : option Notification) :
  wellFormed w -> updateById id upd v w = inr (u, w1) -> wellFormed w1.
Proof.
  intros Hwf. unfold updateById.
  destruct (if v then validateUpdate upd else []); [| discriminate].
  destruct (findById id w) as [old|] eqn:Hold.
  - cbv zeta.
    match goal with |- context [if ?c then _ else _] => destruct c eqn:E end;
      [discriminate |].
    intros H. injection H as _ <-.
    apply findOne_Some in Hold as [Hin Hid]. apply Nat.eqb_eq in Hid.
    apply (wellFormed_replace _ old); [exact Hwf | exact Hin | exact Hid |].
    apply andb_false_iff in E as [E | E].
    + left. now apply neqS_false.
    + right. intros h n Hh Hn Hne. cbn [_id] in Hne.
      cbn [paths] in Hh. cbn [paths] in E. rewrite Hh in E.
      exact (indexConflict_false id h w n E Hn Hne).
  - intros H. now injection H as _ <-.
Qed.

Lemma wellFormed_updateMany (f : Notification -> bool) (upd : NotificationData)
    (w : World) :
  notificationHash upd = None ->
  wellFormed w -> wellFormed (updateMany f upd w).
Proof.
  intros Hupd [Hids [Hlt Hhashes]].
  assert (Hsame_ids :
    map _id (map (fun n => if f n then mkNotification (_id n) (assign upd n) else n)
               (docs w)) = map _id (docs w)).
  { rewrite map_map. apply map_ext. intros n. now destruct (f n). }
  assert (Hsame_hashes :
    hashes (map (fun n => if f n then mkNotification (_id n) (assign upd n) else n)
              (docs w)) = hashes (docs w)).
  { unfold hashes. rewrite flat_map_concat_map, map_map, <- flat_map_concat_map.
    apply flat_map_ext. intros n. destruct (f n); [| reflexivity].
    cbn [paths assign notificationHash]. now rewrite Hupd. }
  unfold wellFormed, updateMany, with_docs. cbn [docs nextId].
  now rewrite Hsame_ids, Hsame_hashes.
Qed.

Lemma wellFormed_deleteMany (f : Notification -> bool) (w : World) :
  wellFormed w -> wellFormed (snd (deleteMany f w)).
Proof.
  intros [Hids [Hlt Hhashes]].
  unfold wellFormed, deleteMany, with_docs. cbn [snd docs nextId].
  split; [now apply NoDup_ids_filter |].
  split; [now apply Forall_ids_filter | now apply NoDup_hashes_filter].
Qed.

Lemma wellFormed_upsert (now : Z) (d : NotificationData) (io : bool)
    (source : string) (w : World) :
  wellFormed w -> wellFormed (snd (upsertNotification now d io source w)).
Proof.
  intros Hwf. unfold upsertNotification.
  destruct (findOne _ w) as [existing|].
  - destruct (hasChanges existing d); [| exact Hwf].
    destruct (updateById _ _ true w) as [err | [[u|] w1]] eqn:E.
    + now rewrite recover_world.
    + cbn [snd]. apply wellFormed_emit. exact (wellFormed_updateById _ _ _ _ _ _ Hwf E).
    + rewrite recover_world. exact (wellFormed_updateById _ _ _ _ _ _ Hwf E).
  - destruct (save _ w) as [err | [saved w1]] eqn:E.
    + now rewrite recover_world.
    + cbn [snd]. apply wellFormed_emit. exact (wellFormed_save _ _ _ _ Hwf E).
Qed.

Lemma wellFormed_sweep (now : Z) (io : bool) (h note source : string) (w : World) :
  wellFormed w -> wellFormed (sweep now io h note source w).
Proof.
  intros Hwf. unfold sweep. destruct (find _ w); [exact Hwf |].
  apply wellFormed_emitAll. now apply wellFormed_updateMany.
Qed.

Lemma wellFormed_gstScan (now : Z) (io : bool) (taxEntries : list TaxEntry.t)
    (alerts : list Notification) (w : World) :
  wellFormed w -> wellFormed (snd (gstScan now io taxEntries alerts w)).
Proof.
  revert alerts w. induction taxEntries as [| tax rest IH]; intros alerts w Hwf.
  - exact Hwf.
  - cbn [gstScan]. destruct (TaxEntry._id tax) as [id|]; [| now apply IH].
    pose proof (wellFormed_upsert now (gstAlertData now tax id) io "gst_service" w Hwf)
      as Hup.
    destruct (upsertNotification now _ io "gst_service" w) as [[err | r] w1];
      now apply IH.
Qed.

Lemma wellFormed_gstSweep (now : Z) (io : bool) (paid : list TaxEntry.t) (w : World) :
  wellFormed w -> wellFormed (snd (gstSweep now io paid w)).
Proof.
  revert w. induction paid as [| tax rest IH]; intros w Hwf; [exact Hwf |].
  cbn [gstSweep]. destruct (TaxEntry._id tax) as [id|]; [| exact Hwf].
  apply IH. now apply wellFormed_sweep.
Qed.

Lemma wellFormed_generateGSTAlerts (now : Z) (io : bool) (dom : Domain) (w : World) :
  wellFormed w -> wellFormed (snd (generateGSTAlerts now io dom w)).
Proof.
  intros Hwf.
  assert (Hbody : wellFormed (snd (gstAlertsBody now io dom w))).
  { unfold gstAlertsBody. destruct (pendingTaxEntries dom) as [e | taxEntries];
      [exact Hwf |].
    pose proof (wellFormed_gstScan now io taxEntries [] w Hwf) as Hscan.
    destruct (gstScan now io taxEntries [] w) as [alerts w1]. cbn [snd] in Hscan.
    destruct (paidTaxEntries dom) as [e | paid]; [exact Hscan |].
    pose proof (wellFormed_gstSweep now io paid w1 Hscan) as Hsweep.
    now destruct (gstSweep now io paid w1) as [[err | u] w2]. }
  unfold generateGSTAlerts.
  now destruct (gstAlertsBody now io dom w) as [[err | alerts] w'].
Qed.

Lemma wellFormed_paymentScan (now : Z) (io : bool) (orders : list Order.t)
    (alerts : list Notification) (w : World) :
  wellFormed w -> wellFormed (snd (paymentScan now io orders alerts w)).
Proof.
  revert alerts w. induction orders as [| order rest IH]; intros alerts w Hwf.
  - exact Hwf.
  - cbn [paymentScan]. destruct (Order.orderId order) as [id|]; [| now apply IH].
    destruct (String.eqb id ""); [now apply IH |].
    pose proof (wellFormed_upsert now (paymentAlertData now order id) io
                  "payment_service" w Hwf) as Hup.
    destruct (upsertNotification now _ io "payment_service" w) as [[err | r] w1];
      now apply IH.
Qed.

Lemma wellFormed_paymentSweep (now : Z) (io : bool) (paid : list Order.t) (w : World) :
  wellFormed w -> wellFormed (paymentSweep now io paid w).
Proof.
  revert w. induction paid as [| order rest IH]; intros w Hwf; [exact Hwf |].
  cbn [paymentSweep]. apply IH. now apply wellFormed_sweep.
Qed.

Lemma wellFormed_generatePaymentAlerts (now : Z) (io : bool) (dom : Domain)
    (w : World) :
  wellFormed w -> wellFormed (snd (generatePaymentAlerts now io dom w)).
Proof.
  intros Hwf.
  assert (Hbody : wellFormed (snd (paymentAlertsBody now io dom w))).
  { unfold paymentAlertsBody. destruct (orderModel dom); [| exact Hwf].
    destruct (pendingOrders dom) as [e | orders]; [exact Hwf |].
    pose proof (wellFormed_paymentScan now io orders [] w Hwf) as Hscan.
    destruct (paymentScan now io orders [] w) as [alerts w1]. cbn [snd] in Hscan.
    destruct (paidOrders dom) as [e | paid]; [exact Hscan |].
    cbn [snd]. now apply wellFormed_paymentSweep. }
  unfold generatePaymentAlerts.
  now destruct (paymentAlertsBody now io dom w) as [[err | alerts] w'].
Qed.

Lemma wellFormed_tryGenerate (generate : World -> outcome (list Notification))
    (m : NotificationMap) (w : World) :
  wellFormed (snd (generate w)) -> wellFormed (snd (tryGenerate generate m w)).
Proof.
  unfold tryGenerate. now destruct (generate w) as [[err | alerts] w'].
Qed.

Lemma wellFormed_getNotifications (now : Z) (io : bool) (dom : Domain) (w : World) :
  wellFormed w -> wellFormed (snd (getNotifications now io dom w)).
Proof.
  intros Hwf. unfold getNotifications.
  pose proof (wellFormed_tryGenerate (generateGSTAlerts now io dom)
                (addAll (activeFeedQuery w) []) w
                (wellFormed_generateGSTAlerts now io dom w Hwf)) as H1.
  destruct (tryGenerate (generateGSTAlerts now io dom) _ w) as [m1 w1].
  cbn [snd] in H1.
  pose proof (wellFormed_tryGenerate (generatePaymentAlerts now io dom) m1 w1
                (wellFormed_generatePaymentAlerts now io dom w1 H1)) as H2.
  now destruct (tryGenerate (generatePaymentAlerts now io dom) m1 w1) as [m2 w2].
Qed.

Lemma wellFormed_getStats (now : Z) (io : bool) (dom : Domain) (w : World) :
  wellFormed w -> wellFormed (snd (getStats now io dom w)).
Proof.
  intros Hwf. unfold getStats.
  pose proof (wellFormed_generateGSTAlerts now io dom w Hwf) as H1.
  destruct (generateGSTAlerts now io dom w) as [[err | gstAlerts] w1];
    [exact H1 |]. cbn [snd] in H1.
  pose proof (wellFormed_generatePaymentAlerts now io dom w1 H1) as H2.
  now destruct (generatePaymentAlerts now io dom w1) as [[err | paymentAlerts] w2].
Qed.

Lemma wellFormed_updateFromPage (now : Z) (io : bool) (d : option NotificationData)
    (source : option string) (preserve : option bool) (w : World) :
  wellFormed w -> wellFormed (snd (updateFromPage now io d source preserve w)).
Proof.
  intros Hwf. unfold updateFromPage. destruct d as [data|]; [| exact Hwf].
  destruct (String.eqb _ ""); [exact Hwf |].
  match goal with
  | |- context [upsertNotification ?a ?b ?c ?e w] =>
      pose proof (wellFormed_upsert a b c e w Hwf) as Hup;
      destruct (upsertNotification a b c e w) as [[err | r] w1]
  end; exact Hup.
Qed.

Lemma wellFormed_checkStock (now : Z) (io : bool) (product name : option string)
    (stock minimum : option Z) (w : World) :
  wellFormed w ->
  wellFormed (snd (checkStock now io product name stock minimum w)).
Proof.
  intros Hwf. unfold checkStock.
  destruct stock as [s|]; [| exact Hwf]. destruct minimum as [m|]; [| exact Hwf].
  destruct (s =? 0).
  - match goal with
    | |- context [upsertNotification ?a ?b ?c ?e w] =>
        pose proof (wellFormed_upsert a b c e w Hwf) as Hup;
        destruct (upsertNotification a b c e w) as [[err | r] w1]
    end; exact Hup.
  - destruct ((0 <? s) && (s <=? m)).
    + match goal with
      | |- context [upsertNotification ?a ?b ?c ?e w] =>
          pose proof (wellFormed_upsert a b c e w Hwf) as Hup;
          destruct (upsertNotification a b c e w) as [[err | r] w1]
      end; exact Hup.
    + destruct (find _ w); [exact Hwf |].
      pose proof (wellFormed_deleteMany (stockAlertOf product) w Hwf) as Hdel.
      destruct (deleteMany (stockAlertOf product) w) as [deleted w1].
      cbn [snd]. now apply wellFormed_emitAll.
Qed.

Lemma wellFormed_markRead (now : Z) (io : bool) (id : nat) (w : World) :
  wellFormed w -> wellFormed (snd (markRead now io id w)).
Proof.
  intros Hwf. unfold markRead. destruct (findById id w); [| exact Hwf].
  destruct (updateById id (readUpdate now) false w) as [err | [[u|] w1]] eqn:E;
    [exact Hwf | |]; cbn [snd].
  - apply wellFormed_emit. exact (wellFormed_updateById _ _ _ _ _ _ Hwf E).
  - exact (wellFormed_updateById _ _ _ _ _ _ Hwf E).
Qed.

Lemma wellFormed_resolveNotification (now : Z) (io : bool) (id : nat)
    (note : option string) (w : World) :
  wellFormed w -> wellFormed (snd (resolveNotification now io id note w)).
Proof.
  intros Hwf. unfold resolveNotification. destruct (findById id w); [| exact Hwf].
  destruct (updateById id (resolveUpdate now note) false w)
    as [err | [[u|] w1]] eqn:E; [exact Hwf | |]; cbn [snd].
  - apply wellFormed_emit. exact (wellFormed_updateById _ _ _ _ _ _ Hwf E).
  - exact (wellFormed_updateById _ _ _ _ _ _ Hwf E).
Qed.

Lemma wellFormed_markAllRead (now : Z) (io : bool) (w : World) :
  wellFormed w -> wellFormed (snd (markAllRead now io w)).
Proof.
  intros Hwf. unfold markAllRead. cbn [snd].
  apply wellFormed_emitAll. now apply wellFormed_updateMany.
Qed.

Lemma wellFormed_deleteNotification (io : bool) (id : nat) (w : World) :
  wellFormed w -> wellFormed (snd (deleteNotification io id w)).
Proof.
  intros Hwf. unfold deleteNotification. destruct (findById id w); [| exact Hwf].
  pose proof (wellFormed_deleteMany (hasId id) w Hwf) as Hdel.
  destruct (deleteMany (hasId id) w) as [deleted w1].
  cbn [snd]. now apply wellFormed_emit.
Qed.

Lemma wellFormed_clearResolved (io : bool) (w : World) :
  wellFormed w -> wellFormed (snd (clearResolved io w)).
Proof.
  intros Hwf. unfold clearResolved.
  pose proof (wellFormed_deleteMany (fun n => resolved n || read n) w Hwf) as Hdel.
  destruct (deleteMany (fun n => resolved n || read n) w) as [deleted w1].
  cbn [snd]. now apply wellFormed_emitAll.
Qed.

Lemma wellFormed_saveExisting (d old : Notification) (w w1 : World)
    (saved : Notification) :
  wellFormed w -> In old (docs w) -> _id old = _id d ->
  notificationHash d = notificationHash old ->
  Socket.saveExisting d w = inr (saved, w1) -> wellFormed w1.
Proof.
  intros Hwf Hin Hid Hh. unfold Socket.saveExisting.
  destruct (validateDocument d); [| discriminate].
  intros E. injection E as _ <-.
  apply (wellFormed_replace d old); auto.
Qed.

Lemma wellFormed_socket_upsert (now : Z) (d : NotificationData) (w : World) :
  wellFormed w -> wellFormed (snd (Socket.upsertNotification now d w)).
Proof.
  intros Hwf. unfold Socket.upsertNotification.
  destruct (findOne (Socket.similar d) w) as [existing|] eqn:Hfind; cbv zeta.
  - destruct (Socket.saveExisting _ w) as [err | [saved w1]] eqn:E; [exact Hwf |].
    cbn [snd]. apply findOne_Some in Hfind as [Hin _].
    refine (wellFormed_saveExisting _ existing w w1 saved Hwf Hin _ _ E);
      reflexivity.
  - destruct (save _ w) as [err | [saved w1]] eqn:E; [exact Hwf |].
    cbn [snd]. exact (wellFormed_save _ _ _ _ Hwf E).
Qed.

Lemma wellFormed_step (w w' : World) : wellFormed w -> step w w' -> wellFormed w'.
Proof.
  intros Hwf Hstep. destruct Hstep.
  - now apply wellFormed_upsert.
  - now apply wellFormed_getNotifications.
  - now apply wellFormed_getStats.
  - now apply wellFormed_updateFromPage.
  - now apply wellFormed_checkStock.
  - now apply wellFormed_markRead.
  - now apply wellFormed_resolveNotification.
  - now apply wellFormed_markAllRead.
  - now apply wellFormed_deleteNotification.
  - now apply wellFormed_clearResolved.
  - unfold Socket.onStockUpdated.
    match goal with
    | |- context [Socket.upsertNotification ?a ?b w] =>
        pose proof (wellFormed_socket_upsert a b w Hwf) as Hup;
        destruct (Socket.upsertNotification a b w) as [[err | [saved isNew']] w1]
    end; [exact Hup | now apply wellFormed_emit].
  - unfold Socket.onNewNotification.
    match goal with
    | |- context [Socket.upsertNotification ?a ?b w] =>
        pose proof (wellFormed_socket_upsert a b w Hwf) as Hup;
        destruct (Socket.upsertNotification a b w) as [[err | [saved isNew']] w1]
    end; [exact Hup | now apply wellFormed_emit].
  - unfold Socket.onMarkNotificationRead.
    destruct (updateById id _ false w) as [err | [u w1]] eqn:E; [exact Hwf |].
    apply wellFormed_emit. exact (wellFormed_updateById _ _ _ _ _ _ Hwf E).
  - unfold Socket.onMarkAllRead. apply wellFormed_emit.
    now apply wellFormed_updateMany.
  - unfold Socket.onDeleteNotification. apply wellFormed_emit.
    now apply wellFormed_deleteMany.
Qed.

Lemma wellFormed_empty : wellFormed emptyWorld.
Proof.
  unfold wellFormed, emptyWorld. simpl.
  split; [apply NoDup_nil |]. split; [apply Forall_nil | apply NoDup_nil].
Qed.

Lemma reachable_wellFormed (w : World) : reachable w -> wellFormed w.
Proof.
  induction 1 as [| w w' _ IH Hstep]; [apply wellFormed_empty |].
  exact (wellFormed_step w w' IH Hstep).
Qed.

(** Two documents of a well-formed collection that carry one hash are one
    document. *)
Lemma wellFormed_one_per_hash (w : World) (n1 n2 : Notification) (h : string) :
  wellFormed w -> In n1 (docs w) -> In n2 (docs w) ->
  notificationHash n1 = Some h -> notificationHash n2 = Some h -> n1 = n2.
Proof.
  intros [_ [_ Hhashes]]. induction (docs w) as [| a l IH]; [contradiction |].
  apply NoDup_hashes_cons in Hhashes as [Hd Hfresh].
  intros [-> | H1] [-> | H2] Hh1 Hh2.
  - reflexivity.
  - exfalso. apply (Hfresh h Hh1). apply hashes_In. now exists n2.
  - exfalso. apply (Hfresh h Hh2). apply hashes_In. now exists n1.
  - now apply IH.
Qed.

(** C2, as the code has it.  In every world the handlers can reach, the
    unique index holds: a hash is carried by at most one document, resolved
    or not.  So at most one unresolved document carries it, and a resolved
    document never shares its hash with another one. *)
Theorem one_document_per_hash (w : World) :
  reachable w ->
  (forall n1 n2 h,
      In n1 (docs w) -> In n2 (docs w) ->
      notificationHash n1 = Some h -> notificationHash n2 = Some h -> n1 = n2)
  /\ NoDup (hashes (docs w))
  /\ NoDup (map _id (docs w))
  /\ (forall h,
        (List.length
           (List.filter (fun n => hasHash h n && unresolved n) (docs w)) <= 1)%nat).
Proof.
  intros Hreach. pose proof (reachable_wellFormed w Hreach) as Hwf.
  split; [intros n1 n2 h; now apply wellFormed_one_per_hash |].
  destruct Hwf as [Hids [Hlt Hhashes]].
  split; [exact Hhashes |]. split; [exact Hids |].
  intros h. clear Hids Hlt Hreach. induction (docs w) as [| a l IH]; [simpl; lia |].
  apply NoDup_hashes_cons in Hhashes as [Hd Hfresh].
  specialize (IH Hd). cbn [List.filter].
  destruct (hasHash h a && unresolved a) eqn:E; [| exact IH].
  apply andb_true_iff in E as [E _]. apply hasHash_true in E.
  assert (Hnone : List.filter (fun n => hasHash h n && unresolved n) l = []).
  { destruct (List.filter _ l) as [| b l'] eqn:Hf; [reflexivity |].
    exfalso. assert (Hb : In b (List.filter (fun n => hasHash h n && unresolved n) l))
      by (rewrite Hf; now left).
    apply filter_In in Hb as [Hb Hhb]. apply andb_true_iff in Hhb as [Hhb _].
    apply hasHash_true in Hhb. apply (Hfresh h E). apply hashes_In. now exists b. }
  rewrite Hnone. simpl. lia.
Qed.

(** ** Worked examples *)

Lemma generateNotificationHash_identity_example :
  generateNotificationHash taxAlertA = generateNotificationHash taxAlertB.
Proof.
  apply (proj1 generateNotificationHash_identity); vm_compute; reflexivity.
Defined.

Lemma penAlertCreated_reachable : reachable penAlertCreated.
Proof.
  apply (reachable_step emptyWorld); [apply reachable_empty |].
  apply step_checkStock.
Qed.

Lemma penAlertResolved_reachable : reachable penAlertResolved.
Proof.
  apply (reachable_step penAlertCreated); [apply penAlertCreated_reachable |].
  apply step_resolve.
Qed.

(** The resolved pen alert is the only document of its hash, within the
    window; an upsert of the same alert at time 2000 finds it, answers
    [updated] and leaves one document, still resolved: none is created. *)
Lemma resolved_match_is_updated :
  map (fun n : Notification => (notificationHash n, isResolved n, timestamp n))
      (docs penAlertResolved)
  = [(Some (hashFor (outOfStockData pen penName 0 5)), Some true, Some 1000)]
  /\ option_map action
       (match fst (upsertNotification 2000 (outOfStockData pen penName 0 5) true
                     "stock_service" penAlertResolved) with
        | inr r => Some r
        | inl _ => None
        end) = Some "updated"
  /\ map (fun n : Notification => (_id n, isResolved n))
       (docs (snd (upsertNotification 2000 (outOfStockData pen penName 0 5) true
                     "stock_service" penAlertResolved)))
     = [(0%nat, Some true)].
Proof. vm_compute. repeat split. Qed.

Lemma lookup_ignores_resolution_example :
  (exists m, findOne (lookupFilter 2000 (hashFor (outOfStockData pen penName 0 5)))
               penAlertResolved = Some m)
  /\ map _id (docs (snd (upsertNotification 2000 (outOfStockData pen penName 0 5)
                           true "stock_service" penAlertResolved)))
     = map _id (docs penAlertResolved)
  /\ forall r,
      fst (upsertNotification 2000 (outOfStockData pen penName 0 5) true
             "stock_service" penAlertResolved) = inr r ->
      action r <> "created".
Proof.
  eapply (proj2 (lookup_ignores_resolution 2000 (outOfStockData pen penName 0 5)
                   true "stock_service" penAlertResolved)
            _ 1000).
  - vm_compute. left. reflexivity.
  - vm_compute. reflexivity.
  - vm_compute. reflexivity.
  - vm_compute. discriminate.
  - vm_compute. reflexivity.
Defined.

Lemma stock_alert_twice_updated_example :
  option_map action
    (match fst (upsertNotification 1000 (outOfStockData pen penName 0 5) true
                  "stock_service" emptyWorld) with
     | inr r => Some r
     | inl _ => None
     end) = Some "created"
  /\ option_map action
       (match fst (upsertNotification 2000 (outOfStockData pen penName 0 5) true
                     "stock_service"
                     (snd (upsertNotification 1000 (outOfStockData pen penName 0 5)
                             true "stock_service" emptyWorld))) with
        | inr r => Some r
        | inl _ => None
        end) = Some "updated"
  /\ List.length
       (emitted
          (snd (upsertNotification 2000 (outOfStockData pen penName 0 5) true
                  "stock_service"
                  (snd (upsertNotification 1000 (outOfStockData pen penName 0 5)
                          true "stock_service" emptyWorld)))))
     = (List.length (emitted emptyWorld) + 2)%nat.
Proof.
  apply (stock_alert_twice_updated 1000 2000 true pen penName 5 emptyWorld).
  - intros n [].
  - intros n [].
  - vm_compute. discriminate.
Defined.

(** The pen alert carries [timestamp] 1000.  At time 5000 the same alert
    comes with another stock count and without [preserveTimestamp]: the
    action is [updated] and the [timestamp] of the document is now 5000. *)
Lemma update_without_flag_resets_timestamp :
  map (fun n : Notification => timestamp n) (docs penAlertCreated) = [Some 1000]
  /\ preserveTimestamp penRestocked = None
  /\ option_map
       (fun r => (action r, timestamp (notification r), lastUpdated (notification r)))
       (match fst (upsertNotification 5000 penRestocked true "stock_service"
                     penAlertCreated) with
        | inr r => Some r
        | inl _ => None
        end)
     = Some ("updated", Some 5000, Some 5000)
  /\ map (fun n : Notification => timestamp n)
       (docs (snd (upsertNotification 5000 penRestocked true "stock_service"
                     penAlertCreated)))
     = [Some 5000].
Proof. vm_compute. repeat split. Qed.

Lemma update_resets_timestamp_example :
  exists existing updatedNotification w1,
    upsertNotification 5000 (set_preserveTimestamp (Some true) penRestocked) true
      "stock_page" penAlertCreated
    = (inr (mkUpsertResult updatedNotification false true "updated"),
       emit true
         (notification_updated updatedNotification (_id existing) "stock_page"
            (Some (hashFor (set_preserveTimestamp (Some true) penRestocked)))) w1)
    /\ _id updatedNotification = _id existing
    /\ lastUpdated updatedNotification = Some 5000
    /\ timestamp updatedNotification
       = (if truthy (preserveTimestamp (set_preserveTimestamp (Some true) penRestocked))
          then timestamp existing else Some 5000)
    /\ findById (_id existing) w1 = Some updatedNotification.
Proof.
  do 3 eexists.
  eapply (update_resets_timestamp 5000 (set_preserveTimestamp (Some true) penRestocked)
            true "stock_page" penAlertCreated).
  - vm_compute. reflexivity.
  - vm_compute. reflexivity.
  - vm_compute. reflexivity.
Defined.




Lemma resolve_keeps_document_example :
  exists u w',
    resolveNotification 1500 true 0 None penAlertCreated = (json u, w')
    /\ _id u = 0%nat
    /\ isResolved u = Some true
    /\ notificationHash u
       = notificationHash (hd (mkNotification 0 emptyObject) (docs penAlertCreated))
    /\ findById 0 w' = Some u
    /\ map _id (docs w') = map _id (docs penAlertCreated)
    /\ (forall m, In m (activeFeedQuery w') ->
                  isResolved m = Some false /\ _id m <> 0%nat).
Proof.
  apply (resolve_keeps_document 1500 true 0 None penAlertCreated
           (hd (mkNotification 0 emptyObject) (docs penAlertCreated))).
  vm_compute. reflexivity.
Defined.

(** No world the handlers reach holds a resolved document beside another
    document of its hash; and the store refuses a second document with the
    hash of the resolved pen alert. *)
Lemma resolved_never_shares_hash :
  (~ exists w n1 n2 h,
        reachable w /\ In n1 (docs w) /\ In n2 (docs w) /\ n1 <> n2
        /\ isResolved n1 = Some true
        /\ notificationHash n1 = Some h /\ notificationHash n2 = Some h)
  /\ save (inserted 2000 (outOfStockData pen penName 0 5) penAlertResolved)
          penAlertResolved
     = inl (MongoServerError 11000 (hashFor (outOfStockData pen penName 0 5))).
Proof.
  split.
  - intros [w [n1 [n2 [h [Hreach [H1 [H2 [Hne [_ [Hh1 Hh2]]]]]]]]]].
    apply Hne.
    exact (wellFormed_one_per_hash w n1 n2 h (reachable_wellFormed w Hreach)
             H1 H2 Hh1 Hh2).
  - vm_compute. reflexivity.
Qed.

Lemma one_document_per_hash_example :
  (forall n1 n2 h,
      In n1 (docs penAlertResolved) -> In n2 (docs penAlertResolved) ->
      notificationHash n1 = Some h -> notificationHash n2 = Some h -> n1 = n2)
  /\ NoDup (hashes (docs penAlertResolved))
  /\ NoDup (map _id (docs penAlertResolved))
  /\ (forall h,
        (List.length
           (List.filter (fun n => hasHash h n && unresolved n)
              (docs penAlertResolved)) <= 1)%nat).
Proof.
  apply (one_document_per_hash penAlertResolved).
  apply (reachable_step penAlertCreated).
  - apply (reachable_step emptyWorld); [apply reachable_empty |].
    apply step_checkStock.
  - apply step_resolve.
Defined.


(** In that read the payment alert of the pending order is created and
    answered, although the tax query failed. *)
Lemma feed_with_failing_tax_query :
  match fst (getNotifications (3 * day) true taxQueryDown emptyWorld) with
  | json feed => map (fun n : Notification => (type n, orderId n, priority n)) feed
  | fail _ _ => []
  end = [(Some "Payment Alert", Some "ORD-7", Some "high")].
Proof. vm_compute. reflexivity. Qed.

(** * Further properties of the router *)

(** ** The upsert engine *)


Lemma indexConflict_hashFree (h : string) (w : World) :
  indexConflict None (Some h) w = false -> hashFree h w.
Proof.
  unfold indexConflict. intros E n Hin Hh.
  change (existsb (fun m => hasHash h m && true) (docs w) = false) in E.
  assert (Ht : existsb (fun m => hasHash h m && true) (docs w) = true).
  { apply existsb_exists. exists n. split; [exact Hin |].
    rewrite andb_true_r. now apply hasHash_true. }
  rewrite Ht in E. discriminate.
Qed.

Lemma save_hashFree (n : NotificationData) (w w1 : World) (saved : Notification)
    (h : string) :
  save n w = inr (saved, w1) -> notificationHash n = Some h -> hashFree h w.
Proof.
  unfold save. intros E Hh. apply indexConflict_hashFree. rewrite <- Hh.
  destruct (validateDocument n); [| discriminate].
  now destruct (indexConflict None (notificationHash n) w).
Qed.

(** X2.  The document an upsert creates is unresolved and stamped with the
    current time whatever the payload says of [isResolved], [timestamp] and
    [lastUpdated]; it carries the hash of the call and the next [_id], and it
    is appended to the collection, which is otherwise as before. *)
Theorem created_document (now : Z) (d : NotificationData) (io : bool)
    (source : string) (w w1 : World) (r : UpsertResult) :
  upsertNotification now d io source w = (inr r, w1) ->
  action r = "created" ->
  isNew r = true /\ updated r = false
  /\ _id (notification r) = nextId w
  /\ isResolved (notification r) = Some false
  /\ timestamp (notification r) = Some now
  /\ lastUpdated (notification r) = Some now
  /\ notificationHash (notification r) = Some (hashFor d)
  /\ docs w1 = docs w ++ [notification r]
  /\ nextId w1 = S (nextId w)
  /\ hashFree (hashFor d) w.
Proof.
  intros Hup Hact. unfold upsertNotification in Hup. fold (hashFor d) in Hup.
  destruct (findOne _ w) as [existing|] eqn:Hfind.
  - exfalso. destruct (hasChanges existing d).
    + destruct (updateById _ _ true w) as [err | [[u|] w2]].
      * assert (Hr : fst (recover err w) = inr r) by now rewrite Hup.
        apply recover_action in Hr. congruence.
      * injection Hup as <- _. discriminate.
      * discriminate.
    + injection Hup as <- _. discriminate.
  - destruct (save _ w) as [err | [saved w2]] eqn:E.
    + exfalso. assert (Hr : fst (recover err w) = inr r) by now rewrite Hup.
      apply recover_action in Hr. congruence.
    + injection Hup as <- <-. cbn [notification isNew updated].
      assert (Hfree : hashFree (hashFor d) w).
      { exact (save_hashFree _ _ _ _ (hashFor d) E eq_refl). }
      destruct (save_result _ _ _ _ E) as [-> ->]. rewrite emit_docs, emit_nextId.
      split; [reflexivity |]. split; [reflexivity |]. split; [reflexivity |].
      split; [reflexivity |]. split; [reflexivity |]. split; [reflexivity |].
      split; [reflexivity |]. split; [reflexivity |]. split; [reflexivity |].
      exact Hfree.
Qed.

Lemma created_document_example :
  exists r w1,
    upsertNotification 2000 (set_isResolved (Some true) pendingTaxAlert) true
      "gst_page" emptyWorld = (inr r, w1)
    /\ isNew r = true /\ updated r = false
    /\ _id (notification r) = nextId emptyWorld
    /\ isResolved (notification r) = Some false
    /\ timestamp (notification r) = Some 2000
    /\ lastUpdated (notification r) = Some 2000
    /\ notificationHash (notification r)
       = Some (hashFor (set_isResolved (Some true) pendingTaxAlert))
    /\ docs w1 = docs emptyWorld ++ [notification r]
    /\ nextId w1 = S (nextId emptyWorld)
    /\ hashFree (hashFor (set_isResolved (Some true) pendingTaxAlert)) emptyWorld.
Proof.
  do 2 eexists. split; [vm_compute; reflexivity |].
  eapply (created_document 2000 (set_isResolved (Some true) pendingTaxAlert) true
            "gst_page" emptyWorld).
  - vm_compute. reflexivity.
  - vm_compute. reflexivity.
Defined.

(** X3.  An upsert publishes one event when it creates or updates and the
    channel is there, and none otherwise: nothing for [unchanged], nothing
    for [recovered], nothing when it throws. *)
Theorem upsert_events (now : Z) (d : NotificationData) (io : bool)
    (source : string) (w : World) :
  emitted (snd (upsertNotification now d io source w))
  = emitted w
    ++ match fst (upsertNotification now d io source w) with
       | inr r => if io then eventOf d source r else []
       | inl _ => []
       end.
Proof.
  assert (Hrec : forall err,
             emitted (snd (recover err w))
             = emitted w ++ match fst (recover err w) with
                            | inr r => if io then eventOf d source r else []
                            | inl _ => []
                            end).
  { intros err. rewrite recover_world.
    destruct (fst (recover err w)) as [e | r] eqn:Hr; [now rewrite app_nil_r |].
    unfold eventOf. rewrite (recover_action _ _ _ Hr). simpl.
    destruct io; now rewrite app_nil_r. }
  unfold upsertNotification. fold (hashFor d).
  destruct (findOne _ w) as [existing|].
  - destruct (hasChanges existing d).
    + destruct (updateById _ _ true w) as [err | [[u|] w1]] eqn:E.
      * apply Hrec.
      * destruct (updateById_result _ _ _ _ _ _ E) as [old [_ [Hu Hw]]].
        cbn [fst snd]. unfold eventOf. cbn [action notification].
        replace (_id u) with (_id existing) by (now rewrite Hu).
        rewrite Hw. unfold emit, with_docs.
        destruct io; cbn [emitted]; [reflexivity | now rewrite app_nil_r].
      * unfold updateById in E. destruct (validateUpdate _); [| discriminate].
        destruct (findById _ w); [| injection E as <-; cbn; now rewrite app_nil_r].
        cbv zeta in E.
        match type of E with context [if ?c then _ else _] => destruct c end;
          discriminate.
    + cbn. destruct io; now rewrite app_nil_r.
  - destruct (save _ w) as [err | [saved w1]] eqn:E.
    + apply Hrec.
    + destruct (save_result _ _ _ _ E) as [_ ->].
      cbn [fst snd]. unfold eventOf, emit. cbn [action notification].
      destruct io; cbn [emitted]; [reflexivity | now rewrite app_nil_r].
Qed.

Lemma replace_keeps (d m : Notification) (ds : list Notification) :
  In m ds -> _id m <> _id d -> In m (replace d ds).
Proof.
  intros Hin Hne. unfold replace. apply in_map_iff. exists m.
  split; [| exact Hin]. unfold hasId.
  destruct (Nat.eqb_spec (_id m) (_id d)); [contradiction | reflexivity].
Qed.

(** X4.  An upsert leaves every stored document as it is, except the one it
    answers as [updated]. *)
Theorem upsert_touches_one_document (now : Z) (d : NotificationData) (io : bool)
    (source : string) (w : World) (m : Notification) :
  In m (docs w) ->
  In m (docs (snd (upsertNotification now d io source w)))
  \/ exists r, fst (upsertNotification now d io source w) = inr r
               /\ action r = "updated" /\ _id (notification r) = _id m.
Proof.
  intros Hin. unfold upsertNotification. fold (hashFor d).
  destruct (findOne _ w) as [existing|].
  - destruct (hasChanges existing d); [| now left].
    destruct (updateById _ _ true w) as [err | [[u|] w1]] eqn:E.
    + left. now rewrite recover_world.
    + destruct (updateById_result _ _ _ _ _ _ E) as [old [_ [Hu Hw]]].
      cbn [fst snd]. rewrite emit_docs.
      destruct (Nat.eq_dec (_id m) (_id u)) as [Heq | Hne].
      * right. eexists. split; [reflexivity |]. split; [reflexivity |].
        now symmetry.
      * left. rewrite Hw. cbn [docs with_docs]. now apply replace_keeps.
    + left. unfold updateById in E. destruct (validateUpdate _); [| discriminate].
      destruct (findById _ w).
      * cbv zeta in E.
        match type of E with context [if ?c then _ else _] => destruct c end;
          discriminate.
      * injection E as <-. exact Hin.
  - left. destruct (save _ w) as [err | [saved w1]] eqn:E.
    + now rewrite recover_world.
    + destruct (save_result _ _ _ _ E) as [_ ->]. cbn [snd].
      rewrite emit_docs. cbn [docs]. apply in_or_app. now left.
Qed.

Lemma upsert_touches_one_document_example :
  In (hd (mkNotification 0 emptyObject) (docs penAlertCreated))
     (docs (snd (upsertNotification 5000 pendingTaxAlert true "gst_service"
                   penAlertCreated)))
  \/ exists r,
      fst (upsertNotification 5000 pendingTaxAlert true "gst_service"
             penAlertCreated) = inr r
      /\ action r = "updated"
      /\ _id (notification r)
         = _id (hd (mkNotification 0 emptyObject) (docs penAlertCreated)).
Proof.
  apply (upsert_touches_one_document 5000 pendingTaxAlert true "gst_service"
           penAlertCreated).
  vm_compute. now left.
Defined.

Lemma hasChanges_isResolved (n : Notification) (d : NotificationData) :
  isResolved n = Some true -> isResolved d = Some false -> hasChanges n d = true.
Proof.
  intros Hn Hd. unfold hasChanges. rewrite Hn, Hd. simpl.
  repeat (rewrite orb_true_r || rewrite orb_true_l). reflexivity.
Qed.

Lemma hasChanges_read (n : Notification) (d : NotificationData) :
  isRead n = Some true -> isRead d = Some false -> hasChanges n d = true.
Proof.
  intros Hn Hd. unfold hasChanges. rewrite Hn, Hd. simpl.
  repeat (rewrite orb_true_r || rewrite orb_true_l). reflexivity.
Qed.

(** X5.  A payload that states [isRead: false] and [isResolved: false], as the
    generators' payloads do, undoes what a user did to the stored alert: if
    the alert had been marked read or resolved, the upsert counts that as a
    change, answers [updated] and stores the alert unread and unresolved
    again. *)
Theorem generator_upsert_reopens (now : Z) (d : NotificationData) (io : bool)
    (source : string) (w w1 : World) (existing u : Notification) :
  findOne (lookupFilter now (hashFor d)) w = Some existing ->
  isRead existing = Some true \/ isResolved existing = Some true ->
  isRead d = Some false -> isResolved d = Some false ->
  updateById (_id existing) (updateObject now existing d) true w
  = inr (Some u, w1) ->
  fst (upsertNotification now d io source w)
  = inr (mkUpsertResult u false true "updated")
  /\ _id u = _id existing
  /\ isRead u = Some false
  /\ isResolved u = Some false
  /\ findById (_id existing) (snd (upsertNotification now d io source w)) = Some u.
Proof.
  intros Hfind Hstate Hread Hres Hupd.
  assert (Hch : hasChanges existing d = true).
  { destruct Hstate as [H | H];
      [now apply hasChanges_read | now apply hasChanges_isResolved]. }
  assert (Hup : upsertNotification now d io source w
                = (inr (mkUpsertResult u false true "updated"),
                   emit io (notification_updated u (_id existing) source
                              (Some (hashFor d))) w1)).
  { unfold upsertNotification. fold (hashFor d). now rewrite Hfind, Hch, Hupd. }
  rewrite Hup. cbn [fst snd].
  destruct (updateById_result _ _ _ _ _ _ Hupd) as [old [Hold [Hu Hw]]].
  split; [reflexivity |]. split; [now rewrite Hu |].
  split; [rewrite Hu; cbn; now rewrite Hread |].
  split; [rewrite Hu; cbn; now rewrite Hres |].
  unfold findById, findOne. rewrite emit_docs, Hw. cbn [docs with_docs].
  apply findOne_Some in Hold as [Hin Hid].
  assert (Hidu : _id u = _id existing) by now rewrite Hu.
  rewrite <- Hidu. apply (find_replace u (docs w) old Hin). now rewrite Hidu.
Qed.

Lemma generator_upsert_reopens_example :
  exists existing u w1,
    map (fun n : Notification => (isRead n, isResolved n)) (docs taxAlertResolved)
    = [(Some true, Some true)]
    /\ updateById (_id existing)
         (updateObject (3 * day + 2000) existing pendingTaxAlert) true
         taxAlertResolved = inr (Some u, w1)
    /\ fst (upsertNotification (3 * day + 2000) pendingTaxAlert true "gst_service"
              taxAlertResolved)
       = inr (mkUpsertResult u false true "updated")
    /\ _id u = _id existing
    /\ isRead u = Some false
    /\ isResolved u = Some false
    /\ findById (_id existing)
         (snd (upsertNotification (3 * day + 2000) pendingTaxAlert true
                 "gst_service" taxAlertResolved)) = Some u.
Proof.
  exists (hd (mkNotification 0 emptyObject) (docs taxAlertResolved)).
  do 2 eexists. split; [vm_compute; reflexivity |].
  split; [vm_compute; reflexivity |].
  eapply (generator_upsert_reopens (3 * day + 2000) pendingTaxAlert true
            "gst_service" taxAlertResolved).
  - vm_compute. reflexivity.
  - left. vm_compute. reflexivity.
  - vm_compute. reflexivity.
  - vm_compute. reflexivity.
  - vm_compute. reflexivity.
Defined.

Lemma wellFormed_one_per_id (w : World) (a b : Notification) :
  wellFormed w -> In a (docs w) -> In b (docs w) -> _id a = _id b -> a = b.
Proof.
  intros [Hids _]. induction (docs w) as [| x l IH]; [contradiction |].
  cbn [map] in Hids. apply NoDup_cons_iff in Hids as [Hnotin Hids].
  intros [-> | Ha] [-> | Hb] Heq.
  - reflexivity.
  - exfalso. apply Hnotin. rewrite Heq. apply in_map_iff. now exists b.
  - exfalso. apply Hnotin. rewrite <- Heq. apply in_map_iff. now exists a.
  - now apply IH.
Qed.



(** X7.  An update keeps the hash of the document: in a reachable world, the
    document answered as [updated] carries the hash of the call, as the
    stored one did, unless the payload brings the empty string as its
    hash. *)
Theorem update_keeps_hash (now : Z) (d : NotificationData) (io : bool)
    (source : string) (w w1 : World) (r : UpsertResult) :
  reachable w ->
  upsertNotification now d io source w = (inr r, w1) ->
  action r = "updated" ->
  notificationHash d <> Some "" ->
  notificationHash (notification r) = Some (hashFor d)
  /\ exists existing,
      In existing (docs w)
      /\ _id existing = _id (notification r)
      /\ notificationHash existing = Some (hashFor d).
Proof.
  intros Hreach Hup Hact Hne.
  pose proof (reachable_wellFormed w Hreach) as Hwf.
  destruct (upsert_result _ _ _ _ _ _ _ Hup)
    as [[Ha _] | [[_ [existing [old [Hfind [Hold Hn]]]]] | [[Ha _] | [Ha _]]]];
    try (rewrite Ha in Hact; discriminate).
  apply findOne_Some in Hfind as [Hin Hf].
  apply lookupFilter_true in Hf as [Hh _].
  apply findOne_Some in Hold as [Hin' Hid]. apply Nat.eqb_eq in Hid.
  assert (old = existing) as ->
    by exact (wellFormed_one_per_id w old existing Hwf Hin' Hin Hid).
  split.
  - rewrite Hn. cbn [notification paths assign notificationHash _id].
    change (notificationHash (updateObject now existing d))
      with (notificationHash d).
    rewrite Hh. clear - Hne. unfold hashFor, orElse, orS.
    destruct (notificationHash d) as [x|]; [| reflexivity].
    destruct (String.eqb_spec x ""); [subst; contradiction | reflexivity].
  - exists existing. rewrite Hn. split; [exact Hin |]. split; [reflexivity | exact Hh].
Qed.

Lemma update_keeps_hash_example :
  exists r w1,
    upsertNotification 5000 penRestocked true "stock_service" penAlertCreated
    = (inr r, w1)
    /\ notificationHash (notification r) = Some (hashFor penRestocked)
    /\ exists existing,
        In existing (docs penAlertCreated)
        /\ _id existing = _id (notification r)
        /\ notificationHash existing = Some (hashFor penRestocked).
Proof.
  do 2 eexists. split; [vm_compute; reflexivity |].
  eapply (update_keeps_hash 5000 penRestocked true "stock_service" penAlertCreated).
  - apply penAlertCreated_reachable.
  - vm_compute. reflexivity.
  - vm_compute. reflexivity.
  - discriminate.
Defined.






(** ** Marking read, deleting, submitting from a page *)

Lemma unread_true (n : Notification) : unread n = true <-> isRead n = Some false.
Proof.
  unfold unread, neqB, strictNeq.
  destruct (isRead n) as [[|]|]; simpl; split; congruence.
Qed.

(** X9.  [PUT /mark-all-read] marks every unresolved unread document read and
    stamps it; it answers how many there were, publishes one event for each,
    and leaves every other document, the resolved ones among them, as it
    was. *)
Theorem markAllRead_marks_unresolved (now : Z) (io : bool) (w : World) :
  fst (markAllRead now io w)
  = json (List.length (List.filter (fun n => unresolved n && unread n) (docs w)))
  /\ map _id (docs (snd (markAllRead now io w))) = map _id (docs w)
  /\ (forall n, In n (docs (snd (markAllRead now io w))) ->
                isResolved n = Some false -> isRead n <> Some false)
  /\ (forall n, In n (docs w) -> unresolved n && unread n = false ->
                In n (docs (snd (markAllRead now io w))))
  /\ (forall n, In n (docs w) -> unresolved n && unread n = true ->
                exists u, In u (docs (snd (markAllRead now io w)))
                          /\ _id u = _id n /\ isRead u = Some true
                          /\ lastUpdated u = Some now
                          /\ isResolved u = isResolved n
                          /\ notificationHash u = notificationHash n
                          /\ timestamp u = timestamp n)
  /\ List.length (emitted (snd (markAllRead now io w)))
     = (List.length (emitted w)
        + (if io
           then List.length
                  (List.filter (fun n => unresolved n && unread n) (docs w))
           else 0))%nat.
Proof.
  unfold markAllRead. cbn [fst snd].
  rewrite emitAll_docs, emitAll_emitted. unfold updateMany, find.
  cbn [docs with_docs emitted].
  split; [reflexivity |]. split.
  { rewrite map_map. apply map_ext. intros n.
    now destruct (unresolved n && unread n). }
  split.
  { intros n' Hin Hres Hread. apply in_map_iff in Hin as [n [Hn' Hin]].
    destruct (unresolved n && unread n) eqn:E.
    - subst n'. cbn in Hread. discriminate.
    - subst n'. apply andb_false_iff in E as [E | E].
      + apply unresolved_true in Hres. congruence.
      + apply unread_true in Hread. congruence. }
  split.
  { intros n Hin E. apply in_map_iff. exists n. now rewrite E. }
  split.
  { intros n Hin E. exists (mkNotification (_id n) (assign (readUpdate now) n)).
    split; [apply in_map_iff; exists n; now rewrite E |].
    repeat split. }
  rewrite length_app. destruct io; [now rewrite length_map | reflexivity].
Qed.

(** X10.  [PUT /:id/read]: an unknown id is answered 404 and nothing changes; a
    known one is answered by the document, now read and stamped, with its
    resolution, hash and timestamp as they were, and one event is
    published. *)
Theorem markRead_marks_one (now : Z) (io : bool) (id : nat) (w : World) :
  (findById id w = None ->
   markRead now io id w = (fail 404 "Notification not found", w))
  /\ (forall n, findById id w = Some n ->
        exists u,
          fst (markRead now io id w) = json u
          /\ _id u = id
          /\ isRead u = Some true
          /\ lastUpdated u = Some now
          /\ isResolved u = isResolved n
          /\ notificationHash u = notificationHash n
          /\ timestamp u = timestamp n
          /\ findById id (snd (markRead now io id w)) = Some u
          /\ map _id (docs (snd (markRead now io id w))) = map _id (docs w)
          /\ emitted (snd (markRead now io id w))
             = emitted w
               ++ (if io then [notification_updated u (_id n) "notification_page"
                                 (notificationHash n)]
                   else [])).
Proof.
  split.
  - intros Hnone. unfold markRead. now rewrite Hnone.
  - intros n Hfind. unfold markRead. rewrite Hfind.
    unfold updateById. rewrite Hfind. cbv zeta.
    set (u := mkNotification id (assign (readUpdate now) n)).
    assert (Hhash : notificationHash u = notificationHash n) by reflexivity.
    rewrite Hhash, neqS_refl. cbn [andb fst snd].
    exists u. apply findOne_Some in Hfind as [Hin Hid].
    split; [reflexivity |]. split; [reflexivity |]. split; [reflexivity |].
    split; [reflexivity |]. split; [reflexivity |]. split; [exact Hhash |].
    split; [reflexivity |].
    unfold findById, findOne. rewrite emit_docs. cbn [docs with_docs].
    split; [exact (find_replace u (docs w) n Hin Hid) |].
    split; [apply replace_ids |].
    unfold emit, with_docs. destruct io; cbn [emitted];
      [reflexivity | now rewrite app_nil_r].
Qed.

(** X11.  [DELETE /:id]: an unknown id is answered 404 and nothing changes; a
    known one is removed, no document of that id is left, every other
    document stays, and one event is published. *)
Theorem deleteNotification_removes_one (io : bool) (id : nat) (w : World) :
  (findById id w = None ->
   deleteNotification io id w = (fail 404 "Notification not found", w))
  /\ (forall n, findById id w = Some n ->
        fst (deleteNotification io id w) = json tt
        /\ (forall m, In m (docs (snd (deleteNotification io id w)))
                      <-> In m (docs w) /\ _id m <> id)
        /\ findById id (snd (deleteNotification io id w)) = None
        /\ emitted (snd (deleteNotification io id w))
           = emitted w
             ++ (if io then [notification_deleted (_id n) (notificationHash n)
                               "notification_page"]
                 else [])).
Proof.
  split.
  - intros Hnone. unfold deleteNotification. now rewrite Hnone.
  - intros n Hfind. unfold deleteNotification. rewrite Hfind.
    unfold deleteMany. cbn [fst snd].
    assert (Hdocs : forall m,
               In m (docs (emit io (notification_deleted (_id n) (notificationHash n)
                                      "notification_page")
                             (with_docs
                                (List.filter (fun n0 => negb (hasId id n0)) (docs w))
                                w)))
               <-> In m (docs w) /\ _id m <> id).
    { intros m. rewrite emit_docs. cbn [docs with_docs].
      rewrite filter_In, negb_true_iff. unfold hasId.
      now rewrite Nat.eqb_neq. }
    split; [reflexivity |]. split; [exact Hdocs |]. split.
    + unfold findById.
      destruct (findOne (hasId id) _) as [m|] eqn:E; [| reflexivity].
      apply findOne_Some in E as [Hm Hid]. apply Hdocs in Hm as [_ Hne].
      apply Nat.eqb_eq in Hid. contradiction.
    + unfold emit, with_docs. destruct io; cbn [emitted];
        [reflexivity | now rewrite app_nil_r].
Qed.

(** X12.  [POST /update-from-page]: a request without [notificationData] is
    answered 500 (the handler reads its title before it checks it), one
    without a type 400, and neither writes nor publishes; any other request
    is the upsert of the payload under the flag of the request, whatever
    [preserveTimestamp] the payload itself carries, and the flag is false
    when the request leaves it out. *)
Theorem updateFromPage_checks_type (now : Z) (io : bool) (source : option string)
    (preserve : option bool) (w : World) :
  updateFromPage now io None source preserve w
  = (fail 500 "Error updating notification", w)
  /\ (forall data,
        orS (type data) "" = "" ->
        updateFromPage now io (Some data) source preserve w
        = (fail 400 "Notification data is required", w))
  /\ (forall data,
        orS (type data) "" <> "" ->
        snd (updateFromPage now io (Some data) source preserve w)
        = snd (upsertNotification now
                 (set_preserveTimestamp (orElse preserve (Some false)) data) io
                 (match source with Some s => s | None => "unknown_page" end) w)
        /\ (forall r,
              fst (updateFromPage now io (Some data) source preserve w) = json r
              <-> fst (upsertNotification now
                         (set_preserveTimestamp (orElse preserve (Some false)) data)
                         io (match source with Some s => s | None => "unknown_page" end)
                         w) = inr r))
  /\ (forall data flag,
        updateFromPage now io (Some (set_preserveTimestamp flag data)) source
          preserve w
        = updateFromPage now io (Some data) source preserve w).
Proof.
  split; [reflexivity |]. split.
  { intros data Hty. unfold updateFromPage. now rewrite Hty. }
  split.
  { intros data Hty. unfold updateFromPage.
    destruct (String.eqb_spec (orS (type data) "") ""); [contradiction |].
    destruct (upsertNotification now _ io _ w) as [[err | r'] w1]; cbn [fst snd].
    - split; [reflexivity |]. intros r. split; discriminate.
    - split; [reflexivity |]. intros r. split; intros H; now injection H as <-. }
  intros data flag. reflexivity.
Qed.

(** ** Stock checks at the edges *)

Lemma string_length_append (a b : string) :
  String.length (a ++ b) = (String.length a + String.length b)%nat.
Proof. induction a as [| c a IH]; simpl; [reflexivity | now rewrite IH]. Qed.

Lemma concat_empty_separator_length (pieces : list string) (s : string) :
  In s pieces -> (String.length s <= String.length (String.concat "" pieces))%nat.
Proof.
  induction pieces as [| a l IH]; [contradiction |].
  intros Hin. destruct l as [| b l'].
  - destruct Hin as [-> | []]. simpl. lia.
  - change (String.concat "" (a :: b :: l'))
      with (a ++ "" ++ String.concat "" (b :: l'))%string.
    rewrite !string_length_append. destruct Hin as [-> | Hin]; [lia |].
    specialize (IH Hin). simpl String.length at 2. lia.
Qed.

Lemma template_required (pieces : list string) (s : string) :
  In s pieces -> s <> "" -> required (Some (template pieces)) = true.
Proof.
  intros Hin Hs. unfold required, template. apply negb_true_iff, String.eqb_neq.
  intros Hempty. pose proof (concat_empty_separator_length pieces s Hin) as Hlen.
  rewrite Hempty in Hlen. destruct s; [contradiction | simpl in Hlen; lia].
Qed.

Lemma lowStock_message (product name : option string) (stock minimum : Z) :
  required (message (lowStockData product name stock minimum)) = true.
Proof.
  unfold lowStockData. cbn [message].
  apply (template_required _ " stock is "); [| discriminate].
  right. now left.
Qed.

Lemma lowStock_valid (now : Z) (product name : option string) (stock minimum : Z)
    (w : World) :
  validateDocument (applyDefaults now
                      (insertObject now (hashFor (lowStockData product name stock minimum))
                         (lowStockData product name stock minimum))) = []
  /\ validateUpdate (lowStockData product name stock minimum) = [].
Proof.
  split.
  - apply validateDocument_ok; try reflexivity.
    + cbn [title applyDefaults assign insertObject set_isResolved set_lastUpdated
             set_timestamp set_notificationHash lowStockData].
      now destruct (stock <=? 2).
    + change (message (applyDefaults now
                         (insertObject now
                            (hashFor (lowStockData product name stock minimum))
                            (lowStockData product name stock minimum))))
        with (orElse (message (lowStockData product name stock minimum)) None).
      rewrite orElse_None. apply lowStock_message.
    + cbn [priority applyDefaults assign insertObject set_isResolved set_lastUpdated
             set_timestamp set_notificationHash lowStockData orElse].
      destruct (stock <=? 2); [reflexivity |]. now destruct (stock <=? 5).
    + cbn [color applyDefaults assign insertObject set_isResolved set_lastUpdated
             set_timestamp set_notificationHash lowStockData orElse].
      now destruct (stock <=? 2).
  - apply validateUpdate_ok; try reflexivity.
    + cbn [title lowStockData]. now destruct (stock <=? 2).
    + apply lowStock_message.
    + cbn [priority lowStockData]. destruct (stock <=? 2); [reflexivity |].
      now destruct (stock <=? 5).
    + cbn [color lowStockData]. now destruct (stock <=? 2).
Qed.

(** X13.  A stock check within the minimum, [0 < currentStock <= minStock],
    both integer numbers, for a [productId] that is an ObjectId or absent,
    is always answered: it upserts a [Low Stock] alert whose priority is
    [high] up to 2 units, [medium] up to 5 and [low] above, red up to 2
    units and orange above.  (A [productId] the schema refuses is answered
    500 instead.) *)
Theorem checkStock_low_stock (now : Z) (io : bool) (product name : option string)
    (stock minimum : Z) (w : World) :
  objectIdOrAbsent product ->
  0 < stock -> stock <= minimum ->
  exists r,
    upsertNotification now (lowStockData product name stock minimum) io
      "stock_service" w
    = (inr r, snd (checkStock now io product name (Some stock) (Some minimum) w))
    /\ fst (checkStock now io product name (Some stock) (Some minimum) w)
       = json (alertBody r)
    /\ type (lowStockData product name stock minimum) = Some "Low Stock"
    /\ (stock <= 2 ->
        priority (lowStockData product name stock minimum) = Some "high"
        /\ color (lowStockData product name stock minimum) = Some "red")
    /\ (2 < stock <= 5 ->
        priority (lowStockData product name stock minimum) = Some "medium"
        /\ color (lowStockData product name stock minimum) = Some "orange")
    /\ (5 < stock ->
        priority (lowStockData product name stock minimum) = Some "low"
        /\ color (lowStockData product name stock minimum) = Some "orange").
Proof.
  intros _ Hpos Hmin.
  destruct (lowStock_valid now product name stock minimum w) as [Hdoc Hupd].
  destruct (upsert_valid_returns now (lowStockData product name stock minimum) io
              "stock_service" w Hdoc Hupd) as [r Hr].
  exists r. unfold checkStock.
  destruct (Z.eqb_spec stock 0) as [E | _]; [lia |].
  assert (Hcase : (0 <? stock) && (stock <=? minimum) = true).
  { apply andb_true_iff. split; [now apply Z.ltb_lt | now apply Z.leb_le]. }
  rewrite Hcase.
  destruct (upsertNotification now _ io "stock_service" w) as [res w1].
  cbn [fst] in Hr. subst res. cbn [fst snd].
  split; [reflexivity |]. split; [reflexivity |]. split; [reflexivity |].
  cbn [priority color lowStockData].
  split; [| split].
  - intros H. apply Z.leb_le in H. now rewrite H.
  - intros [H1 H2]. apply Z.leb_gt in H1. apply Z.leb_le in H2. now rewrite H1, H2.
  - intros H. assert (H2 : 2 < stock) by lia.
    apply Z.leb_gt in H. apply Z.leb_gt in H2. now rewrite H2, H.
Qed.

Lemma checkStock_low_stock_example :
  objectIdOrAbsent pen
  /\ exists r,
    upsertNotification 1000 (lowStockData pen penName 4 5) true "stock_service"
      emptyWorld
    = (inr r, snd (checkStock 1000 true pen penName (Some 4) (Some 5) emptyWorld))
    /\ fst (checkStock 1000 true pen penName (Some 4) (Some 5) emptyWorld)
       = json (alertBody r)
    /\ type (lowStockData pen penName 4 5) = Some "Low Stock"
    /\ (4 <= 2 ->
        priority (lowStockData pen penName 4 5) = Some "high"
        /\ color (lowStockData pen penName 4 5) = Some "red")
    /\ (2 < 4 <= 5 ->
        priority (lowStockData pen penName 4 5) = Some "medium"
        /\ color (lowStockData pen penName 4 5) = Some "orange")
    /\ (5 < 4 ->
        priority (lowStockData pen penName 4 5) = Some "low"
        /\ color (lowStockData pen penName 4 5) = Some "orange").
Proof.
  assert (Hid : objectIdOrAbsent pen) by (vm_compute; reflexivity).
  split; [exact Hid |].
  apply (checkStock_low_stock 1000 true pen penName 4 5 emptyWorld Hid); lia.
Defined.

(** X14.  A stock check without [currentStock] or [minStock] is answered 400 and
    changes nothing.  With both present as integer numbers and a
    [productId] that is an ObjectId or absent, a negative [currentStock] is
    neither out of stock nor low: the check upserts nothing, treats the
    stock as sufficient and deletes the stock alerts of the product if one
    of them is unresolved.  (With a [productId] that is no ObjectId the
    query of that branch throws and the answer is 500.) *)
Theorem checkStock_missing_or_negative (now : Z) (io : bool)
    (product name : option string) (w : World) :
  objectIdOrAbsent product ->
  (forall stock minimum,
      stock = None \/ minimum = None ->
      checkStock now io product name stock minimum w
      = (fail 400 "currentStock and minStock are required", w))
  /\ (forall stock minimum,
        stock < 0 ->
        (exists n, In n (docs w) /\ stockAlertOf product n = true
                   /\ unresolved n = true) ->
        fst (checkStock now io product name (Some stock) (Some minimum) w)
        = json (mkStockBody "alerts_deleted" None
                  (List.length (List.filter (stockAlertOf product) (docs w))))
        /\ docs (snd (checkStock now io product name (Some stock) (Some minimum) w))
           = List.filter (fun n => negb (stockAlertOf product n)) (docs w))
  /\ (forall stock minimum,
        stock < 0 ->
        (forall n, In n (docs w) -> stockAlertOf product n = true ->
                   unresolved n = false) ->
        checkStock now io product name (Some stock) (Some minimum) w
        = (json (mkStockBody "no_alert_needed" None 0), w)).
Proof.
  intros _.
  assert (Hneg : forall stock minimum, stock < 0 ->
             (stock =? 0) = false /\ (0 <? stock) && (stock <=? minimum) = false).
  { intros stock minimum H. split; [apply Z.eqb_neq; lia |].
    apply andb_false_iff. left. apply Z.ltb_ge. lia. }
  split; [| split].
  - intros stock minimum [-> | ->]; [reflexivity |]. now destruct stock.
  - intros stock minimum Hlt [n [Hin [Hstock Hun]]].
    destruct (Hneg stock minimum Hlt) as [H0 Hcase].
    unfold checkStock. rewrite H0, Hcase. unfold find.
    destruct (List.filter (fun m => stockAlertOf product m && unresolved m) (docs w))
      as [| a l] eqn:Hf.
    { exfalso. refine (filter_nonempty _ _ n Hin _ Hf). now rewrite Hstock, Hun. }
    unfold deleteMany. cbv beta iota zeta. cbn [fst snd].
    rewrite emitAll_docs. split; reflexivity.
  - intros stock minimum Hlt Hnone.
    destruct (Hneg stock minimum Hlt) as [H0 Hcase].
    unfold checkStock. rewrite H0, Hcase. unfold find.
    destruct (List.filter (fun m => stockAlertOf product m && unresolved m) (docs w))
      as [| a l] eqn:Hf; [reflexivity |].
    exfalso. assert (Ha : In a (List.filter
                                  (fun m => stockAlertOf product m && unresolved m)
                                  (docs w))) by (rewrite Hf; now left).
    apply filter_In in Ha as [Ha Hb]. apply andb_true_iff in Hb as [Hb1 Hb2].
    rewrite (Hnone a Ha Hb1) in Hb2. discriminate.
Qed.

Lemma checkStock_missing_or_negative_example :
  objectIdOrAbsent pen
  /\
  fst (checkStock 3000 true pen penName (Some (-4)) (Some 5) penAlertCreated)
  = json (mkStockBody "alerts_deleted" None
            (List.length (List.filter (stockAlertOf pen) (docs penAlertCreated))))
  /\ docs (snd (checkStock 3000 true pen penName (Some (-4)) (Some 5) penAlertCreated))
     = List.filter (fun n => negb (stockAlertOf pen n)) (docs penAlertCreated).
Proof.
  assert (Hid : objectIdOrAbsent pen) by (vm_compute; reflexivity).
  split; [exact Hid |].
  apply (proj1 (proj2 (checkStock_missing_or_negative 3000 true pen penName
                         penAlertCreated Hid))).
  - reflexivity.
  - exists (hd (mkNotification 0 emptyObject) (docs penAlertCreated)).
    vm_compute. repeat split. now left.
Defined.

(** ** Resolution sweeps of the generators *)

(** X15.  One sweep step resolves exactly the unresolved documents under its
    hash: each of them becomes resolved and read, with the note and the
    time of the sweep, its hash and timestamp kept; every other document is
    left as it was; no document is added or removed; one event is published
    per document resolved.  Afterwards no unresolved document carries the
    hash. *)
Theorem sweep_resolves_matching (now : Z) (io : bool) (h note source : string)
    (w : World) :
  map _id (docs (sweep now io h note source w)) = map _id (docs w)
  /\ (forall n, In n (docs (sweep now io h note source w)) ->
                hasHash h n = true -> unresolved n = false)
  /\ (forall n, In n (docs w) -> swept h n = false ->
                In n (docs (sweep now io h note source w)))
  /\ (forall n, In n (docs w) -> swept h n = true ->
                exists u, In u (docs (sweep now io h note source w))
                          /\ _id u = _id n
                          /\ isResolved u = Some true /\ isRead u = Some true
                          /\ resolutionNote u = Some note
                          /\ resolvedAt u = Some now /\ lastUpdated u = Some now
                          /\ notificationHash u = notificationHash n
                          /\ timestamp u = timestamp n)
  /\ emitted (sweep now io h note source w)
     = emitted w
       ++ (if io
           then map (fun n => notification_resolved (_id n) (Some h) note source)
                    (List.filter (swept h) (docs w))
           else []).
Proof.
  unfold sweep, find. fold (swept h).
  destruct (List.filter (swept h) (docs w)) as [| a l] eqn:Hf.
  - assert (Hnone : forall n, In n (docs w) -> swept h n = false).
    { intros n Hin. destruct (swept h n) eqn:E; [| reflexivity].
      exfalso. exact (filter_nonempty _ _ n Hin E Hf). }
    split; [reflexivity |]. split.
    { intros n Hin Hh. specialize (Hnone n Hin). unfold swept in Hnone.
      now rewrite Hh in Hnone. }
    split; [tauto |]. split.
    { intros n Hin E. rewrite (Hnone n Hin) in E. discriminate. }
    destruct io; now rewrite app_nil_r.
  - rewrite emitAll_docs, emitAll_emitted. unfold updateMany.
    cbn [docs with_docs emitted].
    split.
    { rewrite map_map. apply map_ext. intros n. now destruct (swept h n). }
    split.
    { intros n' Hin Hh. apply in_map_iff in Hin as [n [Hn' Hin]].
      destruct (swept h n) eqn:E; subst n'; [reflexivity |].
      unfold swept in E. now rewrite Hh in E. }
    split.
    { intros n Hin E. apply in_map_iff. exists n. now rewrite E. }
    split; [| reflexivity].
    intros n Hin E. exists (mkNotification (_id n) (assign (sweepUpdate now note) n)).
    split; [apply in_map_iff; exists n; now rewrite E |].
    repeat split.
Qed.

Lemma toLowerCase_length (s : string) :
  String.length (toLowerCase s) = String.length s.
Proof. induction s as [| c s IH]; simpl; [reflexivity | now rewrite IH]. Qed.

Lemma hashString_length (d : NotificationData) :
  String.length (hashString d)
  = (String.length (orS (type d) "")
     + String.length (orS (productId d) "")
     + String.length (orS (orderId d) "")
     + String.length (orS (taxId d) "")
     + String.length (orS (invoiceNo d) (orS (invoiceNumber d) ""))
     + String.length (orS (customerName d) (orS (customer d) ""))
     + String.length (orS (billNumber d) "")
     + String.length (orS (gstin d) "") + 7)%nat.
Proof.
  unfold hashString. rewrite toLowerCase_length.
  cbn [String.concat]. rewrite !string_length_append.
  change (String.length sep) with 1%nat. lia.
Qed.

Lemma orS_default_length (a : option string) (b : string) :
  (0 < String.length b)%nat -> (0 < String.length (orS a b))%nat.
Proof.
  intros Hb. unfold orS. destruct a as [s |]; [| exact Hb].
  destruct s; [exact Hb | simpl; lia].
Qed.

Lemma orS_None (b : string) : orS None b = b.
Proof. reflexivity. Qed.

Lemma orS_some_length (s b : string) :
  (0 < String.length s)%nat -> orS (Some s) b = s.
Proof. destruct s; simpl; [lia | reflexivity]. Qed.

Lemma template_length (pieces : list string) (s : string) :
  In s pieces -> (0 < String.length s)%nat ->
  (0 < String.length (template pieces))%nat.
Proof.
  intros Hin Hs. pose proof (concat_empty_separator_length pieces s Hin).
  unfold template. lia.
Qed.

Lemma gstAlertData_key (now : Z) (tax : TaxEntry.t) (id : string) :
  type (gstAlertData now tax id) = Some "GST Alert"
  /\ productId (gstAlertData now tax id) = None
  /\ orderId (gstAlertData now tax id) = None
  /\ taxId (gstAlertData now tax id) = Some id
  /\ invoiceNo (gstAlertData now tax id)
     = Some (orS (TaxEntry.invoiceNo tax) (template ["TAX-"; id]))
  /\ invoiceNumber (gstAlertData now tax id) = None
  /\ customerName (gstAlertData now tax id) = None
  /\ customer (gstAlertData now tax id)
     = Some (orS (TaxEntry.customer tax) "Unknown Customer")
  /\ billNumber (gstAlertData now tax id) = None
  /\ gstin (gstAlertData now tax id) = Some (orS (TaxEntry.gstin tax) "N/A").
Proof.
  unfold gstAlertData. cbv zeta.
  destruct (7 <=? _); [| destruct (3 <=? _)]; repeat split.
Qed.

Lemma paymentAlertData_key (now : Z) (order : Order.t) (id : string) :
  type (paymentAlertData now order id) = Some "Payment Alert"
  /\ productId (paymentAlertData now order id) = None
  /\ orderId (paymentAlertData now order id) = Some id
  /\ taxId (paymentAlertData now order id) = None
  /\ invoiceNo (paymentAlertData now order id) = None
  /\ invoiceNumber (paymentAlertData now order id)
     = Some (orS (Order.billNumber order)
               (orS (Order.invoiceNumber order) (template ["INV-"; id])))
  /\ customerName (paymentAlertData now order id)
     = Some (orS (Order.customerName order) "Unknown Customer")
  /\ customer (paymentAlertData now order id) = None
  /\ billNumber (paymentAlertData now order id)
     = Some (orS (Order.billNumber order)
               (orS (Order.invoiceNumber order) (template ["ORD-"; id])))
  /\ gstin (paymentAlertData now order id) = None.
Proof.
  unfold paymentAlertData. cbv zeta.
  destruct (7 <=? _); [| destruct (3 <=? _)]; repeat split.
Qed.

(** X16.  The resolution sweep of each generator hashes only [type] and the
    record's id, while the alert its scan stores is hashed with the invoice
    number, the customer and the GSTIN or bill number as well, which the
    scan never leaves empty.  The two hashed strings therefore differ for
    every record: the sweep string is strictly shorter. *)
Theorem sweep_key_differs_from_scan_key (now : Z) (id : string) :
  (forall tax,
      (String.length (hashString (gstSweepKey id))
       < String.length (hashString (gstAlertData now tax id)))%nat
      /\ hashString (gstAlertData now tax id) <> hashString (gstSweepKey id))
  /\ (forall order,
        (String.length (hashString (paymentSweepKey (Some id)))
         < String.length (hashString (paymentAlertData now order id)))%nat
        /\ hashString (paymentAlertData now order id)
           <> hashString (paymentSweepKey (Some id))).
Proof.
  assert (Hpos : forall a b, (0 < String.length b)%nat ->
                             (0 < String.length (orS (Some (orS a b)) ""))%nat).
  { intros a b Hb. rewrite orS_some_length; now apply orS_default_length. }
  assert (Htax : (0 < String.length (template ["TAX-"; id]))%nat).
  { apply (template_length _ "TAX-"); simpl; auto; lia. }
  assert (Hord : (0 < String.length (template ["ORD-"; id]))%nat).
  { apply (template_length _ "ORD-"); simpl; auto; lia. }
  split.
  - intros tax.
    assert (Hlt : (String.length (hashString (gstSweepKey id))
                   < String.length (hashString (gstAlertData now tax id)))%nat).
    { rewrite !hashString_length.
      destruct (gstAlertData_key now tax id)
        as (Ht & Hp & Ho & Hx & Hi & Hin & Hc & Hcu & Hb & Hg).
      rewrite Ht, Hp, Ho, Hx, Hi, Hin, Hc, Hcu, Hb, Hg.
      cbn [gstSweepKey type productId orderId taxId invoiceNo invoiceNumber
             customerName customer billNumber gstin set_type set_taxId emptyObject].
      rewrite !orS_None.
      pose proof (Hpos (TaxEntry.gstin tax) "N/A" ltac:(simpl; lia)) as H1.
      pose proof (Hpos (TaxEntry.invoiceNo tax) _ Htax) as H2.
      pose proof (Hpos (TaxEntry.customer tax) "Unknown Customer"
                    ltac:(simpl; lia)) as H3.
      simpl (String.length ""). lia. }
    split; [exact Hlt |]. intros E. rewrite E in Hlt. lia.
  - intros order.
    assert (Hlt : (String.length (hashString (paymentSweepKey (Some id)))
                   < String.length (hashString (paymentAlertData now order id)))%nat).
    { rewrite !hashString_length.
      destruct (paymentAlertData_key now order id)
        as (Ht & Hp & Ho & Hx & Hi & Hin & Hc & Hcu & Hb & Hg).
      rewrite Ht, Hp, Ho, Hx, Hi, Hc, Hcu, Hb, Hg.
      cbn [paymentSweepKey type productId orderId taxId invoiceNo invoiceNumber
             customerName customer billNumber gstin set_type set_orderId
             emptyObject].
      rewrite !orS_None.
      pose proof (Hpos (Order.billNumber order) _
                    (orS_default_length (Order.invoiceNumber order) _ Hord)) as H1.
      pose proof (Hpos (Order.customerName order) "Unknown Customer"
                    ltac:(simpl; lia)) as H2.
      simpl (String.length ""). lia. }
    split; [exact Hlt |]. intros E. rewrite E in Hlt. lia.
Qed.

(** X17.  The priority of a generated alert.  A GST alert is [high] exactly when
    the entry is seven days old or its tax reaches 10000, and [medium]
    otherwise.  A payment alert is [high] exactly when the order is seven
    days old, or three days old with an amount of 5000 or more, and
    [medium] otherwise: a high value alone does not raise it.  Neither
    generator ever gives [low]. *)
Theorem generated_alert_priority (now : Z) (id : string) :
  (forall tax,
      priority (gstAlertData now tax id)
      = Some (if (7 <=? (now - match orElse (TaxEntry.date tax)
                                       (TaxEntry.createdAt tax) with
                               | Some d => d
                               | None => now
                               end) / day)
                 || (10000 <=? orN (TaxEntry.totalTax tax)
                                 (orN (TaxEntry.totalAmount tax) 0))
              then "high" else "medium"))
  /\ (forall order,
        priority (paymentAlertData now order id)
        = Some (let days := (now - match orElse (Order.date order)
                                           (Order.createdAt order) with
                                   | Some d => d
                                   | None => now
                                   end) / day in
                if (7 <=? days)
                   || ((3 <=? days)
                       && (5000 <=? orN (Order.totalAmount order)
                                      (orN (Order.amount order) 0)))
                then "high" else "medium")).
Proof.
  split.
  - intros tax. unfold gstAlertData. cbv zeta.
    destruct (7 <=? _); [| destruct (3 <=? _)]; cbn [priority orb];
      now destruct (10000 <=? _).
  - intros order. unfold paymentAlertData. cbv zeta.
    destruct (7 <=? _); [| destruct (3 <=? _)]; cbn [priority orb andb];
      try reflexivity; now destruct (5000 <=? _).
Qed.

Lemma sweep_keeps (now : Z) (io : bool) (h note source : string) (w : World)
    (n : Notification) :
  In n (docs w) -> notificationHash n <> Some h ->
  In n (docs (sweep now io h note source w)).
Proof.
  intros Hin Hne. unfold sweep.
  destruct (find _ w); [exact Hin |].
  rewrite emitAll_docs. unfold updateMany. cbn [docs with_docs].
  apply in_map_iff. exists n. split; [| exact Hin].
  destruct (hasHash h n) eqn:E; [| reflexivity].
  apply hasHash_true in E. contradiction.
Qed.

(** X18.  The resolution sweeps of the two generators leave a document exactly
    as it is unless its stored hash is the digest of the bare
    [{ type, id }] key of one of the paid records. *)
Theorem sweeps_resolve_only_bare_keys (now : Z) (io : bool) (n : Notification) :
  (forall paid w,
      In n (docs w) ->
      (forall tax id, In tax paid -> TaxEntry._id tax = Some id ->
                      notificationHash n
                      <> Some (generateNotificationHash (gstSweepKey id))) ->
      In n (docs (snd (gstSweep now io paid w))))
  /\ (forall paid w,
        In n (docs w) ->
        (forall order, In order paid ->
                       notificationHash n
                       <> Some (generateNotificationHash
                                  (paymentSweepKey (Order.orderId order)))) ->
        In n (docs (paymentSweep now io paid w))).
Proof.
  split.
  - induction paid as [| tax rest IH]; intros w Hin Hkeys; [exact Hin |].
    cbn [gstSweep]. destruct (TaxEntry._id tax) as [id |] eqn:Eid; [| exact Hin].
    apply IH.
    + apply sweep_keeps; [exact Hin |].
      exact (Hkeys tax id (or_introl eq_refl) Eid).
    + intros tax' id' Hin'. apply Hkeys. now right.
  - induction paid as [| order rest IH]; intros w Hin Hkeys; [exact Hin |].
    cbn [paymentSweep]. apply IH.
    + apply sweep_keeps; [exact Hin |]. exact (Hkeys order (or_introl eq_refl)).
    + intros order' Hin'. apply Hkeys. now right.
Qed.

Lemma sweeps_resolve_only_bare_keys_example :
  In (mkNotification 0
        (applyDefaults (3 * day)
           (insertObject (3 * day) (hashFor pendingTaxAlert) pendingTaxAlert)))
     (docs (snd (gstSweep (5 * day) true [paidTax] taxAlertStored))).
Proof.
  apply (proj1 (sweeps_resolve_only_bare_keys (5 * day) true _)).
  - vm_compute. now left.
  - intros tax id [<- | []] [= <-]. vm_compute. discriminate.
Defined.

(** ** The feed *)

Lemma has_true (h : string) (m : NotificationMap) :
  has h m = true <-> In h (map fst m).
Proof.
  unfold has. rewrite existsb_exists, in_map_iff. split.
  - intros [e [Hin E]]. apply String.eqb_eq in E. now exists e.
  - intros [e [E Hin]]. exists e. split; [exact Hin | now apply String.eqb_eq].
Qed.

Lemma addNew_spec (m : NotificationMap) (n : Notification) :
  NoDup (map fst m) -> keyed m ->
  NoDup (map fst (addNew m n)) /\ keyed (addNew m n)
  /\ (exists extra, addNew m n = m ++ extra /\ (forall e, In e extra -> snd e = n))
  /\ In (hashOf n) (map fst (addNew m n)).
Proof.
  intros Hnd Hk. unfold addNew. destruct (has (hashOf n) m) eqn:E.
  - split; [exact Hnd |]. split; [exact Hk |]. split.
    + exists []. split; [now rewrite app_nil_r | contradiction].
    + now apply has_true.
  - assert (Hnot : ~ In (hashOf n) (map fst m)).
    { intros H. apply has_true in H. congruence. }
    split.
    { rewrite map_app. cbn [map fst]. apply NoDup_app; [exact Hnd | |].
      - constructor; [intros [] | constructor].
      - intros a Ha [<- | []]. contradiction. }
    split.
    { apply Forall_app. split; [exact Hk | now constructor]. }
    split.
    + exists [(hashOf n, n)]. split; [reflexivity |].
      intros e [<- | []]. reflexivity.
    + rewrite map_app, in_app_iff. right. now left.
Qed.

Lemma addAll_spec (ns : list Notification) (m : NotificationMap) :
  NoDup (map fst m) -> keyed m ->
  NoDup (map fst (addAll ns m)) /\ keyed (addAll ns m)
  /\ (exists extra, addAll ns m = m ++ extra
                    /\ (forall e, In e extra -> In (snd e) ns))
  /\ (forall n, In n ns -> In (hashOf n) (map fst (addAll ns m))).
Proof.
  unfold addAll. revert m. induction ns as [| a ns IH]; intros m Hnd Hk.
  - cbn [fold_left]. split; [exact Hnd |]. split; [exact Hk |]. split.
    + exists []. split; [now rewrite app_nil_r | contradiction].
    + contradiction.
  - cbn [fold_left].
    destruct (addNew_spec m a Hnd Hk) as (Hnd1 & Hk1 & [x1 [E1 Hx1]] & Ha).
    destruct (IH (addNew m a) Hnd1 Hk1) as (Hnd2 & Hk2 & [x2 [E2 Hx2]] & Hns).
    split; [exact Hnd2 |]. split; [exact Hk2 |]. split.
    + exists (x1 ++ x2). split; [now rewrite E2, E1, app_assoc |].
      intros e He. apply in_app_iff in He as [He | He].
      * left. symmetry. now apply Hx1.
      * right. now apply Hx2.
    + intros n [<- | Hn]; [| now apply Hns].
      rewrite E2, map_app, in_app_iff. now left.
Qed.

Lemma tryGenerate_spec (generate : World -> outcome (list Notification))
    (m : NotificationMap) (w : World) :
  NoDup (map fst m) -> keyed m ->
  NoDup (map fst (fst (tryGenerate generate m w)))
  /\ keyed (fst (tryGenerate generate m w))
  /\ exists extra, fst (tryGenerate generate m w) = m ++ extra.
Proof.
  intros Hnd Hk. unfold tryGenerate.
  destruct (generate w) as [[err | alerts] w'].
  - split; [exact Hnd |]. split; [exact Hk |]. exists []. now rewrite app_nil_r.
  - destruct (addAll_spec alerts m Hnd Hk) as (H1 & H2 & [x [E _]] & _).
    split; [exact H1 |]. split; [exact H2 |]. now exists x.
Qed.

Lemma insertByTime_Permutation (n : Notification) (l : list Notification) :
  Permutation (insertByTime n l) (n :: l).
Proof.
  induction l as [| a l IH]; cbn [insertByTime]; [reflexivity |].
  destruct (timeOf a <=? timeOf n); [reflexivity |].
  rewrite IH. apply perm_swap.
Qed.

Lemma newestFirst_Permutation (l : list Notification) :
  Permutation (newestFirst l) l.
Proof.
  unfold newestFirst. induction l as [| a l IH]; cbn [fold_right]; [reflexivity |].
  rewrite insertByTime_Permutation. now constructor.
Qed.

Lemma insertByTime_sorted (n : Notification) (l : list Notification) :
  StronglySorted newerFirst l -> StronglySorted newerFirst (insertByTime n l).
Proof.
  induction l as [| a l IH]; intros Hs; cbn [insertByTime].
  - repeat constructor.
  - apply StronglySorted_inv in Hs as [Hs Hall].
    destruct (Z.leb_spec (timeOf a) (timeOf n)) as [Hle | Hgt].
    + constructor; [now constructor |].
      constructor; [exact Hle |].
      apply Forall_forall. intros b Hb. unfold newerFirst.
      rewrite Forall_forall in Hall. specialize (Hall b Hb).
      unfold newerFirst in Hall. lia.
    + constructor; [now apply IH |].
      apply Forall_forall. intros b Hb. apply insertByTime_In in Hb as [-> | Hb].
      * unfold newerFirst. lia.
      * rewrite Forall_forall in Hall. now apply Hall.
Qed.

Lemma newestFirst_sorted (l : list Notification) :
  StronglySorted newerFirst (newestFirst l).
Proof.
  unfold newestFirst. induction l as [| a l IH]; cbn [fold_right].
  - constructor.
  - now apply insertByTime_sorted.
Qed.

Lemma NoDup_map_filter {A B : Type} (f : A -> B) (p : A -> bool) (l : list A) :
  NoDup (map f l) -> NoDup (map f (List.filter p l)).
Proof.
  induction l as [| a l IH]; cbn [map List.filter]; intros Hnd; [constructor |].
  inversion Hnd as [| x xs Hnot Hrest]; subst.
  destruct (p a); [| now apply IH].
  cbn [map]. constructor; [| now apply IH].
  intros Hin. apply Hnot. apply in_map_iff in Hin as [b [E Hb]].
  apply filter_In in Hb as [Hb _]. apply in_map_iff. now exists b.
Qed.

Lemma keyed_hashes (m : NotificationMap) :
  keyed m -> map (fun n : Notification => hashOf n) (map snd m) = map fst m.
Proof.
  unfold keyed. intros Hk. rewrite map_map. apply map_ext_in. intros e He.
  rewrite Forall_forall in Hk. symmetry. now apply Hk.
Qed.

(** X19.  [GET /] answers a list in which no entry is resolved, no two entries
    have one hash, and the entries come newest first.  Every stored
    unresolved alert among the newest hundred is represented: the answer
    holds an entry of its hash, and that entry is a stored one, as it was
    before the generators of this request ran. *)
Theorem feed_unresolved_unique_sorted (now : Z) (io : bool) (dom : Domain)
    (w : World) :
  exists feed,
    fst (getNotifications now io dom w) = json feed
    /\ (forall n, In n feed -> truthy (isResolved n) = false)
    /\ NoDup (map (fun n : Notification => hashOf n) feed)
    /\ StronglySorted newerFirst feed
    /\ (forall n, In n (activeFeedQuery w) ->
                  exists m, In m feed /\ hashOf m = hashOf n
                            /\ In m (activeFeedQuery w)).
Proof.
  unfold getNotifications. cbv zeta.
  destruct (addAll_spec (activeFeedQuery w) [] (NoDup_nil _) (Forall_nil _))
    as (Hnd0 & Hk0 & [x0 [E0 Hx0]] & Hin0).
  cbn [app] in E0.
  destruct (tryGenerate_spec (generateGSTAlerts now io dom)
              (addAll (activeFeedQuery w) []) w Hnd0 Hk0) as (Hnd1 & Hk1 & [x1 E1]).
  destruct (tryGenerate (generateGSTAlerts now io dom)
              (addAll (activeFeedQuery w) []) w) as [m1 w1].
  cbn [fst] in Hnd1, Hk1, E1.
  destruct (tryGenerate_spec (generatePaymentAlerts now io dom) m1 w1 Hnd1 Hk1)
    as (Hnd2 & Hk2 & [x2 E2]).
  destruct (tryGenerate (generatePaymentAlerts now io dom) m1 w1) as [m2 w2].
  cbn [fst] in Hnd2, Hk2, E2.
  exists (feedOf m2). cbn [fst]. split; [reflexivity |].
  unfold feedOf. split.
  { intros n Hn. apply newestFirst_In, filter_In in Hn as [_ Hn].
    now apply negb_true_iff in Hn. }
  split.
  { apply (Permutation_NoDup
             (l := map (fun n : Notification => hashOf n)
                     (List.filter
                        (fun n : Notification => negb (truthy (isResolved n)))
                        (map snd m2)))).
    - apply Permutation_map. symmetry. apply newestFirst_Permutation.
    - apply NoDup_map_filter. now rewrite keyed_hashes. }
  split; [apply newestFirst_sorted |].
  intros n Hn. specialize (Hin0 n Hn).
  apply in_map_iff in Hin0 as [e [Ee He]].
  exists (snd e).
  assert (Hstored : In (snd e) (activeFeedQuery w)).
  { apply Hx0. rewrite <- E0. exact He. }
  split; [| split; [| exact Hstored]].
  - apply newestFirst_In, filter_In. split.
    + apply in_map. rewrite E2, E1. apply in_or_app. left.
      apply in_or_app. now left.
    + apply activeFeedQuery_In in Hstored as [_ Hres]. now rewrite Hres.
  - rewrite <- Ee. symmetry. unfold keyed in Hk0. rewrite Forall_forall in Hk0.
    now apply Hk0.
Qed.

(** ** Statistics and the stock alert list *)

Lemma hasType_true (t : string) (n : Notification) :
  hasType t n = true <-> type n = Some t.
Proof.
  unfold hasType, neqS, strictNeq. destruct (type n) as [s |]; simpl.
  - rewrite negb_involutive, String.eqb_eq. split; congruence.
  - split; discriminate.
Qed.

Lemma stats_counts (l : list Notification) :
  let stock := List.filter (fun n => hasType "Low Stock" n || hasType "Out of Stock" n) l in
  let gst := List.filter (hasType "GST Alert") l in
  let payment := List.filter (hasType "Payment Alert") l in
  (List.length stock + List.length gst + List.length payment <= List.length l
   /\ count notRead stock <= List.length stock
   /\ count notRead gst <= List.length gst
   /\ count notRead payment <= List.length payment
   /\ count notRead stock + count notRead gst + count notRead payment
      <= count notRead l
   /\ count notRead l <= List.length l)%nat.
Proof.
  unfold count. induction l as [| a l IH]; [cbn; lia |].
  cbv zeta in *. cbn [List.filter].
  destruct (hasType "Low Stock" a) eqn:E1, (hasType "Out of Stock" a) eqn:E2,
    (hasType "GST Alert" a) eqn:E3, (hasType "Payment Alert" a) eqn:E4;
    try apply hasType_true in E1; try apply hasType_true in E2;
    try apply hasType_true in E3; try apply hasType_true in E4;
    try congruence;
    cbn [orb List.filter]; destruct (notRead a); cbn [List.length]; lia.
Qed.

(** X20.  [GET /stats] is always answered, and its numbers fit together: the
    stock, GST and payment alerts are counted apart and never exceed the
    total; each unread count is at most the count of its kind; the unread
    counts of the three kinds together are at most the unread total. *)
Theorem stats_are_consistent (now : Z) (io : bool) (dom : Domain) (w : World) :
  exists s,
    fst (getStats now io dom w) = json s
    /\ (stockBreakdown s + gstBreakdown s + paymentBreakdown s
        <= totalNotifications s)%nat
    /\ (lowStockCount s <= stockBreakdown s)%nat
    /\ (gstAlertCount s <= gstBreakdown s)%nat
    /\ (paymentAlertCount s <= paymentBreakdown s)%nat
    /\ (lowStockCount s + gstAlertCount s + paymentAlertCount s
        <= unreadCount s)%nat
    /\ (unreadCount s <= totalNotifications s)%nat.
Proof.
  unfold getStats. cbv zeta.
  destruct (generateGSTAlerts_returns now io dom w) as [gstAlerts Hg].
  destruct (generateGSTAlerts now io dom w) as [r1 w1]. cbn [fst] in Hg. subst r1.
  destruct (generatePaymentAlerts_returns now io dom w1) as [paymentAlerts Hp].
  destruct (generatePaymentAlerts now io dom w1) as [r2 w2]. cbn [fst] in Hp.
  subst r2. eexists. split; [reflexivity |].
  cbn [stockBreakdown gstBreakdown paymentBreakdown totalNotifications
         lowStockCount gstAlertCount paymentAlertCount unreadCount].
  apply (stats_counts
           (map snd (addAll paymentAlerts
                       (addAll gstAlerts (addAll (find unresolved w) []))))).
Qed.

Lemma insertBy_In (before : Notification -> Notification -> bool)
    (n m : Notification) (l : list Notification) :
  In m (insertBy before n l) <-> m = n \/ In m l.
Proof.
  induction l as [| a l IH]; cbn [insertBy In]; [intuition |].
  destruct (before a n && negb (before n a)); cbn [In]; [rewrite IH |]; intuition.
Qed.

Lemma insertBy_Permutation (before : Notification -> Notification -> bool)
    (n : Notification) (l : list Notification) :
  Permutation (insertBy before n l) (n :: l).
Proof.
  induction l as [| a l IH]; cbn [insertBy]; [reflexivity |].
  destruct (before a n && negb (before n a)); [| reflexivity].
  rewrite IH. apply perm_swap.
Qed.

Lemma sortBy_Permutation (before : Notification -> Notification -> bool)
    (l : list Notification) :
  Permutation (sortBy before l) l.
Proof.
  unfold sortBy. induction l as [| a l IH]; cbn [fold_right]; [reflexivity |].
  rewrite insertBy_Permutation. now constructor.
Qed.

Lemma comesBefore_total (a b : Notification) :
  comesBefore a b \/ comesBefore b a.
Proof.
  unfold comesBefore, byPriorityThenTime.
  rewrite (String.compare_antisym (orS (priority a) "") (orS (priority b) "")).
  destruct (String.compare (orS (priority b) "") (orS (priority a) ""));
    cbn [CompOpp]; auto.
  destruct (Z.leb_spec (timeOf b) (timeOf a)); [now left |].
  right. apply Z.leb_le. lia.
Qed.

Lemma comesBefore_trans (a b c : Notification) :
  enumPriority a -> enumPriority b -> enumPriority c ->
  comesBefore a b -> comesBefore b c -> comesBefore a c.
Proof.
  unfold enumPriority, comesBefore, byPriorityThenTime. cbn [In].
  intros [Ha | [Ha | [Ha | []]]] [Hb | [Hb | [Hb | []]]] [Hc | [Hc | [Hc | []]]];
    rewrite <- Ha, <- Hb, <- Hc; cbn; try discriminate; try reflexivity;
    rewrite !Z.leb_le; lia.
Qed.

Lemma insertBy_sorted (n : Notification) (l : list Notification) :
  enumPriority n -> Forall enumPriority l ->
  StronglySorted comesBefore l ->
  StronglySorted comesBefore (insertBy byPriorityThenTime n l).
Proof.
  intros Hn. induction l as [| a l IH]; intros Hall Hs; cbn [insertBy].
  - repeat constructor.
  - apply StronglySorted_inv in Hs as [Hs Hrest].
    inversion Hall as [| x xs Ha Hl]; subst.
    destruct (byPriorityThenTime a n && negb (byPriorityThenTime n a)) eqn:E.
    + apply andb_true_iff in E as [E _].
      constructor; [now apply IH |].
      apply Forall_forall. intros b Hb. apply insertBy_In in Hb as [-> | Hb].
      * exact E.
      * rewrite Forall_forall in Hrest. now apply Hrest.
    + assert (Hna : comesBefore n a).
      { destruct (comesBefore_total n a) as [H | H]; [exact H |].
        unfold comesBefore in H. rewrite H in E. cbn [andb] in E.
        now apply negb_false_iff in E. }
      constructor; [now constructor |].
      constructor; [exact Hna |].
      apply Forall_forall. intros b Hb.
      rewrite Forall_forall in Hrest, Hl.
      apply (comesBefore_trans n a b); auto.
Qed.

Lemma sortBy_sorted (l : list Notification) :
  Forall enumPriority l ->
  StronglySorted comesBefore (sortBy byPriorityThenTime l).
Proof.
  unfold sortBy. induction l as [| a l IH]; intros Hall; cbn [fold_right].
  - constructor.
  - inversion Hall as [| x xs Ha Hl]; subst.
    apply insertBy_sorted; [exact Ha | | now apply IH].
    apply Forall_forall. intros b Hb.
    apply (Permutation_in _ (sortBy_Permutation byPriorityThenTime l)) in Hb.
    rewrite Forall_forall in Hl. now apply Hl.
Qed.

Lemma StronglySorted_later {A : Type} (R : A -> A -> Prop) (l1 l2 : list A) (a b : A) :
  StronglySorted R (l1 ++ a :: l2) -> In b l2 -> R a b.
Proof.
  induction l1 as [| x l1 IH]; cbn [app]; intros Hs Hb.
  - apply StronglySorted_inv in Hs as [_ Hall].
    rewrite Forall_forall in Hall. now apply Hall.
  - apply StronglySorted_inv in Hs as [Hs _]. now apply IH.
Qed.

(** X21.  [GET /stock-alerts] answers the unresolved stock alerts, each once,
    sorted by the priority as a string, greatest first, and by time, newest
    first, within one priority.  As strings [medium] is above [low] and
    [low] above [high]: whatever follows a [high] alert in the answer is
    [high] too, and whatever precedes a [medium] alert is [medium]; the
    alerts of high priority come last. *)
Theorem stock_alerts_high_priority_last (w : World) :
  (forall n, In n (docs w) -> enumPriority n) ->
  Permutation (getStockAlerts w)
    (List.filter (fun n => unresolved n && (hasType "Low Stock" n
                                            || hasType "Out of Stock" n))
       (docs w))
  /\ StronglySorted comesBefore (getStockAlerts w)
  /\ (forall l1 a l2 b,
         getStockAlerts w = l1 ++ a :: l2 -> In b l2 ->
         (priority a = Some "high" -> priority b = Some "high")
         /\ (priority b = Some "medium" -> priority a = Some "medium")
         /\ (priority a = priority b -> timeOf b <= timeOf a)).
Proof.
  intros Henum.
  assert (Hsame : forall n : Notification,
             match type n with
             | Some t => existsb (String.eqb t) stockTypes
             | None => false
             end = hasType "Low Stock" n || hasType "Out of Stock" n).
  { intros n. unfold hasType, neqS, strictNeq, stockTypes.
    destruct (type n) as [t |]; cbn [existsb]; [| reflexivity].
    rewrite !negb_involutive, orb_false_r. reflexivity. }
  assert (Hall : Forall enumPriority
                   (find (fun n => unresolved n
                                   && match type n with
                                      | Some t => existsb (String.eqb t) stockTypes
                                      | None => false
                                      end) w)).
  { apply Forall_forall. intros n Hn. unfold find in Hn.
    apply filter_In in Hn as [Hn _]. now apply Henum. }
  assert (Hsorted : StronglySorted comesBefore (getStockAlerts w)).
  { now apply sortBy_sorted. }
  split.
  { unfold getStockAlerts. rewrite sortBy_Permutation. unfold find.
    erewrite filter_ext; [reflexivity |]. intros n. now rewrite Hsame. }
  split; [exact Hsorted |].
  intros l1 a l2 b E Hb.
  assert (Hab : comesBefore a b).
  { rewrite E in Hsorted. exact (StronglySorted_later _ l1 l2 a b Hsorted Hb). }
  assert (Hin : forall x, In x (getStockAlerts w) -> enumPriority x).
  { intros x Hx. unfold getStockAlerts in Hx.
    apply (Permutation_in _ (sortBy_Permutation _ _)) in Hx.
    rewrite Forall_forall in Hall. now apply Hall. }
  assert (Ha : enumPriority a).
  { apply Hin. rewrite E. apply in_or_app. right. now left. }
  assert (Hb' : enumPriority b).
  { apply Hin. rewrite E. apply in_or_app. right. now right. }
  unfold enumPriority, comesBefore, byPriorityThenTime in *. cbn [In] in Ha, Hb'.
  destruct Ha as [Ha | [Ha | [Ha | []]]], Hb' as [Hb' | [Hb' | [Hb' | []]]];
    rewrite <- Ha, <- Hb' in *; cbn in Hab; try discriminate;
    (split; [| split]); try discriminate; try reflexivity;
    intros _; now apply Z.leb_le.
Qed.

Lemma stock_alerts_high_priority_last_example :
  Permutation (getStockAlerts twoStockAlerts)
    (List.filter (fun n => unresolved n && (hasType "Low Stock" n
                                            || hasType "Out of Stock" n))
       (docs twoStockAlerts))
  /\ StronglySorted comesBefore (getStockAlerts twoStockAlerts)
  /\ (forall l1 a l2 b,
         getStockAlerts twoStockAlerts = l1 ++ a :: l2 -> In b l2 ->
         (priority a = Some "high" -> priority b = Some "high")
         /\ (priority b = Some "medium" -> priority a = Some "medium")
         /\ (priority a = priority b -> timeOf b <= timeOf a)).
Proof.
  apply (stock_alerts_high_priority_last twoStockAlerts).
  assert (E : exists d1 d2, docs twoStockAlerts = [d1; d2]
                            /\ enumPriority d1 /\ enumPriority d2).
  { do 2 eexists. split; [vm_compute; reflexivity |].
    split; vm_compute; auto. }
  destruct E as (d1 & d2 & E & H1 & H2).
  intros n Hn. rewrite E in Hn. destruct Hn as [<- | [<- | []]]; assumption.
Defined.

(** ** The socket handlers *)

Lemma find_app_miss {A : Type} (f : A -> bool) (l : list A) (x : A) :
  f x = false -> List.find f (l ++ [x]) = List.find f l.
Proof.
  intros Hx. induction l as [| a l IH]; cbn [app List.find].
  - now rewrite Hx.
  - now rewrite IH.
Qed.

Lemma saveExisting_result (d saved : Notification) (w w1 : World) :
  Socket.saveExisting d w = inr (saved, w1) ->
  saved = d /\ w1 = with_docs (replace d (docs w)) w.
Proof.
  unfold Socket.saveExisting. destruct (validateDocument d); [| discriminate].
  intros H. now injection H as <- <-.
Qed.

(** X22.  The upsert of the socket handlers stores no hash.  A document it
    creates is appended without [notificationHash], so no hash lookup of the
    route's upsert finds it, then or later; a document it updates is an
    unread one of the same [type] and [productId], resolved or not, and
    keeps the id, hash, read and resolved state it had. *)
Theorem socket_upsert_stores_no_hash (now : Z) (d : NotificationData)
    (w w1 : World) (saved : Notification) (isNew : bool) :
  Socket.upsertNotification now d w = (inr (saved, isNew), w1) ->
  (isNew = true ->
   notificationHash saved = None
   /\ _id saved = nextId w
   /\ docs w1 = docs w ++ [saved]
   /\ (forall now' h, lookupFilter now' h saved = false)
   /\ (forall now' h, findOne (lookupFilter now' h) w1
                      = findOne (lookupFilter now' h) w))
  /\ (isNew = false ->
      exists old, In old (docs w)
                  /\ type old = type d /\ productId old = productId d
                  /\ isRead old = Some false
                  /\ _id saved = _id old
                  /\ notificationHash saved = notificationHash old
                  /\ isRead saved = isRead old
                  /\ isResolved saved = isResolved old
                  /\ docs w1 = replace saved (docs w)).
Proof.
  unfold Socket.upsertNotification. cbv zeta.
  destruct (findOne (Socket.similar d) w) as [existing |] eqn:Efind.
  - destruct (Socket.saveExisting _ w) as [err | [s w']] eqn:Esave;
      [discriminate |].
    intros H. injection H as <- <- <-.
    apply saveExisting_result in Esave as [-> ->].
    split; [discriminate |]. intros _.
    unfold findOne in Efind. apply find_some in Efind as [Hin Hsim].
    unfold Socket.similar in Hsim.
    apply andb_true_iff in Hsim as [Hsim Hunread].
    apply andb_true_iff in Hsim as [Htype Hproduct].
    exists existing. split; [exact Hin |].
    split.
    { apply negb_true_iff in Htype. apply eqS_true. unfold eqS. now rewrite Htype. }
    split.
    { apply negb_true_iff in Hproduct. apply eqS_true. unfold eqS.
      now rewrite Hproduct. }
    split; [now apply unread_true |].
    repeat split.
  - destruct (save _ w) as [err | [s w']] eqn:Esave; [discriminate |].
    intros H. injection H as <- <- <-.
    apply save_result in Esave as [-> ->].
    split; [| discriminate]. intros _.
    assert (Hmiss : forall now' h,
               lookupFilter now' h
                 (mkNotification (nextId w)
                    (applyDefaults now
                       {| type := type d; title := title d; message := message d;
                          productId := productId d; productName := productName d;
                          currentStock := currentStock d; minStock := minStock d;
                          orderId := None; taxId := None; invoiceNo := None;
                          billNumber := None; invoiceNumber := None;
                          customerName := None; customer := None;
                          customerPhone := None; gstin := None; amount := None;
                          paymentMode := None; daysSince := None;
                          priority := orElse (priority d) (Some "medium");
                          color := orElse (color d) (Some "blue");
                          icon := orElse (icon d) (Some "Bell");
                          isRead := orElse (isRead d) (Some false);
                          isResolved := None; resolutionNote := None;
                          timestamp := orElse (timestamp d) (Some now);
                          lastUpdated := None; resolvedAt := None;
                          notificationHash := None; status := None;
                          isHighValue := None; preserveTimestamp := None |}))
               = false).
    { intros now' h. reflexivity. }
    split; [reflexivity |]. split; [reflexivity |]. split; [reflexivity |].
    split; [exact Hmiss |].
    intros now' h. unfold findOne. cbn [docs]. apply find_app_miss, Hmiss.
Qed.

Lemma socket_upsert_stores_no_hash_example :
  exists saved w1,
    Socket.upsertNotification 1000 (outOfStockData pen penName 0 5) emptyWorld
    = (inr (saved, true), w1)
    /\ notificationHash saved = None
    /\ findOne (lookupFilter 1000 (hashFor (outOfStockData pen penName 0 5))) w1
       = None.
Proof.
  do 2 eexists. split; [vm_compute; reflexivity |].
  pose proof (proj1 (socket_upsert_stores_no_hash 1000
                       (outOfStockData pen penName 0 5) emptyWorld _ _ true
                       ltac:(vm_compute; reflexivity)) eq_refl)
    as (Hh & _ & _ & _ & Hfind).
  split; [exact Hh |]. rewrite Hfind. reflexivity.
Defined.

(** X23.  The socket handlers for marking read and deleting publish their event
    whatever they find.  [mark_all_read] marks every unread document read,
    the resolved ones too, and stamps nothing; [mark_notification_read] and
    [delete_notification] publish their event even when no document has the
    id, and change nothing then. *)
Theorem socket_handlers_always_publish (id : nat) (w : World) :
  emitted (Socket.onMarkAllRead w) = emitted w ++ [all_notifications_read]
  /\ map _id (docs (Socket.onMarkAllRead w)) = map _id (docs w)
  /\ (forall n, In n (docs (Socket.onMarkAllRead w)) -> isRead n <> Some false)
  /\ (forall n, In n (docs w) -> unread n = true ->
                exists u, In u (docs (Socket.onMarkAllRead w))
                          /\ _id u = _id n /\ isRead u = Some true
                          /\ isResolved u = isResolved n
                          /\ lastUpdated u = lastUpdated n)
  /\ emitted (Socket.onMarkNotificationRead id w)
     = emitted w ++ [notification_read id]
  /\ emitted (Socket.onDeleteNotification id w)
     = emitted w ++ [socket_notification_deleted id]
  /\ (findById id w = None ->
      docs (Socket.onMarkNotificationRead id w) = docs w
      /\ docs (Socket.onDeleteNotification id w) = docs w).
Proof.
  split; [reflexivity |].
  split.
  { unfold Socket.onMarkAllRead, updateMany. cbn [emit docs with_docs].
    rewrite map_map. apply map_ext. intros n. now destruct (unread n). }
  split.
  { unfold Socket.onMarkAllRead, updateMany. cbn [emit docs with_docs].
    intros n' Hin Hread. apply in_map_iff in Hin as [n [E Hin]].
    destruct (unread n) eqn:Eu; subst n'; [discriminate |].
    apply unread_true in Hread. congruence. }
  split.
  { unfold Socket.onMarkAllRead, updateMany. cbn [emit docs with_docs].
    intros n Hin Hu.
    exists (mkNotification (_id n) (assign (set_isRead (Some true) emptyObject) n)).
    split; [apply in_map_iff; exists n; now rewrite Hu |]. repeat split. }
  assert (Hupd :
             updateById id (set_isRead (Some true) emptyObject) false w
             = match findById id w with
               | None => inr (None, w)
               | Some old =>
                   inr (Some (mkNotification id
                                (assign (set_isRead (Some true) emptyObject) old)),
                        with_docs
                          (replace (mkNotification id
                                      (assign (set_isRead (Some true) emptyObject)
                                         old))
                             (docs w)) w)
               end).
  { unfold updateById. cbn [validateUpdate].
    destruct (findById id w) as [old |]; [| reflexivity].
    cbv zeta.
    change (notificationHash
              (mkNotification id (assign (set_isRead (Some true) emptyObject) old)))
      with (notificationHash old).
    now rewrite neqS_refl. }
  split.
  { unfold Socket.onMarkNotificationRead. rewrite Hupd.
    now destruct (findById id w). }
  split; [reflexivity |].
  intros Hnone. split.
  { unfold Socket.onMarkNotificationRead. rewrite Hupd.
    now rewrite Hnone. }
  unfold Socket.onDeleteNotification, deleteMany. cbn [snd emit docs with_docs].
  unfold findById, findOne in Hnone.
  apply forallb_filter_id. apply forallb_forall. intros n Hn.
  apply negb_true_iff. exact (find_none _ _ Hnone n Hn).
Qed.

(** ** Reads that write, and hashes that collide *)

(** X24.  [GET /] and [GET /stats] are reads that write: each runs the GST
    generator and then the payment generator on the collection, and leaves
    the collection and the published events exactly as the two generators
    leave them. *)
Theorem reads_run_both_generators (now : Z) (io : bool) (dom : Domain) (w : World) :
  snd (getNotifications now io dom w)
  = snd (generatePaymentAlerts now io dom (snd (generateGSTAlerts now io dom w)))
  /\ snd (getStats now io dom w) = snd (getNotifications now io dom w).
Proof.
  unfold getNotifications, getStats, tryGenerate. cbv zeta.
  destruct (generateGSTAlerts_returns now io dom w) as [gstAlerts Hg].
  destruct (generateGSTAlerts now io dom w) as [r1 w1]. cbn [fst] in Hg. subst r1.
  cbn [snd].
  destruct (generatePaymentAlerts_returns now io dom w1) as [paymentAlerts Hp].
  destruct (generatePaymentAlerts now io dom w1) as [r2 w2]. cbn [fst] in Hp.
  subst r2. split; reflexivity.
Qed.

Lemma toLowerCase_app (a b : string) :
  toLowerCase (a ++ b) = (toLowerCase a ++ toLowerCase b)%string.
Proof. induction a as [| c a IH]; cbn; [reflexivity | now rewrite IH]. Qed.

Lemma lower_ascii_idempotent (c : ascii) : lower_ascii (lower_ascii c) = lower_ascii c.
Proof.
  unfold lower_ascii.
  destruct (Nat.leb 65 (nat_of_ascii c) && Nat.leb (nat_of_ascii c) 90)%bool eqn:E;
    [| now rewrite E].
  apply andb_true_iff in E as [E1 E2].
  apply Nat.leb_le in E1, E2.
  rewrite nat_ascii_embedding by lia.
  assert (H : Nat.leb (nat_of_ascii c + 32) 90 = false) by (apply Nat.leb_gt; lia).
  rewrite H, andb_false_r. reflexivity.
Qed.

Lemma toLowerCase_idempotent (s : string) :
  toLowerCase (toLowerCase s) = toLowerCase s.
Proof.
  induction s as [| c s IH]; cbn; [reflexivity |].
  now rewrite lower_ascii_idempotent, IH.
Qed.

Lemma orS_toLowerCase (s : string) :
  toLowerCase (orS (Some (toLowerCase s)) "") = toLowerCase (orS (Some s) "").
Proof.
  destruct s as [| c s]; [reflexivity |].
  cbn [toLowerCase orS String.eqb]. now rewrite lower_ascii_idempotent,
    toLowerCase_idempotent.
Qed.

Lemma hashString_parts (d : NotificationData) :
  hashString d
  = (toLowerCase (orS (type d) "") ++ "_"
     ++ toLowerCase (orS (productId d) "") ++ "_"
     ++ toLowerCase (orS (orderId d) "") ++ "_"
     ++ toLowerCase (orS (taxId d) "") ++ "_"
     ++ toLowerCase (orS (invoiceNo d) (orS (invoiceNumber d) "")) ++ "_"
     ++ toLowerCase (orS (customerName d) (orS (customer d) "")) ++ "_"
     ++ toLowerCase (orS (billNumber d) "") ++ "_"
     ++ toLowerCase (orS (gstin d) ""))%string.
Proof.
  unfold hashString, sep. cbn [String.concat].
  rewrite !toLowerCase_app. reflexivity.
Qed.

Lemma append_assoc (a b c : string) : ((a ++ b) ++ c = a ++ b ++ c)%string.
Proof. induction a as [| x a IH]; cbn; [reflexivity | now rewrite IH]. Qed.

(** X25.  Different alerts can have one hash, and the upsert then takes the
    second for the first.  The letters' case is dropped, so two order ids
    that differ only in case collide; [invoiceNumber] stands in for an
    absent [invoiceNo] and [customer] for an absent [customerName]; and the
    fields are joined by an underscore that the fields may contain
    themselves, so an underscore at the end of one field and one at the
    start of the next cannot be told apart. *)
Theorem hash_collisions (d : NotificationData) :
  (forall id, generateNotificationHash (set_orderId (Some (toLowerCase id)) d)
              = generateNotificationHash (set_orderId (Some id) d))
  /\ (forall number,
         generateNotificationHash
           (set_invoiceNo None (set_invoiceNumber (Some number) d))
         = generateNotificationHash
             (set_invoiceNo (Some number) (set_invoiceNumber None d)))
  /\ (forall name,
         generateNotificationHash
           (set_customerName None (set_customer (Some name) d))
         = generateNotificationHash
             (set_customerName (Some name) (set_customer None d)))
  /\ (forall order tax,
         order <> "" ->
         generateNotificationHash
           (set_orderId (Some (order ++ "_")%string) (set_taxId (Some tax) d))
         = generateNotificationHash
             (set_orderId (Some order) (set_taxId (Some ("_" ++ tax)%string) d))).
Proof.
  unfold generateNotificationHash.
  split; [| split; [| split]].
  - intros id. apply f_equal. rewrite !hashString_parts.
    cbn [type productId orderId taxId invoiceNo invoiceNumber customerName
           customer billNumber gstin set_orderId].
    now rewrite orS_toLowerCase.
  - intros number. reflexivity.
  - intros name. reflexivity.
  - intros order tax Horder. apply f_equal. rewrite !hashString_parts.
    cbn [type productId orderId taxId invoiceNo invoiceNumber customerName
           customer billNumber gstin set_orderId set_taxId].
    assert (H1 : orS (Some (order ++ "_")%string) "" = (order ++ "_")%string).
    { destruct order; [contradiction | reflexivity]. }
    assert (H2 : orS (Some order) "" = order).
    { destruct order; [contradiction | reflexivity]. }
    assert (H3 : orS (Some ("_" ++ tax)%string) "" = ("_" ++ tax)%string) by reflexivity.
    assert (H4 : toLowerCase (orS (Some tax) "") = toLowerCase tax).
    { now destruct tax. }
    rewrite H1, H2, H3, H4, !toLowerCase_app.
    do 2 f_equal. rewrite !append_assoc. reflexivity.
Qed.

Lemma hash_collisions_example :
  generateNotificationHash
    (set_orderId (Some ("ORD-7" ++ "_")%string) (set_taxId (Some "A") emptyObject))
  = generateNotificationHash
      (set_orderId (Some "ORD-7") (set_taxId (Some ("_" ++ "A")%string) emptyObject)).
Proof.
  apply (proj2 (proj2 (proj2 (hash_collisions emptyObject)))). discriminate.
Defined.
